(** * Instagram content crew: text scraping and image adapter

    A shallow embedding of the parsing helpers of [instagram_crew.py]
    ([InstagramContentCrew]) and of the provider adapter of
    [image_generator.py] ([ImageGenerator]), with the properties the
    design document states about them. *)

From Stdlib Require Import String Ascii List NArith ZArith QArith Bool Lia.
From Stdlib Require Import DecimalString DecimalPos.
Import ListNotations.

Local Open Scope N_scope.

(* ===================================================================== *)
(** ** Python text *)
(* ===================================================================== *)

(** A Python [str] is a sequence of code points below 0x110000.  Lone
    surrogates (0xD800 to 0xDFFF) may occur in it, as CPython allows:
    only encoding to UTF-8 refuses them. *)
Module PyStr.

Definition char := N.
Definition pystr := list char.

(** String literals of the source, written as ASCII Rocq strings. *)
Fixpoint py (s : string) : pystr :=
  match s with
  | EmptyString => []
  | String a s' => N_of_ascii a :: py s'
  end.

Definition NL : char := 10.       (* '\n' *)
Definition SPACE : char := 32.    (* ' '  *)
Definition HASH : char := 35.     (* '#'  *)
Definition HYPHEN : char := 45.   (* '-'  *)
Definition UNDERSCORE : char := 95.
Definition BULLET : char := 8226. (* U+2022 *)

Definition eqb_str (a b : pystr) : bool :=
  if list_eq_dec N.eq_dec a b then true else false.

(** [bool(s)]: a string is truthy when it is not empty. *)
Definition truthy (s : pystr) : bool :=
  match s with [] => false | _ :: _ => true end.

(** [str.isspace] on one character: the code points CPython's
    [_PyUnicode_IsWhitespace] accepts. *)
Definition isspace (c : char) : bool :=
  ((9 <=? c) && (c <=? 13)) || ((28 <=? c) && (c <=? 32))
  || (c =? 133) || (c =? 160) || (c =? 5760)
  || ((8192 <=? c) && (c <=? 8202))
  || (c =? 8232) || (c =? 8233) || (c =? 8239) || (c =? 8287)
  || (c =? 12288).

Fixpoint dropwhile (p : char -> bool) (s : pystr) : pystr :=
  match s with
  | [] => []
  | c :: s' => if p c then dropwhile p s' else s
  end.

(** [s.lstrip(chars)], [s.lstrip()], [s.rstrip()], [s.strip()]. *)
Definition lstrip_chars (chars : pystr) (s : pystr) : pystr :=
  dropwhile (fun c => existsb (N.eqb c) chars) s.
Definition lstrip (s : pystr) : pystr := dropwhile isspace s.
Definition rstrip (s : pystr) : pystr := rev (dropwhile isspace (rev s)).
Definition strip (s : pystr) : pystr := rstrip (lstrip s).

(** [s.startswith(prefix)]. *)
Fixpoint startswith (prefix s : pystr) : bool :=
  match prefix, s with
  | [], _ => true
  | _ :: _, [] => false
  | a :: prefix', b :: s' => (a =? b) && startswith prefix' s'
  end.

(** [needle in hay]. *)
Fixpoint contains (needle hay : pystr) : bool :=
  startswith needle hay ||
  match hay with
  | [] => false
  | _ :: hay' => contains needle hay'
  end.

(** [s.split(sep)] for a one-character separator: never an empty list. *)
Fixpoint split_on (sep : char) (s : pystr) : list pystr :=
  match s with
  | [] => [[]]
  | c :: s' =>
      if c =? sep then [] :: split_on sep s'
      else match split_on sep s' with
           | [] => [[c]]
           | l :: ls => (c :: l) :: ls
           end
  end.

(** [s.split()]: the maximal runs of non-whitespace characters.  [acc]
    holds the current run, reversed. *)
Fixpoint split_ws_acc (acc : pystr) (s : pystr) : list pystr :=
  match s with
  | [] => match acc with [] => [] | _ :: _ => [rev acc] end
  | c :: s' =>
      if isspace c then
        match acc with
        | [] => split_ws_acc [] s'
        | _ :: _ => rev acc :: split_ws_acc [] s'
        end
      else split_ws_acc (c :: acc) s'
  end.
Definition split_ws (s : pystr) : list pystr := split_ws_acc [] s.

(** [sep.join(parts)]. *)
Fixpoint join (sep : pystr) (parts : list pystr) : pystr :=
  match parts with
  | [] => []
  | [p] => p
  | p :: ps => p ++ sep ++ join sep ps
  end.

(** [s.replace(old, new)] for one-character [old] and [new]. *)
Definition replace_char (old new : char) (s : pystr) : pystr :=
  map (fun c => if c =? old then new else c) s.

(** [lst.index(x)]: position of the first element equal to [x];
    [None] stands for the [ValueError] of an absent element. *)
Fixpoint index (l : list pystr) (x : pystr) : option nat :=
  match l with
  | [] => None
  | y :: l' => if eqb_str y x then Some O
               else option_map S (index l' x)
  end.

(** [str(n)] for an integer. *)
Definition str_of_Z (z : Z) : pystr :=
  py (NilZero.string_of_int (Z.to_int z)).

Definition is_ascii_digit (c : char) : bool := (48 <=? c) && (c <=? 57).
Definition is_ascii_upper (c : char) : bool := (65 <=? c) && (c <=? 90).
Definition is_ascii_lower (c : char) : bool := (97 <=? c) && (c <=? 122).

Section UnicodeTables.
(** The Unicode character database behind [str.isalnum] and
    [str.upper] is part of the interpreter, not of this program: its
    ASCII rows are written out, the rest is taken as given. *)
Variable unicode_isalnum : char -> bool.
Variable unicode_upper : char -> pystr.

(** [c.isalnum()] for a one-character string. *)
Definition isalnum (c : char) : bool :=
  if c <? 128
  then is_ascii_digit c || is_ascii_upper c || is_ascii_lower c
  else unicode_isalnum c.

(** [s.upper()]: every character is replaced by its full upper-case
    mapping, which may be several characters long. *)
Definition upper_char (c : char) : pystr :=
  if c <? 128
  then [if is_ascii_lower c then c - 32 else c]
  else unicode_upper c.
Definition upper (s : pystr) : pystr := flat_map upper_char s.
End UnicodeTables.

End PyStr.
Import PyStr.

(* ===================================================================== *)
(** ** Exceptions and results *)
(* ===================================================================== *)

(** A raised exception: its class name and [str(e)]. *)
Record exn := Exn { exn_class : string; exn_str : pystr }.

Inductive Result (A : Type) : Type :=
| Ok (a : A)
| Raise (e : exn).
Arguments Ok {A} a.
Arguments Raise {A} e.

(* ===================================================================== *)
(** ** instagram_crew.py: parsing of the model output *)
(* ===================================================================== *)

Module Crew.
Section Crew.
Variable unicode_isalnum : char -> bool.
Variable unicode_upper : char -> pystr.

(** *** [_parse_image_prompts] *)

(** Characters removed by [line.lstrip('0123456789.-• ')]. *)
Definition numbering_chars : pystr :=
  py "0123456789.-" ++ [BULLET; SPACE].

(** One pass of the loop body over [line], [prompts] being the list
    built so far. *)
Definition parse_line (prompts : list pystr) (line : pystr) : list pystr :=
  let line := strip line in
  if truthy line && negb (startswith [HASH] line)
     && (20 <? length line)%nat
  then
    let clean_line := strip (lstrip_chars numbering_chars line) in
    if truthy clean_line then prompts ++ [clean_line] else prompts
  else prompts.

Definition fallback_prompts (topic : pystr) : list pystr :=
  [ py "Professional Instagram post about " ++ topic
      ++ py ", modern design, high quality";
    py "Engaging social media visual for " ++ topic
      ++ py ", vibrant colors, square format";
    py "Creative illustration representing " ++ topic
      ++ py ", clean background, Instagram ready" ].

(** The prompts the loop collects, before padding and slicing. *)
Definition parsed_prompts (image_prompts_result : pystr) : list pystr :=
  let lines := split_on NL image_prompts_result in
  fold_left parse_line lines [].

Definition _parse_image_prompts
    (image_prompts_result topic : pystr) : list pystr :=
  let prompts := parsed_prompts image_prompts_result in
  let prompts :=
    if (length prompts <? 3)%nat
    then prompts ++ fallback_prompts topic
    else prompts in
  firstn 3 prompts.

(** *** [_extract_short_caption] *)

Definition short_placeholder : pystr :=
  py "Check the full content for short caption".

Definition is_short_marker (line : pystr) : bool :=
  contains (py "SHORT CAPTION") (upper unicode_upper line)
  || contains (py "SHORT:") (upper unicode_upper line).

(** [for i in range(idx + 1, len(lines)): if lines[i].strip(): return ...]
    over the lines after position [idx]. *)
Fixpoint first_nonblank (ls : list pystr) : option pystr :=
  match ls with
  | [] => None
  | l :: ls' => if truthy (strip l) then Some (strip l)
                else first_nonblank ls'
  end.

(** The outer [for line in lines] loop; [rest] is what is left to
    visit, [lines] the whole list that [lines.index] searches. *)
Fixpoint short_loop (lines rest : list pystr) : Result pystr :=
  match rest with
  | [] => Ok short_placeholder
  | line :: rest' =>
      if is_short_marker line then
        match index lines line with
        | None => Raise (Exn "ValueError" (py "list.index(x): x not in list"))
        | Some idx =>
            match first_nonblank (skipn (S idx) lines) with
            | Some caption => Ok caption
            | None => short_loop lines rest'
            end
        end
      else short_loop lines rest'
  end.

Definition _extract_short_caption (content : pystr) : Result pystr :=
  let lines := split_on NL content in
  short_loop lines lines.

(** *** [_extract_long_caption] *)

Definition is_long_marker (line : pystr) : bool :=
  contains (py "LONG CAPTION") (upper unicode_upper line)
  || contains (py "LONG:") (upper unicode_upper line).

(** The inner loop with its [break]; [caption_lines] is the list
    built so far. *)
Fixpoint collect_caption (ls : list pystr) (caption_lines : list pystr)
    : list pystr :=
  match ls with
  | [] => caption_lines
  | l :: ls' =>
      if truthy (strip l) && negb (startswith [HASH] (strip l)) then
        collect_caption ls' (caption_lines ++ [strip l])
      else if startswith [HASH] (strip l)
              && match caption_lines with [] => false | _ => true end
      then caption_lines
      else collect_caption ls' caption_lines
  end.

Fixpoint long_loop (content : pystr) (lines rest : list pystr)
    : Result pystr :=
  match rest with
  | [] => Ok content
  | line :: rest' =>
      if is_long_marker line then
        match index lines line with
        | None => Raise (Exn "ValueError" (py "list.index(x): x not in list"))
        | Some idx =>
            Ok (join [NL] (collect_caption (skipn (S idx) lines) []))
        end
      else long_loop content lines rest'
  end.

Definition _extract_long_caption (content : pystr) : Result pystr :=
  let lines := split_on NL content in
  long_loop content lines lines.

(** *** [_extract_hashtags] *)

Definition is_hashtag (word : pystr) : bool :=
  startswith [HASH] word && (1 <? length word)%nat.

Definition hashtags_of_line (hashtags : list pystr) (line : pystr)
    : list pystr :=
  if contains [HASH] line then
    fold_left
      (fun hashtags word =>
         if is_hashtag word then hashtags ++ [word] else hashtags)
      (split_ws line) hashtags
  else hashtags.

Definition _extract_hashtags (content : pystr) : list pystr :=
  let lines := split_on NL content in
  firstn 30 (fold_left hashtags_of_line lines []).

(** *** [_save_result]: the file name *)

Definition keeps (c : char) : bool :=
  isalnum unicode_isalnum c || existsb (N.eqb c) [SPACE; HYPHEN; UNDERSCORE].

(** The two assignments to [safe_topic]. *)
Definition safe_topic (topic : pystr) : pystr :=
  let safe_topic := rstrip (filter keeps topic) in
  replace_char SPACE UNDERSCORE safe_topic.

(** [timestamp] is [datetime.now().strftime("%Y%m%d_%H%M%S")]. *)
Definition result_filename (topic timestamp : pystr) : pystr :=
  py "results/instagram_content_" ++ safe_topic topic
    ++ py "_" ++ timestamp ++ py ".json".

End Crew.
End Crew.

(* ===================================================================== *)
(** ** JSON values and Python dictionaries *)
(* ===================================================================== *)

(** What [response.json()] returns and what the image dictionaries hold:
    [None], booleans, numbers, strings, lists and dictionaries (keys in
    insertion order, each key once). *)
#[local] Unset Elimination Schemes.
Inductive json : Type :=
| JNull
| JBool (b : bool)
| JInt (z : Z)
| JFloat (q : Q)
| JStr (s : pystr)
| JArr (items : list json)
| JObj (fields : list (pystr * json)).
#[local] Set Elimination Schemes.

Definition dict := list (pystr * json).

Definition type_name (v : json) : pystr :=
  match v with
  | JNull => py "NoneType"
  | JBool _ => py "bool"
  | JInt _ => py "int"
  | JFloat _ => py "float"
  | JStr _ => py "str"
  | JArr _ => py "list"
  | JObj _ => py "dict"
  end.

Definition lookup (key : pystr) (d : dict) : option json :=
  option_map snd (find (fun kv => eqb_str (fst kv) key) d).

(** [v.get(key, default)]: only a dictionary has the method. *)
Definition dict_get (v : json) (key : pystr) (default : json) : Result json :=
  match v with
  | JObj fields =>
      Ok (match lookup key fields with Some x => x | None => default end)
  | _ => Raise (Exn "AttributeError"
                  (py "'" ++ type_name v
                     ++ py "' object has no attribute 'get'"))
  end.

(** [for x in v]: the elements a value yields when iterated. *)
Definition iterate (v : json) : Result (list json) :=
  match v with
  | JArr items => Ok items
  | JObj fields => Ok (map (fun kv => JStr (fst kv)) fields)
  | JStr s => Ok (map (fun c => JStr [c]) s)
  | _ => Raise (Exn "TypeError"
                  (py "'" ++ type_name v ++ py "' object is not iterable"))
  end.

(** [bool(v)]. *)
Definition json_truthy (v : json) : bool :=
  match v with
  | JNull => false
  | JBool b => b
  | JInt z => negb (z =? 0)%Z
  | JFloat q => negb (Qeq_bool q 0)
  | JStr s => truthy s
  | JArr items => match items with [] => false | _ :: _ => true end
  | JObj fields => match fields with [] => false | _ :: _ => true end
  end.

(** [d.get(key)]: the value, or [None]. *)
Definition get (key : pystr) (d : dict) : json :=
  match lookup key d with Some v => v | None => JNull end.

(** [d[key]]: the value, or a [KeyError]. *)
Definition getitem (key : pystr) (d : dict) : Result json :=
  match lookup key d with
  | Some v => Ok v
  | None => Raise (Exn "KeyError" (py "'" ++ key ++ py "'"))
  end.

(* ===================================================================== *)
(** ** The outside world: HTTP and the random generator *)
(* ===================================================================== *)

Record Request := {
  req_url : pystr;
  req_headers : list (pystr * json);
  req_json : json
}.

(** What the three lines [requests.post], [raise_for_status] and
    [response.json()] come to: an exception, or the decoded body. *)
Inductive Outcome :=
| Failed (e : exn)
| Body (data : json).

(** The requests posted so far, oldest first, and the number of random
    draws made. *)
Record World := {
  posts : list Request;
  draws : nat
}.

Definition M (A : Type) : Type := World -> A * World.
Definition ret {A} (a : A) : M A := fun w => (a, w).
Definition bind {A B} (c : M A) (k : A -> M B) : M B :=
  fun w => let (a, w') := c w in k a w'.

Notation "x <- c ;; k" := (bind c (fun x => k))
  (at level 61, c at next level, right associativity).

(** [for x in l: acc = body(acc, x)]. *)
Fixpoint for_each {A B} (l : list A) (body : B -> A -> M B) (acc : B) : M B :=
  match l with
  | [] => ret acc
  | x :: l' => bind (body acc x) (fun acc' => for_each l' body acc')
  end.

(** The same loop when the body may raise: the exception ends the loop
    and what was accumulated is lost. *)
Fixpoint for_each_r {A B} (l : list A) (body : B -> A -> M (Result B))
    (acc : B) : M (Result B) :=
  match l with
  | [] => ret (Ok acc)
  | x :: l' =>
      fun w =>
        match body acc x w with
        | (Ok acc', w') => for_each_r l' body acc' w'
        | (Raise e, w') => (Raise e, w')
        end
  end.

(* ===================================================================== *)
(** ** urllib.parse.quote *)
(* ===================================================================== *)

Module Urllib.

Definition is_surrogate (c : char) : bool := (55296 <=? c) && (c <=? 57343).

(** The surrogates a string starts with. *)
Fixpoint surrogates_from (s : pystr) : pystr :=
  match s with
  | [] => []
  | c :: s' => if is_surrogate c then c :: surrogates_from s' else []
  end.

(** The first surrogate of a string whose first character is at
    position [i]: where it is, and the run of surrogates that starts
    there. *)
Fixpoint first_surrogate (s : pystr) (i : nat) : option (nat * pystr) :=
  match s with
  | [] => None
  | c :: s' =>
      if is_surrogate c then Some (i, c :: surrogates_from s')
      else first_surrogate s' (S i)
  end.

Definition hex_lower (d : N) : char :=
  if d <? 10 then 48 + d else 87 + d.

(** ['%04x' % c]. *)
Definition hex4 (c : char) : pystr :=
  [ hex_lower (N.land (N.shiftr c 12) 15);
    hex_lower (N.land (N.shiftr c 8) 15);
    hex_lower (N.land (N.shiftr c 4) 15);
    hex_lower (N.land c 15) ].

(** The [UnicodeEncodeError] of the strict UTF-8 encoder for the run of
    surrogates [run] found at position [start]. *)
Definition surrogate_error (start : nat) (run : pystr) : exn :=
  Exn "UnicodeEncodeError"
    (match run with
     | [c] =>
         py "'utf-8' codec can't encode character '\u" ++ hex4 c
           ++ py "' in position " ++ str_of_Z (Z.of_nat start)
           ++ py ": surrogates not allowed"
     | _ =>
         py "'utf-8' codec can't encode characters in position "
           ++ str_of_Z (Z.of_nat start) ++ py "-"
           ++ str_of_Z (Z.of_nat (start + length run - 1))
           ++ py ": surrogates not allowed"
     end).

(** UTF-8 bytes of one scalar value. *)
Definition utf8 (c : char) : list N :=
  if c <? 128 then [c]
  else if c <? 2048 then
    [N.lor 192 (N.shiftr c 6); N.lor 128 (N.land c 63)]
  else if c <? 65536 then
    [N.lor 224 (N.shiftr c 12);
     N.lor 128 (N.land (N.shiftr c 6) 63);
     N.lor 128 (N.land c 63)]
  else
    [N.lor 240 (N.shiftr c 18);
     N.lor 128 (N.land (N.shiftr c 12) 63);
     N.lor 128 (N.land (N.shiftr c 6) 63);
     N.lor 128 (N.land c 63)].

(** Bytes never quoted: letters, digits and [_.-~], and the default
    [safe='/']. *)
Definition always_safe (b : N) : bool :=
  is_ascii_digit b || is_ascii_upper b || is_ascii_lower b
  || existsb (N.eqb b) (py "_.-~/").

Definition hex_digit (d : N) : char :=
  if d <? 10 then 48 + d else 55 + d.

Definition quote_byte (b : N) : pystr :=
  if always_safe b then [b]
  else [37; hex_digit (N.shiftr b 4); hex_digit (N.land b 15)].

(** [s.encode('utf-8', 'strict')]. *)
Definition encode (s : pystr) : Result (list N) :=
  match first_surrogate s 0 with
  | Some (start, run) => Raise (surrogate_error start run)
  | None => Ok (flat_map utf8 s)
  end.

(** [quote(s)]: the string is encoded first, so a lone surrogate makes
    it raise. *)
Definition quote (s : pystr) : Result pystr :=
  match encode s with
  | Ok bytes => Ok (flat_map quote_byte bytes)
  | Raise e => Raise e
  end.

End Urllib.

(* ===================================================================== *)
(** ** image_generator.py: the provider adapter *)
(* ===================================================================== *)

(** The names [config.py] exports to the adapter; a key that is not
    configured is [None]. *)
Record Config := {
  NANO_BANANA_API_KEY : option pystr;
  SEGMIND_API_KEY : option pystr;
  STABILITY_API_KEY : option pystr;
  IMAGE_GENERATION_API : pystr
}.

Module ImageGenerator.

Record t := {
  api_type : pystr;
  api_key : option pystr
}.

Definition _get_api_key (cfg : Config) (api_type : pystr)
    : Result (option pystr) :=
  if eqb_str api_type (py "nano_banana") then Ok (NANO_BANANA_API_KEY cfg)
  else if eqb_str api_type (py "segmind") then Ok (SEGMIND_API_KEY cfg)
  else if eqb_str api_type (py "stability") then Ok (STABILITY_API_KEY cfg)
  else if eqb_str api_type (py "pollinations") then Ok (Some [])
  else Raise (Exn "ValueError" (py "Unsupported API type: " ++ api_type)).

Definition __init__ (cfg : Config) (api_type : pystr) : Result t :=
  match _get_api_key cfg api_type with
  | Ok key => Ok {| api_type := api_type; api_key := key |}
  | Raise e => Raise e
  end.

(** [ImageGenerator()] with the default argument. *)
Definition default (cfg : Config) : Result t :=
  __init__ cfg (IMAGE_GENERATION_API cfg).

(** [f"{key}"] and a key used as a value. *)
Definition format_key (key : option pystr) : pystr :=
  match key with Some k => k | None => py "None" end.
Definition key_value (key : option pystr) : json :=
  match key with Some k => JStr k | None => JNull end.

(** The dictionary appended by every [except] branch. *)
Definition error_entry (prompt : pystr) (e : exn) (api : pystr) : dict :=
  [ (py "prompt", JStr prompt);
    (py "url", JNull);
    (py "error", JStr (exn_str e));
    (py "api", JStr api) ].

(** The [for ... in ...: images.append(...)] loop inside a [try]: it
    stops at the first entry whose evaluation raises, keeping what was
    appended before. *)
Fixpoint append_each (entry : json -> Result dict) (items : list json)
    (images : list dict) : list dict * option exn :=
  match items with
  | [] => (images, None)
  | it :: items' =>
      match entry it with
      | Ok d => append_each entry items' (images ++ [d])
      | Raise e => (images, Some e)
      end
  end.

(** The part of a [try] body after the request: read the list under
    [field] (default [[]]) and append one entry per element. *)
Definition consume (outcome : Outcome) (field : pystr)
    (entry : json -> Result dict) (images : list dict)
    : list dict * option exn :=
  match outcome with
  | Failed e => (images, Some e)
  | Body data =>
      match dict_get data field (JArr []) with
      | Raise e => (images, Some e)
      | Ok v =>
          match iterate v with
          | Raise e => (images, Some e)
          | Ok items => append_each entry items images
          end
      end
  end.

(** The [except Exception as e] branch. *)
Definition handle (prompt api : pystr) (r : list dict * option exn)
    : list dict :=
  match r with
  | (images, None) => images
  | (images, Some e) => images ++ [error_entry prompt e api]
  end.

Definition seed_range : Z * Z := (1, 10000000)%Z.

Section Services.
(** The remote services answer a request given the requests seen
    before it; the generator's raw output is a sequence of numbers. *)
Variable http : list Request -> Request -> Outcome.
Variable entropy : nat -> N.

(** [requests.post(url, headers=headers, json=payload)] followed by
    [raise_for_status()] and [json()]. *)
Definition requests_post (r : Request) : M Outcome :=
  fun w => (http (posts w) r,
            {| posts := posts w ++ [r]; draws := draws w |}).

(** [random.randint(a, b)]: some integer of [a..b]. *)
Definition random_randint (a b : Z) : M Z :=
  fun w => ((a + Z.of_N (entropy (draws w)) mod (b - a + 1))%Z,
            {| posts := posts w; draws := S (draws w) |}).

(** *** [_generate_pollinations] *)

Definition base_url : pystr := py "https://image.pollinations.ai/prompt/".

Definition query_suffix (seed : Z) : pystr :=
  py "?width=1024&height=1024&enhance=true&seed=" ++ str_of_Z seed.

(** [f"{base_url}{quote(prompt)}{query_suffix}"]: raises when [quote]
    does. *)
Definition pollinations_url (prompt : pystr) (seed : Z) : Result pystr :=
  match Urllib.quote prompt with
  | Ok quoted => Ok (base_url ++ quoted ++ query_suffix seed)
  | Raise e => Raise e
  end.

Definition pollinations_entry (prompt url : pystr) : dict :=
  [ (py "prompt", JStr prompt);
    (py "url", JStr url);
    (py "api", JStr (py "pollinations")) ].

(** Nothing catches the exception of [quote]: it leaves the function,
    after the seed of that pass was drawn. *)
Definition _generate_pollinations (prompts : list pystr) (num_images : Z)
    : M (Result (list dict)) :=
  for_each_r prompts
    (fun images prompt =>
       for_each_r (seq 0 (Z.to_nat (Z.max 1 num_images)))
         (fun images _ =>
            seed <- random_randint (fst seed_range) (snd seed_range) ;;
            ret (match pollinations_url prompt seed with
                 | Ok url => Ok (images ++ [pollinations_entry prompt url])
                 | Raise e => Raise e
                 end))
         images)
    [].

(** *** [_generate_nano_banana] *)

Definition nano_banana_request (self : t) (prompt : pystr) (num_images : Z)
    : Request :=
  {| req_url := py "https://api.nanobanana.ai/v1/images/generations";
     req_headers :=
       [ (py "Authorization",
          JStr (py "Bearer " ++ format_key (api_key self)));
         (py "Content-Type", JStr (py "application/json")) ];
     req_json :=
       JObj [ (py "model", JStr (py "nano-banana-v1"));
              (py "prompt", JStr prompt);
              (py "n", JInt num_images);
              (py "size", JStr (py "1024x1024"));
              (py "quality", JStr (py "hd")) ] |}.

Definition nano_banana_entry (prompt : pystr) (img_data : json)
    : Result dict :=
  match dict_get img_data (py "url") JNull with
  | Ok url => Ok [ (py "prompt", JStr prompt);
                   (py "url", url);
                   (py "api", JStr (py "nano_banana")) ]
  | Raise e => Raise e
  end.

Definition _generate_nano_banana (self : t) (prompts : list pystr)
    (num_images : Z) : M (list dict) :=
  for_each prompts
    (fun images prompt =>
       outcome <- requests_post (nano_banana_request self prompt num_images) ;;
       ret (handle prompt (py "nano_banana")
              (consume outcome (py "data")
                 (nano_banana_entry prompt) images)))
    [].

(** *** [_generate_segmind] *)

Definition segmind_request (self : t) (prompt : pystr) (num_images : Z)
    : Request :=
  {| req_url := py "https://api.segmind.com/v1/sdxl1.0-txt2img";
     req_headers :=
       [ (py "x-api-key", key_value (api_key self));
         (py "Content-Type", JStr (py "application/json")) ];
     req_json :=
       JObj [ (py "prompt", JStr prompt);
              (py "num_inference_steps", JInt 20);
              (py "guidance_scale", JFloat (15 # 2));
              (py "width", JInt 1024);
              (py "height", JInt 1024);
              (py "num_images", JInt num_images) ] |}.

Definition segmind_entry (prompt : pystr) (img_b64 : json) : Result dict :=
  Ok [ (py "prompt", JStr prompt);
       (py "base64", img_b64);
       (py "api", JStr (py "segmind")) ].

Definition _generate_segmind (self : t) (prompts : list pystr)
    (num_images : Z) : M (list dict) :=
  for_each prompts
    (fun images prompt =>
       outcome <- requests_post (segmind_request self prompt num_images) ;;
       ret (handle prompt (py "segmind")
              (consume outcome (py "images")
                 (segmind_entry prompt) images)))
    [].

(** *** [_generate_stability] *)

Definition stability_request (self : t) (prompt : pystr) (num_images : Z)
    : Request :=
  {| req_url := py "https://api.stability.ai/v1/generation/stable-diffusion-xl-1024-v1-0/text-to-image";
     req_headers :=
       [ (py "Authorization",
          JStr (py "Bearer " ++ format_key (api_key self)));
         (py "Content-Type", JStr (py "application/json")) ];
     req_json :=
       JObj [ (py "text_prompts", JArr [JObj [(py "text", JStr prompt)]]);
              (py "cfg_scale", JInt 7);
              (py "height", JInt 1024);
              (py "width", JInt 1024);
              (py "samples", JInt num_images);
              (py "steps", JInt 30) ] |}.

Definition stability_entry (prompt : pystr) (img_data : json)
    : Result dict :=
  match dict_get img_data (py "base64") JNull with
  | Ok b64 => Ok [ (py "prompt", JStr prompt);
                   (py "base64", b64);
                   (py "api", JStr (py "stability")) ]
  | Raise e => Raise e
  end.

Definition _generate_stability (self : t) (prompts : list pystr)
    (num_images : Z) : M (list dict) :=
  for_each prompts
    (fun images prompt =>
       outcome <- requests_post (stability_request self prompt num_images) ;;
       ret (handle prompt (py "stability")
              (consume outcome (py "artifacts")
                 (stability_entry prompt) images)))
    [].

(** *** [generate_images] *)

Definition generate_images (self : t) (prompts : list pystr)
    (num_images : Z) : M (Result (list dict)) :=
  if eqb_str (api_type self) (py "nano_banana") then
    images <- _generate_nano_banana self prompts num_images ;; ret (Ok images)
  else if eqb_str (api_type self) (py "segmind") then
    images <- _generate_segmind self prompts num_images ;; ret (Ok images)
  else if eqb_str (api_type self) (py "stability") then
    images <- _generate_stability self prompts num_images ;; ret (Ok images)
  else if eqb_str (api_type self) (py "pollinations") then
    _generate_pollinations prompts num_images
  else
    ret (Raise (Exn "ValueError"
                  (py "Unsupported API type: " ++ api_type self))).

End Services.

(** *** [save_images] *)

(** What one call has downloaded and saved so far, oldest first. *)
Record Disk (image : Type) := {
  fetched : list json;
  written : list (pystr * image)
}.
Arguments fetched {image} d.
Arguments written {image} d.

Section Saving.
(** The libraries behind [save_images], each taken as given:
    [os.makedirs(dir, exist_ok=True)]; decoding a base64 payload and
    opening it as an image; downloading a URL and opening the content
    as an image, given the downloads made before; [img.save(path)],
    given the files saved before; [os.path.join]; and [str] of a value
    that is neither a string, [None], a boolean nor an integer. *)
Variable image : Type.
Variable makedirs : pystr -> option exn.
Variable open_base64 : json -> Result image.
Variable fetch : list json -> json -> Result image.
Variable save_png : list (pystr * image) -> pystr -> image -> option exn.
Variable path_join : pystr -> pystr -> pystr.
Variable py_repr : json -> pystr.

(** [f"{v}"]. *)
Definition format_value (v : json) : pystr :=
  match v with
  | JStr s => s
  | JNull => py "None"
  | JBool true => py "True"
  | JBool false => py "False"
  | JInt z => str_of_Z z
  | _ => py_repr v
  end.

(** [f"image_{i+1}_{img_data['api']}.png"] joined to the directory. *)
Definition image_path (output_dir : pystr) (i : nat) (api : json) : pystr :=
  path_join output_dir
    (py "image_" ++ str_of_Z (Z.of_nat i + 1) ++ py "_"
       ++ format_value api ++ py ".png").

(** The end of both branches, once the image is open: name the file,
    save it, record the path.  Any exception leaves [saved_paths] as
    it was. *)
Definition store (output_dir : pystr) (i : nat) (img_data : dict)
    (img : image) (fetched' : list json) (st : Disk image)
    (saved_paths : list pystr) : list pystr * Disk image :=
  match getitem (py "api") img_data with
  | Raise _ => (saved_paths, {| fetched := fetched'; written := written st |})
  | Ok api =>
      let filepath := image_path output_dir i api in
      match save_png (written st) filepath img with
      | Some _ =>
          (saved_paths, {| fetched := fetched'; written := written st |})
      | None =>
          (saved_paths ++ [filepath],
           {| fetched := fetched';
              written := written st ++ [(filepath, img)] |})
      end
  end.

(** One pass of the loop body, for the entry at position [i]. *)
Definition save_one (output_dir : pystr) (i : nat) (img_data : dict)
    (st : Disk image) (saved_paths : list pystr)
    : list pystr * Disk image :=
  if json_truthy (get (py "base64") img_data) then
    match open_base64 (get (py "base64") img_data) with
    | Raise _ => (saved_paths, st)
    | Ok img => store output_dir i img_data img (fetched st) st saved_paths
    end
  else if json_truthy (get (py "url") img_data) then
    match fetch (fetched st) (get (py "url") img_data) with
    | Raise _ =>
        (saved_paths,
         {| fetched := fetched st ++ [get (py "url") img_data];
            written := written st |})
    | Ok img =>
        store output_dir i img_data img
          (fetched st ++ [get (py "url") img_data]) st saved_paths
    end
  else (saved_paths, st).

(** [for i, img_data in enumerate(images)], from position [i] on. *)
Fixpoint save_loop (output_dir : pystr) (i : nat) (images : list dict)
    (st : Disk image) (saved_paths : list pystr)
    : list pystr * Disk image :=
  match images with
  | [] => (saved_paths, st)
  | img_data :: images' =>
      let (saved_paths', st') :=
        save_one output_dir i img_data st saved_paths in
      save_loop output_dir (S i) images' st' saved_paths'
  end.

Definition save_images (images : list dict) (output_dir : pystr)
    (st : Disk image) : Result (list pystr) * Disk image :=
  match makedirs output_dir with
  | Some e => (Raise e, st)
  | None =>
      let (saved_paths, st') := save_loop output_dir 0 images st [] in
      (Ok saved_paths, st')
  end.

Definition default_output_dir : pystr := py "generated_images".

End Saving.
End ImageGenerator.

(* ===================================================================== *)
(** ** instagram_crew.py: one run of the pipeline *)
(* ===================================================================== *)

Module InstagramContentCrew.

(** The crew object, as far as [create_content] reads it: the agents
    belong to the agent framework and are not modelled. *)
Record t := {
  image_generator : ImageGenerator.t
}.

(** Everything a run can touch: the network and the random generator,
    the image files, and the result files opened for writing so far:
    [(name, Some v)] holds the dumped value [v], [(name, None)] was
    opened (created or emptied) but the dump did not complete. *)
Record Sys (image : Type) := {
  net : World;
  disk : ImageGenerator.Disk image;
  result_files : list (pystr * option json)
}.
Arguments net {image} s.
Arguments disk {image} s.
Arguments result_files {image} s.

(** The text of the four tasks after a run of the crew, in the order
    research, writing, review, image prompts. *)
Record Outputs := {
  research_result : pystr;
  writing_result : pystr;
  review_result : pystr;
  image_prompts_result : pystr
}.

Section Run.
(** Taken as given, besides the services of the image generator: the
    Unicode tables; building the four tasks and the crew for a topic,
    [crew.kickoff()] and [str] of each task's output; the two readings
    of the clock, formatted; [open(filename, 'w')], given the result
    files opened before; and [json.dump] of a value into the open
    file. *)
Variable unicode_isalnum : char -> bool.
Variable unicode_upper : char -> pystr.
Variable http : list Request -> Request -> Outcome.
Variable entropy : nat -> N.
Variable image : Type.
Variable makedirs : pystr -> option exn.
Variable open_base64 : json -> Result image.
Variable fetch : list json -> json -> Result image.
Variable save_png : list (pystr * image) -> pystr -> image -> option exn.
Variable path_join : pystr -> pystr -> pystr.
Variable py_repr : json -> pystr.
Variable run_crew : pystr -> Result Outputs.
Variable now_isoformat : pystr.
Variable now_strftime : pystr.
Variable open_write : list (pystr * option json) -> pystr -> option exn.
Variable json_dump : pystr -> json -> option exn.

(** [_save_result]: [None] when it returns.  The file exists as soon
    as [open] has returned, whether or not the dump completes. *)
Definition _save_result (result : json) (topic : pystr) (s : Sys image)
    : option exn * Sys image :=
  match makedirs (py "results") with
  | Some e => (Some e, s)
  | None =>
      let filename :=
        Crew.result_filename unicode_isalnum topic now_strftime in
      match open_write (result_files s) filename with
      | Some e => (Some e, s)
      | None =>
          match json_dump filename result with
          | Some e =>
              (Some e,
               {| net := net s; disk := disk s;
                  result_files := result_files s ++ [(filename, None)] |})
          | None =>
              (None,
               {| net := net s; disk := disk s;
                  result_files :=
                    result_files s ++ [(filename, Some result)] |})
          end
      end
  end.

(** The dictionary [final_result]. *)
Definition final_result (topic research short_caption long_caption : pystr)
    (hashtags image_prompts : list pystr) (generated_images : list dict)
    (saved_image_paths : list pystr) : json :=
  JObj [ (py "topic", JStr topic);
         (py "created_at", JStr now_isoformat);
         (py "research", JStr research);
         (py "content",
          JObj [ (py "short_caption", JStr short_caption);
                 (py "long_caption", JStr long_caption);
                 (py "hashtags", JArr (map JStr hashtags)) ]);
         (py "image_prompts", JArr (map JStr image_prompts));
         (py "generated_images", JArr (map JObj generated_images));
         (py "saved_image_paths", JArr (map JStr saved_image_paths)) ].

(** The part of [create_content] after the images were generated. *)
Definition finish (topic : pystr) (save_images : bool) (out : Outputs)
    (image_prompts : list pystr) (generated_images : list dict)
    (s : Sys image) : Result json * Sys image :=
  let (saved, disk') :=
    if save_images
       && match generated_images with [] => false | _ :: _ => true end
    then ImageGenerator.save_images image makedirs open_base64 fetch
           save_png path_join py_repr generated_images
           ImageGenerator.default_output_dir (disk s)
    else (Ok [], disk s) in
  let s := {| net := net s; disk := disk';
              result_files := result_files s |} in
  match saved with
  | Raise e => (Raise e, s)
  | Ok saved_image_paths =>
      match Crew._extract_short_caption unicode_upper (review_result out) with
      | Raise e => (Raise e, s)
      | Ok short_caption =>
          match Crew._extract_long_caption unicode_upper
                  (review_result out) with
          | Raise e => (Raise e, s)
          | Ok long_caption =>
              let result :=
                final_result topic (research_result out) short_caption
                  long_caption
                  (Crew._extract_hashtags (review_result out))
                  image_prompts generated_images saved_image_paths in
              match _save_result result topic s with
              | (Some e, s') => (Raise e, s')
              | (None, s') => (Ok result, s')
              end
          end
      end
  end.

Definition create_content (self : t) (topic : pystr) (save_images : bool)
    (s : Sys image) : Result json * Sys image :=
  match run_crew topic with
  | Raise e => (Raise e, s)
  | Ok out =>
      let image_prompts :=
        Crew._parse_image_prompts (image_prompts_result out) topic in
      let (generated, net') :=
        ImageGenerator.generate_images http entropy (image_generator self)
          image_prompts 1 (net s) in
      let s := {| net := net'; disk := disk s;
                  result_files := result_files s |} in
      match generated with
      | Raise e => (Raise e, s)
      | Ok generated_images =>
          finish topic save_images out image_prompts generated_images s
      end
  end.

End Run.
End InstagramContentCrew.

(* ===================================================================== *)
(** ** instagram_crew.py: the topic chosen in [main] *)
(* ===================================================================== *)

Module Main.

Definition example_topics : list pystr :=
  [ py "The Future of Electric Cars";
    py "AI in Healthcare";
    py "Digital Nomad Lifestyle";
    py "Sustainable Fashion";
    py "Remote Work Productivity" ].

(** The number written by ASCII decimal digits. *)
Definition decimal_value (s : pystr) : Z :=
  fold_left (fun acc c => (10 * acc + (Z.of_N c - 48))%Z) s 0%Z.

Section Choice.
(** Taken as given: which non-ASCII characters [str.isdigit] accepts,
    and [int] of a string that is not made of at most 4300 ASCII digits
    (the interpreter may refuse longer ones, and digits such as
    superscripts are refused by [int]). *)
Variable unicode_isdigit : char -> bool.
Variable int_other : pystr -> Result Z.

(** [s.isdigit()]. *)
Definition isdigit (s : pystr) : bool :=
  truthy s
  && forallb (fun c => if c <? 128 then is_ascii_digit c
                       else unicode_isdigit c) s.

(** [int(s)] for a string that passed [isdigit]. *)
Definition int (s : pystr) : Result Z :=
  if forallb is_ascii_digit s && (length s <=? 4300)%nat
  then Ok (decimal_value s)
  else int_other s.

(** The topic [main] passes to the crew, given the line read by
    [input]; a [Raise] is what [main]'s handler reports. *)
Definition select_topic (line : pystr) : Result pystr :=
  let choice := strip line in
  let own := if truthy choice then choice
             else nth 0 example_topics [] in
  if isdigit choice then
    match int choice with
    | Raise e => Raise e
    | Ok n =>
        if ((1 <=? n) && (n <=? Z.of_nat (length example_topics)))%Z
        then Ok (nth (Z.to_nat (n - 1)) example_topics [])
        else Ok own
    end
  else Ok own.

End Choice.
End Main.

(* ===================================================================== *)
(** ** Vocabulary of the statements *)
(* ===================================================================== *)

Fixpoint take_until (p : pystr -> bool) (ls : list pystr) : list pystr :=
  match ls with
  | [] => []
  | l :: ls' => if p l then [] else l :: take_until p ls'
  end.

Fixpoint drop_until (p : pystr -> bool) (ls : list pystr) : list pystr :=
  match ls with
  | [] => []
  | l :: ls' => if p l then ls else drop_until p ls'
  end.

(** The design document's wording of two extraction helpers, to be
    compared with the functions above. *)
Module Documented.

(** "splits on whitespace, collects every token starting with '#' with
    length > 1, preserving order, truncated to 30". *)
Definition extract_hashtags (content : pystr) : list pystr :=
  firstn 30
    (filter Crew.is_hashtag (flat_map split_ws (split_on NL content))).

(** "accumulates following non-blank lines until a line starting with
    '#' is hit after at least one caption line collected". *)
Fixpoint accumulate (ls : list pystr) (collected : list pystr) : list pystr :=
  match ls with
  | [] => collected
  | l :: ls' =>
      if startswith [HASH] l
         && match collected with [] => false | _ => true end
      then collected
      else if truthy (strip l) then accumulate ls' (collected ++ [l])
      else accumulate ls' collected
  end.

(** "scans for marker LONG CAPTION/LONG:, accumulates following
    non-blank lines ..., or returns the full text unmodified if no
    marker found". *)
Definition extract_long_caption (unicode_upper : char -> pystr)
    (content : pystr) : pystr :=
  match drop_until (Crew.is_long_marker unicode_upper)
                   (split_on NL content) with
  | [] => content
  | _ :: following => join [NL] (accumulate following [])
  end.

End Documented.

(** Lines of a caption body: stripped, not blank, not starting with '#'. *)
Definition is_caption_line (s : pystr) : bool :=
  truthy s && negb (startswith [HASH] s).

(** What the long caption is made of, given the lines after the marker:
    skip to the first caption line, read up to the next line starting
    with '#', keep the caption lines. *)
Definition caption_block (following : list pystr) : list pystr :=
  filter is_caption_line
    (take_until (startswith [HASH])
       (drop_until is_caption_line (map strip following))).

Definition is_blank (l : pystr) : bool := negb (truthy (strip l)).

(** The providers that need a key, and the request each one posts for
    a prompt. *)
Definition key_based (api : pystr) : bool :=
  eqb_str api (py "nano_banana") || eqb_str api (py "segmind")
  || eqb_str api (py "stability").

Definition request_of (self : ImageGenerator.t) (prompt : pystr)
    (num_images : Z) : Request :=
  if eqb_str (ImageGenerator.api_type self) (py "nano_banana")
  then ImageGenerator.nano_banana_request self prompt num_images
  else if eqb_str (ImageGenerator.api_type self) (py "segmind")
  then ImageGenerator.segmind_request self prompt num_images
  else ImageGenerator.stability_request self prompt num_images.

Definition body_field (key : pystr) (r : Request) : option json :=
  match req_json r with
  | JObj fields => lookup key fields
  | _ => None
  end.

(** A configuration without any key, and a service that is down. *)
Definition no_keys : Config :=
  {| NANO_BANANA_API_KEY := None;
     SEGMIND_API_KEY := None;
     STABILITY_API_KEY := None;
     IMAGE_GENERATION_API := py "pollinations" |}.

Definition offline : list Request -> Request -> Outcome :=
  fun _ _ => Failed (Exn "ConnectionError" (py "connection refused")).

Definition fresh : World := {| posts := []; draws := 0 |}.

(** A service that answers every request with two image URLs. *)
Definition two_urls : list Request -> Request -> Outcome :=
  fun _ _ =>
    Body (JObj [ (py "data",
                  JArr [ JObj [(py "url", JStr (py "https://img/1.png"))];
                         JObj [(py "url", JStr (py "https://img/2.png"))] ]) ]).

(** A service that fails on the second request it sees. *)
Definition flaky : list Request -> Request -> Outcome :=
  fun history r =>
    if (length history =? 1)%nat
    then Failed (Exn "HTTPError" (py "500 Server Error"))
    else two_urls history r.

(** What [__init__] builds from [no_keys] for two of the providers. *)
Definition banana : ImageGenerator.t :=
  {| ImageGenerator.api_type := py "nano_banana";
     ImageGenerator.api_key := None |}.
Definition pollinator : ImageGenerator.t :=
  {| ImageGenerator.api_type := py "pollinations";
     ImageGenerator.api_key := Some [] |}.

(** Libraries that always succeed, for the examples of [save_images]:
    every payload and every download opens as an image, every save
    works, and paths are joined with '/'. *)
Definition posix_join (dir name : pystr) : pystr := dir ++ py "/" ++ name.
Definition blank_disk : ImageGenerator.Disk unit :=
  {| ImageGenerator.fetched := []; ImageGenerator.written := [] |}.
Definition save_images_ok (images : list dict) (output_dir : pystr)
    (st : ImageGenerator.Disk unit)
    : Result (list pystr) * ImageGenerator.Disk unit :=
  ImageGenerator.save_images unit (fun _ => None) (fun _ => Ok tt)
    (fun _ _ => Ok tt) (fun _ _ _ => None) posix_join (fun _ => [])
    images output_dir st.

(** A run in which every service works: the crew answers with the
    same four texts for every topic. *)
Definition sample_outputs : InstagramContentCrew.Outputs :=
  {| InstagramContentCrew.research_result := py "Facts.";
     InstagramContentCrew.writing_result := py "Draft.";
     InstagramContentCrew.review_result :=
       join [NL] [py "SHORT CAPTION:"; py "Hi"; py "LONG CAPTION:"; py "Hello";
             py "#ai #ml"];
     InstagramContentCrew.image_prompts_result :=
       join [NL] [py "1. A robot painting a sunrise over a quiet city"] |}.
Definition blank_sys : InstagramContentCrew.Sys unit :=
  {| InstagramContentCrew.net := {| posts := []; draws := 0 |};
     InstagramContentCrew.disk :=
       {| ImageGenerator.fetched := []; ImageGenerator.written := [] |};
     InstagramContentCrew.result_files := [] |}.
Definition create_content_ok (http : list Request -> Request -> Outcome)
    (self : InstagramContentCrew.t) (topic : pystr) (save_images : bool)
    (s : InstagramContentCrew.Sys unit)
    : Result json * InstagramContentCrew.Sys unit :=
  InstagramContentCrew.create_content (fun _ => false) (fun c => [c]) http
    N.of_nat unit (fun _ => None) (fun _ => Ok tt) (fun _ _ => Ok tt)
    (fun _ _ _ => None) (fun dir name => dir ++ py "/" ++ name)
    (fun _ => []) (fun _ => Ok sample_outputs)
    (py "2025-01-01T09:30:00") (py "20250101_093000") (fun _ _ => None)
    (fun _ _ => None) self topic save_images s.

(** A generator whose raw output is 0, 1, 2, ... *)
Definition counting : nat -> N := N.of_nat.

(** The common shape of the three key-based loops, started from the
    images already held. *)
Definition keyed_loop (http : list Request -> Request -> Outcome)
    (request : pystr -> Request) (api field : pystr)
    (entry : pystr -> json -> Result dict)
    (prompts : list pystr) (images : list dict) : M (list dict) :=
  for_each prompts
    (fun images prompt =>
       outcome <- ImageGenerator.requests_post http (request prompt) ;;
       ret (ImageGenerator.handle prompt api
              (ImageGenerator.consume outcome field (entry prompt) images)))
    images.

(** What each prompt contributes in a key-based loop, [history] being
    the requests posted before the first of them. *)
Fixpoint keyed_groups (http : list Request -> Request -> Outcome)
    (request : pystr -> Request) (api field : pystr)
    (entry : pystr -> json -> Result dict)
    (prompts : list pystr) (history : list Request) : list (list dict) :=
  match prompts with
  | [] => []
  | p :: ps =>
      ImageGenerator.handle p api
        (ImageGenerator.consume (http history (request p)) field
           (entry p) [])
      :: keyed_groups http request api field entry ps
           (history ++ [request p])
  end.

(** The seed of the [n]-th draw. *)
Definition seed_at (entropy : nat -> N) (n : nat) : Z :=
  (fst ImageGenerator.seed_range
   + Z.of_N (entropy n)
     mod (snd ImageGenerator.seed_range - fst ImageGenerator.seed_range + 1))%Z.

(** A string without lone surrogate, and what [quote] makes of it. *)
Definition encodable (s : pystr) : bool :=
  forallb (fun c => negb (Urllib.is_surrogate c)) s.
Definition quoted (s : pystr) : pystr :=
  flat_map Urllib.quote_byte (flat_map Urllib.utf8 s).

(** The entries [_generate_pollinations] builds for encodable prompts
    with [k] images per prompt when [d] draws were made before. *)
Fixpoint pollinations_images (entropy : nat -> N) (k : nat)
    (prompts : list pystr) (d : nat) : list dict :=
  match prompts with
  | [] => []
  | p :: ps =>
      map (fun i => ImageGenerator.pollinations_entry p
                      (ImageGenerator.base_url ++ quoted p
                         ++ ImageGenerator.query_suffix
                              (seed_at entropy (d + i))))
          (seq 0 k)
      ++ pollinations_images entropy k ps (d + k)
  end.

(** An upper-case table that leaves non-ASCII characters alone, and an
    alphanumeric table without non-ASCII entries, for the examples. *)
Definition plain_upper : char -> pystr := fun c => [c].
Definition plain_isalnum : char -> bool := fun _ => false.

(** Text made of the given lines. *)
Definition text (lines : list pystr) : pystr := join [NL] lines.

(* ===================================================================== *)
(** ** Facts about the text primitives *)
(* ===================================================================== *)

Section TextFacts.

Lemma eqb_str_true (a b : pystr) : eqb_str a b = true -> a = b.
Proof. unfold eqb_str. destruct (list_eq_dec N.eq_dec a b); congruence. Qed.

Lemma eqb_str_refl (a : pystr) : eqb_str a a = true.
Proof. unfold eqb_str. destruct (list_eq_dec N.eq_dec a a); congruence. Qed.

Lemma dropwhile_incl (p : char -> bool) (s : pystr) (c : char) :
  In c (dropwhile p s) -> In c s.
Proof.
  induction s as [|a s IH]; simpl; auto.
  destruct (p a); simpl; auto.
Qed.

Lemma rstrip_incl (s : pystr) (c : char) : In c (rstrip s) -> In c s.
Proof.
  unfold rstrip. intros H.
  apply in_rev in H. apply dropwhile_incl in H. now apply in_rev.
Qed.

Lemma contains_single (c : char) (s : pystr) :
  In c s -> contains [c] s = true.
Proof.
  induction s as [|a s IH]; simpl; [tauto|].
  intros [->|H].
  - now rewrite N.eqb_refl.
  - rewrite IH by assumption. apply orb_true_r.
Qed.

Lemma startswith_app (x rest : pystr) : startswith x (x ++ rest) = true.
Proof.
  induction x as [|a x IH]; simpl; auto.
  now rewrite N.eqb_refl, IH.
Qed.

Lemma contains_startswith (x s : pystr) :
  startswith x s = true -> contains x s = true.
Proof. intros H. destruct s; simpl; now rewrite H. Qed.

Lemma contains_app (x before rest : pystr) :
  contains x (before ++ x ++ rest) = true.
Proof.
  induction before as [|a before IH]; simpl.
  - apply contains_startswith, startswith_app.
  - rewrite IH. apply orb_true_r.
Qed.

Lemma startswith_hash_head (w : pystr) :
  startswith [HASH] w = true -> In HASH w.
Proof.
  destruct w as [|a w]; [discriminate|].
  unfold startswith. intros H. apply andb_prop in H. destruct H as [H _].
  apply N.eqb_eq in H. left. now symmetry.
Qed.

(** Every character of a token comes from the run in progress or from
    the text still to be read. *)
Lemma split_ws_acc_chars (s acc w : pystr) (c : char) :
  In w (split_ws_acc acc s) -> In c w -> In c acc \/ In c s.
Proof.
  revert acc. induction s as [|a s IH]; intros acc Hw Hc; simpl in Hw.
  - destruct acc; simpl in Hw; [tauto|].
    destruct Hw as [<-|[]]. left. now apply in_rev.
  - destruct (isspace a).
    + destruct acc as [|b acc].
      * destruct (IH _ Hw Hc) as [[]|H]. right. now right.
      * destruct Hw as [<-|Hw].
        -- left. now apply in_rev.
        -- destruct (IH _ Hw Hc) as [[]|H]. right. now right.
    + destruct (IH _ Hw Hc) as [[->|H]|H].
      * right. now left.
      * now left.
      * right. now right.
Qed.

Lemma split_ws_chars (s w : pystr) (c : char) :
  In w (split_ws s) -> In c w -> In c s.
Proof.
  intros Hw Hc. destruct (split_ws_acc_chars _ _ _ _ Hw Hc) as [[]|H]; exact H.
Qed.

(** A loop that only appends is a [flat_map]. *)
Lemma fold_left_append {A B} (f : A -> list B) (l : list A) (acc : list B) :
  fold_left (fun acc x => acc ++ f x) l acc = acc ++ flat_map f l.
Proof.
  revert acc. induction l as [|x l IH]; intros acc; simpl.
  - now rewrite app_nil_r.
  - now rewrite IH, app_assoc.
Qed.

Lemma index_first (P : pystr -> bool) (pre post : list pystr) (m : pystr) :
  Forall (fun l => P l = false) pre -> P m = true ->
  index (pre ++ m :: post) m = Some (length pre).
Proof.
  intros Hpre Hm. induction Hpre as [|y pre Hy _ IH]; simpl.
  - now rewrite eqb_str_refl.
  - destruct (eqb_str y m) eqn:E.
    + apply eqb_str_true in E. congruence.
    + now rewrite IH.
Qed.

Lemma skipn_past (A : Type) (pre post : list A) (m : A) :
  skipn (S (length pre)) (pre ++ m :: post) = post.
Proof. induction pre as [|y pre IH]; simpl; auto. Qed.

End TextFacts.

(* ===================================================================== *)
(** ** The parsing helpers *)
(* ===================================================================== *)

Lemma firstn_incl {A} (n : nat) (l : list A) (x : A) :
  In x (firstn n l) -> In x l.
Proof.
  revert l. induction n as [|n IH]; intros [|a l]; simpl; try tauto.
  intros [->|H]; auto.
Qed.

Lemma filter_none {A} (f : A -> bool) (l : list A) :
  (forall x, In x l -> f x = false) -> filter f l = [].
Proof.
  induction l as [|a l IH]; simpl; intros H; [reflexivity|].
  rewrite (H a) by now left. apply IH. intros x Hx. apply H. now right.
Qed.

Section CrewFacts.
Variable unicode_isalnum : char -> bool.
Variable unicode_upper : char -> pystr.

(** C3. For every output text and every topic, [_parse_image_prompts]
    returns exactly three prompts: when the loop collects fewer than
    three, they are the collected prompts followed by the topic's
    fallback prompts, cut after the third; when it collects three or
    more, they are the first three collected. *)
Theorem parse_image_prompts_three (image_prompts_result topic : pystr) :
  length (Crew._parse_image_prompts image_prompts_result topic) = 3%nat
  /\ ((length (Crew.parsed_prompts image_prompts_result) < 3)%nat ->
      Crew._parse_image_prompts image_prompts_result topic
      = firstn 3 (Crew.parsed_prompts image_prompts_result
                    ++ Crew.fallback_prompts topic))
  /\ ((3 <= length (Crew.parsed_prompts image_prompts_result))%nat ->
      Crew._parse_image_prompts image_prompts_result topic
      = firstn 3 (Crew.parsed_prompts image_prompts_result)).
Proof.
  unfold Crew._parse_image_prompts. cbv zeta.
  generalize (Crew.parsed_prompts image_prompts_result). intros prompts.
  destruct (Nat.ltb_spec (length prompts) 3) as [Hlt|Hge].
  - split; [|split].
    + rewrite length_firstn, length_app.
      change (length (Crew.fallback_prompts topic)) with 3%nat. lia.
    + intros _. reflexivity.
    + intros H. lia.
  - split; [|split].
    + rewrite length_firstn. lia.
    + intros H. lia.
    + intros _. reflexivity.
Qed.

Lemma hashtags_of_line_filter (hashtags : list pystr) (line : pystr) :
  Crew.hashtags_of_line hashtags line
  = hashtags ++ filter Crew.is_hashtag (split_ws line).
Proof.
  unfold Crew.hashtags_of_line.
  assert (E : forall ws acc,
             fold_left (fun hs word =>
                          if Crew.is_hashtag word then hs ++ [word] else hs)
                       ws acc
             = acc ++ filter Crew.is_hashtag ws).
  { induction ws as [|w ws IH]; intros acc; simpl.
    - now rewrite app_nil_r.
    - rewrite IH. destruct (Crew.is_hashtag w); [|reflexivity].
      now rewrite <- app_assoc. }
  destruct (contains [HASH] line) eqn:C; [apply E|].
  rewrite filter_none; [now rewrite app_nil_r|].
  intros w Hw. destruct (Crew.is_hashtag w) eqn:Hh; [|reflexivity].
  unfold Crew.is_hashtag in Hh. apply andb_prop in Hh. destruct Hh as [Hs _].
  apply startswith_hash_head in Hs.
  rewrite (contains_single HASH line) in C; [discriminate|].
  eapply split_ws_chars; eassumption.
Qed.

Lemma hashtags_collected (lines : list pystr) (acc : list pystr) :
  fold_left Crew.hashtags_of_line lines acc
  = acc ++ filter Crew.is_hashtag (flat_map split_ws lines).
Proof.
  revert acc. induction lines as [|l lines IH]; intros acc; simpl.
  - now rewrite app_nil_r.
  - rewrite IH, hashtags_of_line_filter, filter_app, app_assoc. reflexivity.
Qed.

(** C4. For every text, [_extract_hashtags] returns at most 30 entries,
    each starting with '#' and longer than one character; they are the
    whitespace-separated tokens of the lines that start with '#' (and
    are longer than one character), in order of occurrence, cut after
    the thirtieth. *)
Theorem extract_hashtags_spec (content : pystr) :
  (length (Crew._extract_hashtags content) <= 30)%nat
  /\ Forall (fun tag => startswith [HASH] tag = true /\ (1 < length tag)%nat)
            (Crew._extract_hashtags content)
  /\ Crew._extract_hashtags content = Documented.extract_hashtags content.
Proof.
  assert (E : Crew._extract_hashtags content
              = Documented.extract_hashtags content).
  { unfold Crew._extract_hashtags, Documented.extract_hashtags.
    now rewrite hashtags_collected. }
  split; [|split; [|exact E]].
  - unfold Crew._extract_hashtags. rewrite length_firstn. lia.
  - rewrite E. unfold Documented.extract_hashtags.
    apply Forall_forall. intros tag Hin.
    apply firstn_incl, filter_In in Hin. destruct Hin as [_ Hh].
    unfold Crew.is_hashtag in Hh. apply andb_prop in Hh.
    destruct Hh as [Hs Hl]. split; [exact Hs|].
    now apply Nat.ltb_lt in Hl.
Qed.


(** C8. For every topic, the sanitised file-name component holds only
    alphanumerics, hyphens and underscores (and no space); it is the
    topic with every character that is not alphanumeric, space, hyphen
    or underscore removed, trailing whitespace stripped and spaces
    turned into underscores; 'AI: The Future?!' gives 'AI_The_Future'. *)
Theorem safe_topic_charset (topic : pystr) :
  Forall (fun c => (isalnum unicode_isalnum c = true
                    \/ c = HYPHEN \/ c = UNDERSCORE) /\ c <> SPACE)
         (Crew.safe_topic unicode_isalnum topic)
  /\ Crew.safe_topic unicode_isalnum topic
     = replace_char SPACE UNDERSCORE
         (rstrip (filter (fun c => isalnum unicode_isalnum c
                                   || (c =? SPACE) || (c =? HYPHEN)
                                   || (c =? UNDERSCORE))
                         topic))
  /\ Crew.safe_topic unicode_isalnum (py "AI: The Future?!")
     = py "AI_The_Future".
Proof.
  split; [|split].
  - unfold Crew.safe_topic, replace_char. apply Forall_forall.
    intros c Hc. apply in_map_iff in Hc. destruct Hc as [d [Hd Hin]].
    apply rstrip_incl, filter_In in Hin. destruct Hin as [_ Hk].
    unfold Crew.keeps in Hk. cbn [existsb] in Hk.
    destruct (N.eq_dec d SPACE) as [E|Hns].
    + rewrite E in Hd. change (UNDERSCORE = c) in Hd. subst c.
      split; [now right; right | discriminate].
    + rewrite (proj2 (N.eqb_neq d SPACE) Hns) in Hd, Hk. subst c.
      split; [|exact Hns].
      destruct (isalnum unicode_isalnum d); [now left|].
      destruct (N.eqb_spec d HYPHEN); [now right; left|].
      destruct (N.eqb_spec d UNDERSCORE); [now right; right|].
      discriminate.
  - unfold Crew.safe_topic, Crew.keeps. do 2 f_equal.
    apply filter_ext. intros c. cbn [existsb].
    now rewrite orb_false_r, !orb_assoc.
  - vm_compute. reflexivity.
Qed.

Lemma first_nonblank_after_blanks (blanks rest : list pystr) (l : pystr) :
  Forall (fun b => is_blank b = true) blanks -> is_blank l = false ->
  Crew.first_nonblank (blanks ++ l :: rest) = Some (strip l).
Proof.
  unfold is_blank. intros Hb Hl. induction Hb as [|b blanks Hb _ IH]; simpl.
  - apply negb_false_iff in Hl. now rewrite Hl.
  - apply negb_true_iff in Hb. now rewrite Hb.
Qed.

Lemma short_loop_no_marker (lines rest : list pystr) :
  Forall (fun l => Crew.is_short_marker unicode_upper l = false) rest ->
  Crew.short_loop unicode_upper lines rest = Ok Crew.short_placeholder.
Proof.
  intros H. induction H as [|l rest Hl _ IH]; simpl; [reflexivity|].
  now rewrite Hl.
Qed.

Lemma short_loop_skip (lines pre rest : list pystr) :
  Forall (fun l => Crew.is_short_marker unicode_upper l = false) pre ->
  Crew.short_loop unicode_upper lines (pre ++ rest)
  = Crew.short_loop unicode_upper lines rest.
Proof.
  intros H. induction H as [|l pre Hl _ IH]; simpl; [reflexivity|].
  now rewrite Hl.
Qed.

(** C7. If some line holds 'SHORT CAPTION' or 'SHORT:' once upper-cased,
    [_extract_short_caption] returns the first non-blank line after the
    first such line, stripped; if no line holds a marker it returns the
    placeholder; a 'SHORT CAPTION' line, blank lines, then
    'Hello world' gives 'Hello world'. *)
Theorem extract_short_caption_spec (content : pystr) :
  (forall pre m blanks l rest,
      split_on NL content = pre ++ m :: blanks ++ l :: rest ->
      Forall (fun x => Crew.is_short_marker unicode_upper x = false) pre ->
      Crew.is_short_marker unicode_upper m = true ->
      Forall (fun b => is_blank b = true) blanks ->
      is_blank l = false ->
      Crew._extract_short_caption unicode_upper content = Ok (strip l))
  /\ (Forall (fun x => Crew.is_short_marker unicode_upper x = false)
             (split_on NL content) ->
      Crew._extract_short_caption unicode_upper content
      = Ok Crew.short_placeholder)
  /\ Crew._extract_short_caption unicode_upper
       (text [py "SHORT CAPTION"; py ""; py "   "; py "Hello world"])
     = Ok (py "Hello world").
Proof.
  split; [|split].
  - intros pre m blanks l rest E Hpre Hm Hb Hl.
    unfold Crew._extract_short_caption. cbv zeta. rewrite E.
    rewrite short_loop_skip by assumption.
    cbn [Crew.short_loop]. rewrite Hm.
    rewrite (index_first (Crew.is_short_marker unicode_upper)) by assumption.
    rewrite skipn_past.
    now rewrite first_nonblank_after_blanks.
  - intros H. now apply short_loop_no_marker.
  - vm_compute. reflexivity.
Qed.

Lemma long_loop_no_marker (content : pystr) (lines rest : list pystr) :
  Forall (fun l => Crew.is_long_marker unicode_upper l = false) rest ->
  Crew.long_loop unicode_upper content lines rest = Ok content.
Proof.
  intros H. induction H as [|l rest Hl _ IH]; simpl; [reflexivity|].
  now rewrite Hl.
Qed.

Lemma long_loop_skip (content : pystr) (lines pre rest : list pystr) :
  Forall (fun l => Crew.is_long_marker unicode_upper l = false) pre ->
  Crew.long_loop unicode_upper content lines (pre ++ rest)
  = Crew.long_loop unicode_upper content lines rest.
Proof.
  intros H. induction H as [|l pre Hl _ IH]; simpl; [reflexivity|].
  now rewrite Hl.
Qed.

(** Once a caption line is held, the loop appends caption lines up to
    the next line starting with '#'. *)
Lemma collect_caption_started (ls acc : list pystr) :
  acc <> [] ->
  Crew.collect_caption ls acc
  = acc ++ filter is_caption_line
             (take_until (startswith [HASH]) (map strip ls)).
Proof.
  revert acc. induction ls as [|l ls IH]; intros acc Hacc.
  - simpl. now rewrite app_nil_r.
  - cbn [Crew.collect_caption map take_until].
    destruct (truthy (strip l)) eqn:Ht;
      destruct (startswith [HASH] (strip l)) eqn:Hs; cbn [andb negb].
    + destruct acc; [congruence|]. cbn [filter]. now rewrite app_nil_r.
    + rewrite IH by (destruct acc; discriminate).
      cbn [filter]. unfold is_caption_line at 2. rewrite Ht, Hs.
      cbn [andb negb]. now rewrite <- app_assoc.
    + destruct acc; [congruence|]. cbn [filter]. now rewrite app_nil_r.
    + rewrite IH by assumption.
      cbn [filter]. unfold is_caption_line at 2. rewrite Ht, Hs.
      reflexivity.
Qed.

Lemma collect_caption_block (ls : list pystr) :
  Crew.collect_caption ls [] = caption_block ls.
Proof.
  unfold caption_block. induction ls as [|l ls IH]; [reflexivity|].
  cbn [Crew.collect_caption map drop_until]. unfold is_caption_line at 2.
  destruct (truthy (strip l) && negb (startswith [HASH] (strip l))) eqn:Hc.
  - rewrite collect_caption_started by discriminate.
    apply andb_prop in Hc. destruct Hc as [Ht Hs].
    apply negb_true_iff in Hs.
    cbn [take_until]. rewrite Hs. cbn [filter].
    unfold is_caption_line at 2. rewrite Ht, Hs. reflexivity.
  - rewrite andb_false_r. exact IH.
Qed.

(** C6. When no line holds 'LONG CAPTION' or 'LONG:' once upper-cased,
    [_extract_long_caption] returns the text unchanged.  When some line
    does, it returns, joined by newlines, the stripped lines after the
    first such line that are neither blank nor start with '#', read up
    to the first line starting with '#' that comes after one of them. *)
Theorem extract_long_caption_spec (content : pystr) :
  (Forall (fun x => Crew.is_long_marker unicode_upper x = false)
          (split_on NL content) ->
   Crew._extract_long_caption unicode_upper content = Ok content)
  /\ (forall pre m post,
         split_on NL content = pre ++ m :: post ->
         Forall (fun x => Crew.is_long_marker unicode_upper x = false) pre ->
         Crew.is_long_marker unicode_upper m = true ->
         Crew._extract_long_caption unicode_upper content
         = Ok (join [NL] (caption_block post))).
Proof.
  split.
  - intros H. now apply long_loop_no_marker.
  - intros pre m post E Hpre Hm.
    unfold Crew._extract_long_caption. cbv zeta. rewrite E.
    rewrite long_loop_skip by assumption.
    cbn [Crew.long_loop]. rewrite Hm.
    rewrite (index_first (Crew.is_long_marker unicode_upper)) by assumption.
    now rewrite skipn_past, collect_caption_block.
Qed.

Lemma index_found (lines : list pystr) (x : pystr) :
  In x lines -> exists i, index lines x = Some i.
Proof.
  induction lines as [|y lines IH]; simpl; [tauto|].
  intros H. destruct (eqb_str y x) eqn:E; [now exists 0%nat|].
  destruct H as [->|H]; [now rewrite eqb_str_refl in E|].
  destruct (IH H) as [i ->]. now exists (S i).
Qed.

Lemma index_not_before (P : pystr -> bool) (pre rest : list pystr)
    (x : pystr) (i : nat) :
  Forall (fun l => P l = false) pre -> P x = true ->
  index (pre ++ rest) x = Some i -> (length pre <= i)%nat.
Proof.
  intros Hpre Hx. revert i.
  induction Hpre as [|y pre Hy _ IH]; intros i; simpl; [lia|].
  destruct (eqb_str y x) eqn:E.
  - apply eqb_str_true in E. congruence.
  - destruct (index (pre ++ rest) x) as [j|]; simpl; [|discriminate].
    intros [= <-]. specialize (IH j eq_refl). lia.
Qed.

Lemma first_nonblank_none (ls : list pystr) :
  Forall (fun b => is_blank b = true) ls -> Crew.first_nonblank ls = None.
Proof.
  unfold is_blank. intros H. induction H as [|b ls Hb _ IH]; simpl; auto.
  apply negb_true_iff in Hb. now rewrite Hb.
Qed.

Lemma Forall_skipn_blank (n : nat) (ls : list pystr) :
  Forall (fun b => is_blank b = true) ls ->
  Forall (fun b => is_blank b = true) (skipn n ls).
Proof.
  revert ls. induction n as [|n IH]; intros ls H; simpl; [exact H|].
  destruct H; auto.
Qed.

Lemma skipn_beyond (A : Type) (pre post : list A) (m : A) (i : nat) :
  (length pre <= i)%nat ->
  skipn (S i) (pre ++ m :: post) = skipn (i - length pre) post.
Proof.
  revert i. induction pre as [|y pre IH]; intros i Hi; simpl.
  - now rewrite Nat.sub_0_r.
  - destruct i as [|i]; simpl in Hi; [lia|].
    apply IH. lia.
Qed.

(** X6. A marker with nothing but blank lines after it: the placeholder. *)
Lemma short_caption_marker_without_text (content : pystr)
    (pre post : list pystr) (m : pystr) :
  split_on NL content = pre ++ m :: post ->
  Forall (fun x => Crew.is_short_marker unicode_upper x = false) pre ->
  Crew.is_short_marker unicode_upper m = true ->
  Forall (fun b => is_blank b = true) post ->
  Crew._extract_short_caption unicode_upper content
  = Ok Crew.short_placeholder.
Proof.
  intros E Hpre Hm Hpost.
  unfold Crew._extract_short_caption. cbv zeta. rewrite E.
  assert (G : forall rest, incl rest (pre ++ m :: post) ->
              Crew.short_loop unicode_upper (pre ++ m :: post) rest
              = Ok Crew.short_placeholder).
  { induction rest as [|x rest IH]; intros Hin; [reflexivity|].
    cbn [Crew.short_loop].
    assert (Hrest : incl rest (pre ++ m :: post))
      by (intros y Hy; apply Hin; now right).
    destruct (Crew.is_short_marker unicode_upper x) eqn:Hx; [|now apply IH].
    destruct (index_found (pre ++ m :: post) x) as [i Hi];
      [apply Hin; now left|].
    rewrite Hi.
    pose proof (index_not_before _ _ _ _ _ Hpre Hx Hi) as Hle.
    rewrite skipn_beyond by assumption.
    rewrite first_nonblank_none by now apply Forall_skipn_blank.
    now apply IH. }
  apply G, incl_refl.
Qed.

(** [lines.index(line)] always finds the line being visited, so neither
    extraction raises. *)
Lemma extract_short_caption_returns (content : pystr) :
  exists caption,
    Crew._extract_short_caption unicode_upper content = Ok caption.
Proof.
  unfold Crew._extract_short_caption. cbv zeta.
  assert (G : forall lines rest, incl rest lines ->
              exists caption,
                Crew.short_loop unicode_upper lines rest = Ok caption).
  { intros lines rest.
    induction rest as [|x rest IH]; intros Hin; cbn [Crew.short_loop].
    - eauto.
    - assert (Hrest : incl rest lines)
        by (intros y Hy; apply Hin; now right).
      destruct (Crew.is_short_marker unicode_upper x); [|now apply IH].
      destruct (index_found lines x) as [i ->]; [apply Hin; now left|].
      destruct (Crew.first_nonblank _); [eauto | now apply IH]. }
  apply G, incl_refl.
Qed.

Lemma extract_long_caption_returns (content : pystr) :
  exists caption,
    Crew._extract_long_caption unicode_upper content = Ok caption.
Proof.
  unfold Crew._extract_long_caption. cbv zeta.
  assert (G : forall lines rest, incl rest lines ->
              exists caption,
                Crew.long_loop unicode_upper content lines rest
                = Ok caption).
  { intros lines rest.
    induction rest as [|x rest IH]; intros Hin; cbn [Crew.long_loop].
    - eauto.
    - assert (Hrest : incl rest lines)
        by (intros y Hy; apply Hin; now right).
      destruct (Crew.is_long_marker unicode_upper x); [|now apply IH].
      destruct (index_found lines x) as [i ->]; [apply Hin; now left|].
      eauto. }
  apply G, incl_refl.
Qed.

End CrewFacts.

(** The text 'LONG:', '#tag', 'hello': the '#tag' line is a non-blank
    line after the marker, met before any caption line, and the
    function leaves it out. *)
Lemma long_caption_leaves_out_leading_tag :
  Crew._extract_long_caption plain_upper
    (text [py "LONG:"; py "#tag"; py "hello"]) = Ok (py "hello")
  /\ Documented.extract_long_caption plain_upper
       (text [py "LONG:"; py "#tag"; py "hello"])
     = text [py "#tag"; py "hello"]
  /\ Crew._extract_long_caption plain_upper
       (text [py "LONG:"; py "#tag"; py "hello"])
     <> Ok (Documented.extract_long_caption plain_upper
              (text [py "LONG:"; py "#tag"; py "hello"])).
Proof.
  split; [|split]; vm_compute; [reflexivity | reflexivity | discriminate].
Qed.

Lemma parse_image_prompts_three_witness :
  (length (Crew.parsed_prompts (py "1. tiny")) < 3)%nat
  /\ Crew._parse_image_prompts (py "1. tiny") (py "AI")
     = firstn 3 (Crew.parsed_prompts (py "1. tiny")
                   ++ Crew.fallback_prompts (py "AI")).
Proof.
  assert (H : (length (Crew.parsed_prompts (py "1. tiny")) < 3)%nat)
    by (vm_compute; lia).
  split; [exact H|].
  exact (proj1 (proj2 (parse_image_prompts_three (py "1. tiny") (py "AI"))) H).
Defined.

Lemma extract_short_caption_spec_witness :
  Crew._extract_short_caption plain_upper
    (text [py "Draft"; py "Short caption:"; py ""; py "  Hi there  ";
           py "more"])
  = Ok (py "Hi there").
Proof.
  apply (proj1 (extract_short_caption_spec plain_upper
                  (text [py "Draft"; py "Short caption:"; py "";
                         py "  Hi there  "; py "more"]))
           [py "Draft"] (py "Short caption:") [py ""] (py "  Hi there  ")
           [py "more"]).
  - vm_compute. reflexivity.
  - repeat constructor.
  - vm_compute. reflexivity.
  - repeat constructor.
  - vm_compute. reflexivity.
Defined.

Lemma extract_long_caption_spec_witness :
  Crew._extract_long_caption plain_upper
    (text [py "Long caption"; py "#intro"; py " First line "; py "";
           py "Second line"; py "#tags"; py "after"])
  = Ok (text [py "First line"; py "Second line"]).
Proof.
  apply (proj2 (extract_long_caption_spec plain_upper
                  (text [py "Long caption"; py "#intro"; py " First line ";
                         py ""; py "Second line"; py "#tags"; py "after"]))
           [] (py "Long caption")
           [py "#intro"; py " First line "; py ""; py "Second line";
            py "#tags"; py "after"]).
  - vm_compute. reflexivity.
  - constructor.
  - vm_compute. reflexivity.
Defined.

(* ===================================================================== *)
(** ** The provider adapter *)
(* ===================================================================== *)

(** C1. Constructing the generator for a key-based provider succeeds
    whether or not its key is configured, and holds whatever value the
    configuration has for it; for 'pollinations' it succeeds with the
    empty key; it fails, with a [ValueError], only for a provider name
    that is none of the four. *)
Theorem init_spec (cfg : Config) :
  ImageGenerator.__init__ cfg (py "nano_banana")
  = Ok {| ImageGenerator.api_type := py "nano_banana";
          ImageGenerator.api_key := NANO_BANANA_API_KEY cfg |}
  /\ ImageGenerator.__init__ cfg (py "segmind")
     = Ok {| ImageGenerator.api_type := py "segmind";
             ImageGenerator.api_key := SEGMIND_API_KEY cfg |}
  /\ ImageGenerator.__init__ cfg (py "stability")
     = Ok {| ImageGenerator.api_type := py "stability";
             ImageGenerator.api_key := STABILITY_API_KEY cfg |}
  /\ ImageGenerator.__init__ cfg (py "pollinations")
     = Ok {| ImageGenerator.api_type := py "pollinations";
             ImageGenerator.api_key := Some [] |}
  /\ (forall api,
         api <> py "nano_banana" -> api <> py "segmind" ->
         api <> py "stability" -> api <> py "pollinations" ->
         ImageGenerator.__init__ cfg api
         = Raise (Exn "ValueError" (py "Unsupported API type: " ++ api))).
Proof.
  repeat (split; [reflexivity|]).
  intros api H1 H2 H3 H4.
  unfold ImageGenerator.__init__, ImageGenerator._get_api_key.
  destruct (eqb_str api (py "nano_banana")) eqn:E1;
    [apply eqb_str_true in E1; contradiction|].
  destruct (eqb_str api (py "segmind")) eqn:E2;
    [apply eqb_str_true in E2; contradiction|].
  destruct (eqb_str api (py "stability")) eqn:E3;
    [apply eqb_str_true in E3; contradiction|].
  destruct (eqb_str api (py "pollinations")) eqn:E4;
    [apply eqb_str_true in E4; contradiction|].
  reflexivity.
Qed.

Lemma init_spec_witness :
  ImageGenerator.__init__ no_keys (py "dalle")
  = Raise (Exn "ValueError" (py "Unsupported API type: dalle")).
Proof.
  apply (proj2 (proj2 (proj2 (proj2 (init_spec no_keys)))) (py "dalle"));
    discriminate.
Defined.

(** Without any key configured, and with an empty key, the generator
    for 'nano_banana' is constructed all the same. *)
Lemma init_without_key_succeeds :
  ~ (exists e, ImageGenerator.__init__ no_keys (py "nano_banana") = Raise e)
  /\ ~ (exists e,
           ImageGenerator.__init__
             {| NANO_BANANA_API_KEY := Some [];
                SEGMIND_API_KEY := Some [];
                STABILITY_API_KEY := Some [];
                IMAGE_GENERATION_API := py "nano_banana" |}
             (py "nano_banana") = Raise e).
Proof.
  split; intros [e H]; vm_compute in H; discriminate.
Qed.

Section AdapterFacts.
Variable http : list Request -> Request -> Outcome.
Variable entropy : nat -> N.

Lemma for_each_app {A B} (l1 l2 : list A) (body : B -> A -> M B)
    (acc : B) (w : World) :
  for_each (l1 ++ l2) body acc w
  = let (acc', w') := for_each l1 body acc w in for_each l2 body acc' w'.
Proof.
  revert acc w. induction l1 as [|x l1 IH]; intros acc w; simpl.
  - reflexivity.
  - unfold bind. destruct (body acc x w) as [acc' w']. apply IH.
Qed.

Lemma seed_at_range (n : nat) :
  (1 <= seed_at entropy n <= 10000000)%Z.
Proof.
  unfold seed_at, ImageGenerator.seed_range. cbn [fst snd].
  change (10000000 - 1 + 1)%Z with 10000000%Z.
  pose proof (Z.mod_pos_bound (Z.of_N (entropy n)) 10000000 eq_refl). lia.
Qed.

Lemma first_surrogate_none (s : pystr) (i : nat) :
  encodable s = true -> Urllib.first_surrogate s i = None.
Proof.
  revert i. induction s as [|c s IH]; intros i; simpl; [reflexivity|].
  intros H. apply andb_prop in H. destruct H as [Hc Hs].
  apply negb_true_iff in Hc. rewrite Hc. now apply IH.
Qed.

Lemma first_surrogate_some (s : pystr) (i : nat) :
  encodable s = false ->
  exists start run, Urllib.first_surrogate s i = Some (start, run).
Proof.
  revert i. induction s as [|c s IH]; intros i; simpl; [discriminate|].
  destruct (Urllib.is_surrogate c); simpl; [eauto | apply IH].
Qed.

(** [quote] returns exactly on the strings without lone surrogate. *)
Lemma quote_encodable (s : pystr) :
  encodable s = true -> Urllib.quote s = Ok (quoted s).
Proof.
  intros H. unfold Urllib.quote, Urllib.encode.
  now rewrite first_surrogate_none.
Qed.

Lemma quote_unencodable (s : pystr) :
  encodable s = false ->
  exists msg, Urllib.quote s = Raise (Exn "UnicodeEncodeError" msg).
Proof.
  intros H. unfold Urllib.quote, Urllib.encode.
  destruct (first_surrogate_some s 0 H) as (start & run & ->).
  unfold Urllib.surrogate_error. eauto.
Qed.

Lemma pollinations_url_encodable (prompt : pystr) (seed : Z) :
  encodable prompt = true ->
  ImageGenerator.pollinations_url prompt seed
  = Ok (ImageGenerator.base_url ++ quoted prompt
          ++ ImageGenerator.query_suffix seed).
Proof.
  intros H. unfold ImageGenerator.pollinations_url.
  now rewrite quote_encodable.
Qed.

(** The inner loop for an encodable prompt: [k] draws, [k] entries. *)
Lemma pollinations_inner (prompt : pystr) (k s : nat) (images : list dict)
    (w : World) :
  encodable prompt = true ->
  for_each_r (seq s k)
    (fun images (_ : nat) =>
       seed <- ImageGenerator.random_randint entropy
                 (fst ImageGenerator.seed_range)
                 (snd ImageGenerator.seed_range) ;;
       ret (match ImageGenerator.pollinations_url prompt seed with
            | Ok url =>
                Ok (images ++ [ImageGenerator.pollinations_entry prompt url])
            | Raise e => Raise e
            end))
    images w
  = (Ok (images
         ++ map (fun i => ImageGenerator.pollinations_entry prompt
                            (ImageGenerator.base_url ++ quoted prompt
                               ++ ImageGenerator.query_suffix
                                    (seed_at entropy (draws w + i))))
                (seq 0 k)),
     {| posts := posts w; draws := draws w + k |}).
Proof.
  intros He. revert s images w. induction k as [|k IH]; intros s images w.
  - simpl. unfold ret. rewrite app_nil_r, Nat.add_0_r. now destruct w.
  - cbn [seq for_each_r].
    unfold bind at 1, ImageGenerator.random_randint at 1, ret at 1.
    rewrite pollinations_url_encodable by assumption.
    rewrite IH. cbn [posts draws map].
    rewrite <- seq_shift, map_map, <- app_assoc. cbn [app].
    rewrite Nat.add_0_r. f_equal.
    + do 3 f_equal. apply map_ext. intros i. do 5 f_equal. lia.
    + f_equal. lia.
Qed.

Lemma generate_pollinations_from (prompts : list pystr) (num_images : Z)
    (images : list dict) (w : World) :
  Forall (fun p => encodable p = true) prompts ->
  for_each_r prompts
    (fun images prompt =>
       for_each_r (seq 0 (Z.to_nat (Z.max 1 num_images)))
         (fun images (_ : nat) =>
            seed <- ImageGenerator.random_randint entropy
                      (fst ImageGenerator.seed_range)
                      (snd ImageGenerator.seed_range) ;;
            ret (match ImageGenerator.pollinations_url prompt seed with
                 | Ok url =>
                     Ok (images
                         ++ [ImageGenerator.pollinations_entry prompt url])
                 | Raise e => Raise e
                 end))
         images)
    images w
  = (Ok (images
         ++ pollinations_images entropy (Z.to_nat (Z.max 1 num_images))
              prompts (draws w)),
     {| posts := posts w;
        draws := draws w
                 + length prompts * Z.to_nat (Z.max 1 num_images) |}).
Proof.
  intros H. revert images w.
  induction H as [|p ps Hp _ IH]; intros images w.
  - simpl. unfold ret. rewrite app_nil_r, Nat.add_0_r. now destruct w.
  - cbn [for_each_r]. rewrite pollinations_inner by assumption. rewrite IH.
    cbn [posts draws pollinations_images length].
    rewrite <- app_assoc. f_equal. f_equal. lia.
Qed.

Lemma generate_pollinations_eq (prompts : list pystr) (num_images : Z)
    (w : World) :
  Forall (fun p => encodable p = true) prompts ->
  ImageGenerator._generate_pollinations entropy prompts num_images w
  = (Ok (pollinations_images entropy (Z.to_nat (Z.max 1 num_images))
           prompts (draws w)),
     {| posts := posts w;
        draws := draws w
                 + length prompts * Z.to_nat (Z.max 1 num_images) |}).
Proof.
  intros H. unfold ImageGenerator._generate_pollinations.
  now rewrite generate_pollinations_from.
Qed.

Lemma pollinations_images_length (k : nat) (prompts : list pystr) (d : nat) :
  length (pollinations_images entropy k prompts d) = (length prompts * k)%nat.
Proof.
  revert d. induction prompts as [|p ps IH]; intros d; simpl; [reflexivity|].
  now rewrite length_app, length_map, length_seq, IH.
Qed.

Lemma pollinations_entry_prompt (p url : pystr) :
  lookup (py "prompt") (ImageGenerator.pollinations_entry p url)
  = Some (JStr p).
Proof. reflexivity. Qed.

Lemma map_const_seq {A} (a : A) (f : nat -> A) (s k : nat) :
  (forall i, f i = a) -> map f (seq s k) = repeat a k.
Proof.
  intros H. revert s. induction k as [|k IH]; intros s; simpl; [reflexivity|].
  now rewrite H, IH.
Qed.

Lemma pollinations_images_prompts (k : nat) (prompts : list pystr) (d : nat) :
  map (lookup (py "prompt")) (pollinations_images entropy k prompts d)
  = flat_map (fun p => repeat (Some (JStr p)) k) prompts.
Proof.
  revert d. induction prompts as [|p ps IH]; intros d; simpl; [reflexivity|].
  rewrite map_app, IH, map_map. f_equal.
  apply map_const_seq. intros i. apply pollinations_entry_prompt.
Qed.

(** C10. For every list of prompts that hold no lone surrogate and
    every integer [num_images], [_generate_pollinations] returns
    [len(prompts) * max(1, num_images)] entries, hence one per prompt
    when [num_images] is zero or negative; the entries' prompts are the
    input prompts in order, each repeated [max(1, num_images)] times. *)
Theorem generate_pollinations_count (prompts : list pystr) (num_images : Z)
    (w : World) :
  Forall (fun p => encodable p = true) prompts ->
  exists images,
    fst (ImageGenerator._generate_pollinations entropy prompts num_images w)
    = Ok images
    /\ length images = (length prompts * Z.to_nat (Z.max 1 num_images))%nat
    /\ ((num_images <= 0)%Z -> length images = length prompts)
    /\ map (lookup (py "prompt")) images
       = flat_map (fun p => repeat (Some (JStr p))
                              (Z.to_nat (Z.max 1 num_images)))
                  prompts.
Proof.
  intros He. rewrite generate_pollinations_eq by assumption. cbn [fst].
  eexists. split; [reflexivity|]. split; [|split].
  - apply pollinations_images_length.
  - intros H. rewrite pollinations_images_length.
    replace (Z.max 1 num_images) with 1%Z by lia.
    change (Z.to_nat 1) with 1%nat. lia.
  - apply pollinations_images_prompts.
Qed.

(** C9. With the 'pollinations' provider, two prompts without lone
    surrogate and one image per prompt give exactly two entries and
    post nothing; each entry's URL is the base URL, the quoted prompt
    and the query string ending in [seed=<n>] with [n] between 1 and
    10,000,000, so it is not empty and contains both the quoted prompt
    and the seed parameter. *)
Theorem pollinations_two_prompts (self : ImageGenerator.t)
    (p1 p2 : pystr) (w : World) :
  ImageGenerator.api_type self = py "pollinations" ->
  encodable p1 = true -> encodable p2 = true ->
  exists seed1 seed2 quoted1 quoted2 url1 url2 w',
    ImageGenerator.generate_images http entropy self [p1; p2] 1 w
    = (Ok [ [ (py "prompt", JStr p1); (py "url", JStr url1);
              (py "api", JStr (py "pollinations")) ];
            [ (py "prompt", JStr p2); (py "url", JStr url2);
              (py "api", JStr (py "pollinations")) ] ],
       w')
    /\ posts w' = posts w
    /\ (1 <= seed1 <= 10000000)%Z /\ (1 <= seed2 <= 10000000)%Z
    /\ Urllib.quote p1 = Ok quoted1 /\ Urllib.quote p2 = Ok quoted2
    /\ url1 = py "https://image.pollinations.ai/prompt/" ++ quoted1
              ++ py "?width=1024&height=1024&enhance=true&seed="
              ++ str_of_Z seed1
    /\ url2 = py "https://image.pollinations.ai/prompt/" ++ quoted2
              ++ py "?width=1024&height=1024&enhance=true&seed="
              ++ str_of_Z seed2
    /\ url1 <> [] /\ url2 <> []
    /\ contains quoted1 url1 = true
    /\ contains quoted2 url2 = true
    /\ contains (py "seed=" ++ str_of_Z seed1) url1 = true
    /\ contains (py "seed=" ++ str_of_Z seed2) url2 = true.
Proof.
  intros Hapi He1 He2.
  exists (seed_at entropy (draws w + 0)), (seed_at entropy (draws w + 1 + 0)).
  exists (quoted p1), (quoted p2).
  do 2 eexists.
  exists {| posts := posts w; draws := draws w + 2 * 1 |}.
  split.
  { unfold ImageGenerator.generate_images. rewrite Hapi.
    change (eqb_str (py "pollinations") (py "nano_banana")) with false.
    change (eqb_str (py "pollinations") (py "segmind")) with false.
    change (eqb_str (py "pollinations") (py "stability")) with false.
    change (eqb_str (py "pollinations") (py "pollinations")) with true.
    cbv iota. rewrite generate_pollinations_eq by (repeat constructor; auto).
    reflexivity. }
  split; [reflexivity|].
  split; [apply seed_at_range|].
  split; [apply seed_at_range|].
  split; [now apply quote_encodable|].
  split; [now apply quote_encodable|].
  split; [reflexivity|].
  split; [reflexivity|].
  split; [discriminate|].
  split; [discriminate|].
  split; [apply contains_app|].
  split; [apply contains_app|].
  assert (Q : forall q (s : Z),
             contains (py "seed=" ++ str_of_Z s)
               (ImageGenerator.base_url ++ q
                  ++ ImageGenerator.query_suffix s) = true).
  { intros q s. unfold ImageGenerator.query_suffix.
    replace (ImageGenerator.base_url ++ q
               ++ py "?width=1024&height=1024&enhance=true&seed="
               ++ str_of_Z s)
      with ((ImageGenerator.base_url ++ q
               ++ py "?width=1024&height=1024&enhance=true&")
              ++ (py "seed=" ++ str_of_Z s) ++ []).
    - apply contains_app.
    - rewrite app_nil_r, <- !app_assoc. reflexivity. }
  split; apply Q.
Qed.

Section Keyed.
Variable request : pystr -> Request.
Variables api field : pystr.
Variable entry : pystr -> json -> Result dict.

Lemma append_each_acc (e : json -> Result dict) (items : list json)
    (images : list dict) :
  ImageGenerator.append_each e items images
  = (images ++ fst (ImageGenerator.append_each e items []),
     snd (ImageGenerator.append_each e items [])).
Proof.
  revert images.
  assert (G : forall items acc images,
             ImageGenerator.append_each e items (images ++ acc)
             = (images ++ fst (ImageGenerator.append_each e items acc),
                snd (ImageGenerator.append_each e items acc))).
  { clear items. induction items as [|it items IH]; intros acc images; simpl.
    - reflexivity.
    - destruct (e it) as [d|x]; [|reflexivity].
      rewrite <- app_assoc. apply IH. }
  intros images. rewrite <- (app_nil_r images) at 1. apply G.
Qed.

Lemma handle_consume_acc (prompt : pystr) (outcome : Outcome)
    (images : list dict) :
  ImageGenerator.handle prompt api
    (ImageGenerator.consume outcome field (entry prompt) images)
  = images ++ ImageGenerator.handle prompt api
                (ImageGenerator.consume outcome field (entry prompt) []).
Proof.
  unfold ImageGenerator.consume.
  destruct outcome as [e|data]; [reflexivity|].
  destruct (dict_get data field (JArr [])) as [v|e]; [|reflexivity].
  destruct (iterate v) as [items|e]; [|reflexivity].
  rewrite append_each_acc.
  destruct (ImageGenerator.append_each (entry prompt) items []) as [got [e|]];
    cbn [fst snd ImageGenerator.handle].
  - now rewrite app_assoc.
  - reflexivity.
Qed.

(** The images held when the loop starts stay in front. *)
Lemma keyed_loop_acc (prompts : list pystr) (images : list dict) (w : World) :
  keyed_loop http request api field entry prompts images w
  = (images ++ fst (keyed_loop http request api field entry prompts [] w),
     snd (keyed_loop http request api field entry prompts [] w)).
Proof.
  unfold keyed_loop.
  assert (G : forall prompts acc images w,
    for_each prompts
      (fun images prompt =>
         outcome <- ImageGenerator.requests_post http (request prompt) ;;
         ret (ImageGenerator.handle prompt api
                (ImageGenerator.consume outcome field (entry prompt) images)))
      (images ++ acc) w
    = (images ++ fst (for_each prompts
         (fun images prompt =>
            outcome <- ImageGenerator.requests_post http (request prompt) ;;
            ret (ImageGenerator.handle prompt api
                   (ImageGenerator.consume outcome field (entry prompt)
                      images)))
         acc w),
       snd (for_each prompts
         (fun images prompt =>
            outcome <- ImageGenerator.requests_post http (request prompt) ;;
            ret (ImageGenerator.handle prompt api
                   (ImageGenerator.consume outcome field (entry prompt)
                      images)))
         acc w))).
  { clear. induction prompts as [|p ps IH]; intros acc images w.
    - reflexivity.
    - cbn [for_each]. unfold bind at 1 3 5.
      unfold bind, ImageGenerator.requests_post, ret.
      rewrite (handle_consume_acc p _ (images ++ acc)).
      rewrite (handle_consume_acc p _ acc).
      rewrite <- app_assoc. apply IH. }
  rewrite <- (app_nil_r images) at 1. apply G.
Qed.

(** One request per prompt, in order; nothing is drawn. *)
Lemma keyed_loop_world (prompts : list pystr) (images : list dict)
    (w : World) :
  snd (keyed_loop http request api field entry prompts images w)
  = {| posts := posts w ++ map request prompts; draws := draws w |}.
Proof.
  unfold keyed_loop. revert images w.
  induction prompts as [|p ps IH]; intros images w.
  - simpl. rewrite app_nil_r. now destruct w.
  - cbn [for_each]. unfold bind at 1.
    unfold bind, ImageGenerator.requests_post, ret.
    rewrite IH. cbn [posts draws map]. now rewrite <- app_assoc.
Qed.

(** A request that fails leaves one error entry and the loop goes on. *)
Lemma keyed_loop_failure (pre post : list pystr) (p : pystr) (w : World)
    (e : exn) :
  let r1 := keyed_loop http request api field entry pre [] w in
  let r2 := keyed_loop http request api field entry post []
              {| posts := posts (snd r1) ++ [request p];
                 draws := draws (snd r1) |} in
  http (posts (snd r1)) (request p) = Failed e ->
  keyed_loop http request api field entry (pre ++ p :: post) [] w
  = (fst r1 ++ ImageGenerator.error_entry p e api :: fst r2, snd r2).
Proof.
  cbv zeta. intros Hfail.
  unfold keyed_loop at 1. rewrite for_each_app.
  fold (keyed_loop http request api field entry pre [] w).
  destruct (keyed_loop http request api field entry pre [] w) as [imgs1 w1].
  cbn [fst snd] in *.
  cbn [for_each]. unfold bind at 1.
  unfold bind at 1, ImageGenerator.requests_post at 1, ret at 1.
  rewrite Hfail. cbn [ImageGenerator.consume ImageGenerator.handle].
  fold (keyed_loop http request api field entry post
          (imgs1 ++ [ImageGenerator.error_entry p e api])
          {| posts := posts w1 ++ [request p]; draws := draws w1 |}).
  rewrite keyed_loop_acc, <- app_assoc. reflexivity.
Qed.

End Keyed.

(** Under a key-based provider [generate_images] is one of the three
    loops, posting [request_of] for each prompt. *)
Lemma generate_images_keyed (self : ImageGenerator.t) (num_images : Z) :
  key_based (ImageGenerator.api_type self) = true ->
  exists field entry,
    forall prompts w,
      ImageGenerator.generate_images http entropy self prompts num_images w
      = (Ok (fst (keyed_loop http (fun q => request_of self q num_images)
                    (ImageGenerator.api_type self) field entry prompts [] w)),
         snd (keyed_loop http (fun q => request_of self q num_images)
                (ImageGenerator.api_type self) field entry prompts [] w)).
Proof.
  unfold key_based. intros H.
  destruct (eqb_str (ImageGenerator.api_type self) (py "nano_banana")) eqn:E1.
  - exists (py "data"), ImageGenerator.nano_banana_entry. intros prompts w.
    unfold ImageGenerator.generate_images, request_of. rewrite E1.
    apply eqb_str_true in E1. rewrite E1.
    unfold bind, ret.
    change (ImageGenerator._generate_nano_banana http self prompts num_images)
      with (keyed_loop http
              (fun q => ImageGenerator.nano_banana_request self q num_images)
              (py "nano_banana") (py "data") ImageGenerator.nano_banana_entry
              prompts []).
    now destruct (keyed_loop _ _ _ _ _ _ _ _).
  - destruct (eqb_str (ImageGenerator.api_type self) (py "segmind")) eqn:E2.
    + exists (py "images"), ImageGenerator.segmind_entry. intros prompts w.
      unfold ImageGenerator.generate_images, request_of. rewrite E1, E2.
      apply eqb_str_true in E2. rewrite E2.
      unfold bind, ret.
      change (ImageGenerator._generate_segmind http self prompts num_images)
        with (keyed_loop http
                (fun q => ImageGenerator.segmind_request self q num_images)
                (py "segmind") (py "images") ImageGenerator.segmind_entry
                prompts []).
      now destruct (keyed_loop _ _ _ _ _ _ _ _).
    + destruct (eqb_str (ImageGenerator.api_type self) (py "stability"))
        eqn:E3; [|discriminate].
      exists (py "artifacts"), ImageGenerator.stability_entry.
      intros prompts w.
      unfold ImageGenerator.generate_images, request_of. rewrite E1, E2, E3.
      apply eqb_str_true in E3. rewrite E3.
      unfold bind, ret.
      change (ImageGenerator._generate_stability http self prompts num_images)
        with (keyed_loop http
                (fun q => ImageGenerator.stability_request self q num_images)
                (py "stability") (py "artifacts")
                ImageGenerator.stability_entry prompts []).
      now destruct (keyed_loop _ _ _ _ _ _ _ _).
Qed.

(** C2. Under a key-based provider, [generate_images] posts exactly one
    request per prompt, [len(prompts)] in all whatever the count per
    prompt; each request carries its prompt, the count (as [n],
    [num_images] or [samples]) and the provider's fixed parameters:
    size 1024x1024 and quality hd for nano_banana, 1024 by 1024 with 20
    steps and guidance 7.5 for segmind, 1024 by 1024 with 30 steps and
    cfg scale 7 for stability. *)
Theorem generate_images_posts (self : ImageGenerator.t)
    (prompts : list pystr) (num_images : Z) (w : World) :
  key_based (ImageGenerator.api_type self) = true ->
  let w' := snd (ImageGenerator.generate_images http entropy self prompts
                   num_images w) in
  posts w' = posts w ++ map (fun q => request_of self q num_images) prompts
  /\ length (posts w') = (length (posts w) + length prompts)%nat
  /\ (forall q,
         let r := request_of self q num_images in
         (ImageGenerator.api_type self = py "nano_banana" ->
          body_field (py "prompt") r = Some (JStr q)
          /\ body_field (py "n") r = Some (JInt num_images)
          /\ body_field (py "size") r = Some (JStr (py "1024x1024"))
          /\ body_field (py "quality") r = Some (JStr (py "hd")))
         /\ (ImageGenerator.api_type self = py "segmind" ->
             body_field (py "prompt") r = Some (JStr q)
             /\ body_field (py "num_images") r = Some (JInt num_images)
             /\ body_field (py "width") r = Some (JInt 1024)
             /\ body_field (py "height") r = Some (JInt 1024)
             /\ body_field (py "num_inference_steps") r = Some (JInt 20)
             /\ body_field (py "guidance_scale") r = Some (JFloat (15 # 2)))
         /\ (ImageGenerator.api_type self = py "stability" ->
             body_field (py "text_prompts") r
             = Some (JArr [JObj [(py "text", JStr q)]])
             /\ body_field (py "samples") r = Some (JInt num_images)
             /\ body_field (py "width") r = Some (JInt 1024)
             /\ body_field (py "height") r = Some (JInt 1024)
             /\ body_field (py "steps") r = Some (JInt 30)
             /\ body_field (py "cfg_scale") r = Some (JInt 7))).
Proof.
  intros Hk. cbv zeta.
  destruct (generate_images_keyed self num_images Hk) as [field [entry E]].
  rewrite E. cbn [snd]. rewrite keyed_loop_world. cbn [posts].
  split; [reflexivity|]. split.
  - now rewrite length_app, length_map.
  - intros q. unfold request_of.
    split; [|split]; intros Ha; rewrite Ha; repeat split; reflexivity.
Qed.

(** C5. Under a key-based provider [generate_images] never raises.  If
    the request for one prompt fails, the result is what the prompts
    before it gave, one entry for that prompt holding the error
    message, then what the prompts after it give; and that request was
    posted once, like every other. *)
Theorem generate_images_tolerates_failure (self : ImageGenerator.t)
    (pre post : list pystr) (p : pystr) (num_images : Z) (w : World) :
  key_based (ImageGenerator.api_type self) = true ->
  (exists images w',
      ImageGenerator.generate_images http entropy self (pre ++ p :: post)
        num_images w = (Ok images, w'))
  /\ (forall images1 w1 images2 w2 e,
         ImageGenerator.generate_images http entropy self pre num_images w
         = (Ok images1, w1) ->
         http (posts w1) (request_of self p num_images) = Failed e ->
         ImageGenerator.generate_images http entropy self post num_images
           {| posts := posts w1 ++ [request_of self p num_images];
              draws := draws w1 |}
         = (Ok images2, w2) ->
         ImageGenerator.generate_images http entropy self (pre ++ p :: post)
           num_images w
         = (Ok (images1
                ++ [ (py "prompt", JStr p); (py "url", JNull);
                     (py "error", JStr (exn_str e));
                     (py "api", JStr (ImageGenerator.api_type self)) ]
                :: images2),
            w2)
         /\ posts w2
            = posts w ++ map (fun q => request_of self q num_images)
                             (pre ++ p :: post)).
Proof.
  intros Hk.
  destruct (generate_images_keyed self num_images Hk) as [field [entry E]].
  split.
  - rewrite E. eauto.
  - intros images1 w1 images2 w2 e H1 Hfail H2.
    rewrite E in H1, H2 |- *.
    injection H1 as I1 W1. injection H2 as I2 W2.
    pose proof (keyed_loop_failure (fun q => request_of self q num_images)
                  (ImageGenerator.api_type self) field entry pre post p w e)
      as F.
    cbv zeta in F. rewrite W1, I1 in F. cbv beta in F.
    rewrite W2, I2 in F. rewrite (F Hfail). cbn [fst snd].
    split; [reflexivity|].
    rewrite <- W2, keyed_loop_world. cbn [posts].
    rewrite <- W1, keyed_loop_world. cbn [posts].
    rewrite map_app. cbn [map]. rewrite <- !app_assoc. reflexivity.
Qed.

End AdapterFacts.

(** One prompt with two images asked for: one request, not two. *)
Lemma one_post_for_two_images :
  length (posts (snd (ImageGenerator.generate_images two_urls counting
                        banana [py "a cat"] 2 fresh))) = 1%nat
  /\ length (posts (snd (ImageGenerator.generate_images two_urls counting
                           banana [py "a cat"] 2 fresh)))
     <> (length [py "a cat"] * Z.to_nat 2)%nat.
Proof.
  split; vm_compute; [reflexivity | discriminate].
Qed.

Lemma generate_images_posts_witness :
  length (posts (snd (ImageGenerator.generate_images two_urls counting
                        banana [py "a cat"; py "a dog"] 2 fresh)))
  = (length (posts fresh) + length [py "a cat"; py "a dog"])%nat.
Proof.
  exact (proj1 (proj2 (generate_images_posts two_urls counting banana
                         [py "a cat"; py "a dog"] 2 fresh eq_refl))).
Defined.

Lemma generate_images_tolerates_failure_witness :
  exists before after w',
    ImageGenerator.generate_images flaky counting banana
      ([py "a cat"] ++ py "a dog" :: [py "a bird"]) 2 fresh
    = (Ok (before
           ++ [ (py "prompt", JStr (py "a dog")); (py "url", JNull);
                (py "error", JStr (py "500 Server Error"));
                (py "api", JStr (py "nano_banana")) ]
           :: after),
       w')
    /\ length before = 2%nat /\ length after = 2%nat.
Proof.
  pose proof (proj2 (generate_images_tolerates_failure flaky counting banana
                       [py "a cat"] [py "a bird"] (py "a dog") 2 fresh
                       eq_refl)) as T.
  edestruct T as [Heq _].
  - reflexivity.
  - reflexivity.
  - reflexivity.
  - do 3 eexists. split; [exact Heq|]. split; reflexivity.
Defined.

Lemma pollinations_two_prompts_witness :
  exists url1 url2 w',
    ImageGenerator.generate_images offline counting pollinator
      [py "a cat"; py "red car"] 1 fresh
    = (Ok [ [ (py "prompt", JStr (py "a cat")); (py "url", JStr url1);
              (py "api", JStr (py "pollinations")) ];
            [ (py "prompt", JStr (py "red car")); (py "url", JStr url2);
              (py "api", JStr (py "pollinations")) ] ],
       w')
    /\ posts w' = posts fresh
    /\ contains (py "a%20cat") url1 = true
    /\ contains (py "red%20car") url2 = true.
Proof.
  destruct (pollinations_two_prompts offline counting pollinator
              (py "a cat") (py "red car") fresh eq_refl eq_refl eq_refl)
    as (s1 & s2 & q1 & q2 & u1 & u2 & w' & H & Hp & _ & _ & Q1 & Q2
        & _ & _ & _ & _ & C1 & C2 & _).
  injection Q1 as <-. injection Q2 as <-.
  exists u1, u2, w'. repeat split; assumption.
Defined.

Lemma generate_pollinations_count_witness :
  exists images,
    fst (ImageGenerator._generate_pollinations counting
           [py "a cat"; py "red car"] (-3) fresh) = Ok images
    /\ length images = length [py "a cat"; py "red car"].
Proof.
  destruct (generate_pollinations_count counting [py "a cat"; py "red car"]
              (-3) fresh) as (images & E & _ & Hlen & _).
  - repeat constructor.
  - exists images. split; [exact E|]. apply Hlen. lia.
Defined.

(** Two prompts, the second holding the lone surrogate U+D800: the
    seed of the second entry is drawn, then [quote] raises and no entry
    is returned. *)
Lemma pollinations_surrogate_prompt :
  ImageGenerator.generate_images offline counting pollinator
    [py "a cat"; [55296]] 1 fresh
  = (Raise (Exn "UnicodeEncodeError"
              (py "'utf-8' codec can't encode character '\ud800' in position 0: surrogates not allowed")),
     {| posts := []; draws := 2 |})
  /\ ~ (exists images w',
           ImageGenerator.generate_images offline counting pollinator
             [py "a cat"; [55296]] 1 fresh = (Ok images, w')
           /\ length images = 2%nat).
Proof.
  split; [vm_compute; reflexivity|].
  intros (images & w' & H & _). vm_compute in H. discriminate.
Qed.

(** One prompt holding a lone surrogate and a count of zero: the
    function raises instead of returning one entry. *)
Lemma generate_pollinations_surrogate :
  fst (ImageGenerator._generate_pollinations counting [[55296]] 0 fresh)
  = Raise (Exn "UnicodeEncodeError"
             (py "'utf-8' codec can't encode character '\ud800' in position 0: surrogates not allowed"))
  /\ ~ (exists images,
           fst (ImageGenerator._generate_pollinations counting [[55296]] 0
                  fresh) = Ok images
           /\ length images
              = (length [[55296%N]] * Z.to_nat (Z.max 1 0))%nat).
Proof.
  split; [vm_compute; reflexivity|].
  intros (images & H & _). vm_compute in H. discriminate.
Qed.

(* ===================================================================== *)
(** ** More on the text primitives *)
(* ===================================================================== *)

Section StripFacts.

Lemma dropwhile_idem (p : char -> bool) (s : pystr) :
  dropwhile p (dropwhile p s) = dropwhile p s.
Proof.
  induction s as [|c s IH]; simpl; [reflexivity|].
  destruct (p c) eqn:E; [exact IH|]. simpl. now rewrite E.
Qed.

Lemma dropwhile_keeps_last (p : char -> bool) (s : pystr) (c : char) :
  p c = false -> dropwhile p (s ++ [c]) = dropwhile p s ++ [c].
Proof.
  intros Hc. induction s as [|a s IH]; simpl.
  - now rewrite Hc.
  - destruct (p a); [exact IH | reflexivity].
Qed.

Lemma dropwhile_suffix (p : char -> bool) (s : pystr) :
  exists a, s = a ++ dropwhile p s.
Proof.
  induction s as [|c s [a IH]]; simpl.
  - now exists [].
  - destruct (p c).
    + exists (c :: a). simpl. now rewrite <- IH.
    + now exists [].
Qed.

Lemma dropwhile_head (p : char -> bool) (s t : pystr) (c : char) :
  dropwhile p s = c :: t -> p c = false.
Proof.
  induction s as [|a s IH]; simpl; [discriminate|].
  destruct (p a) eqn:E; [exact IH|]. intros [= -> _]. exact E.
Qed.

Lemma rstrip_cons (c : char) (s : pystr) :
  isspace c = false -> rstrip (c :: s) = c :: rstrip s.
Proof.
  intros Hc. unfold rstrip. simpl.
  rewrite dropwhile_keeps_last by assumption.
  now rewrite rev_app_distr.
Qed.

Lemma rstrip_idem (s : pystr) : rstrip (rstrip s) = rstrip s.
Proof. unfold rstrip. now rewrite rev_involutive, dropwhile_idem. Qed.

Lemma rstrip_last (s : pystr) (c : char) :
  isspace c = false -> rstrip (s ++ [c]) = s ++ [c].
Proof.
  intros Hc. unfold rstrip. rewrite rev_app_distr. simpl.
  rewrite Hc. simpl. now rewrite rev_involutive.
Qed.

Lemma rstrip_prefix (s : pystr) : exists b, s = rstrip s ++ b.
Proof.
  unfold rstrip. destruct (dropwhile_suffix isspace (rev s)) as [a Ha].
  exists (rev a). rewrite <- rev_app_distr, <- Ha. now rewrite rev_involutive.
Qed.

(** [s.strip().strip() == s.strip()]. *)
Lemma strip_idem (s : pystr) : strip (strip s) = strip s.
Proof.
  unfold strip, lstrip.
  destruct (dropwhile isspace s) as [|c t] eqn:E; [reflexivity|].
  pose proof (dropwhile_head _ _ _ _ E) as Hc.
  rewrite rstrip_cons by assumption. simpl. rewrite Hc.
  rewrite <- rstrip_cons by assumption. apply rstrip_idem.
Qed.

Lemma strip_infix (s : pystr) : exists a b, s = a ++ strip s ++ b.
Proof.
  unfold strip, lstrip.
  destruct (dropwhile_suffix isspace s) as [a Ha].
  destruct (rstrip_prefix (dropwhile isspace s)) as [b Hb].
  exists a, b. now rewrite <- Hb.
Qed.

(** Text that begins and ends with a visible character is stripped. *)
Lemma strip_wrapped (a z : char) (mid : pystr) :
  isspace a = false -> isspace z = false ->
  strip (a :: mid ++ [z]) = a :: mid ++ [z].
Proof.
  intros Ha Hz. unfold strip, lstrip. simpl. rewrite Ha.
  change (a :: mid ++ [z]) with ((a :: mid) ++ [z]).
  now apply rstrip_last.
Qed.

Lemma split_on_nonempty (sep : char) (s : pystr) : split_on sep s <> [].
Proof.
  induction s as [|c s IH]; simpl; [discriminate|].
  destruct (c =? sep); [discriminate|].
  destruct (split_on sep s); [contradiction | discriminate].
Qed.

(** [(a + sep + b).split(sep) == a.split(sep) + b.split(sep)]. *)
Lemma split_on_app (sep : char) (a b : pystr) :
  split_on sep (a ++ sep :: b) = split_on sep a ++ split_on sep b.
Proof.
  induction a as [|c a IH]; simpl.
  - now rewrite N.eqb_refl.
  - destruct (c =? sep); [now rewrite IH|].
    rewrite IH. pose proof (split_on_nonempty sep a) as Hne.
    destruct (split_on sep a); [contradiction | reflexivity].
Qed.

(** ['\n'.join(s.split('\n')) == s]. *)
Lemma join_split_on (sep : char) (s : pystr) :
  join [sep] (split_on sep s) = s.
Proof.
  induction s as [|c s IH]; [reflexivity|].
  cbn [split_on]. pose proof (split_on_nonempty sep s) as Hne.
  destruct (N.eqb_spec c sep) as [->|Hc].
  - destruct (split_on sep s) as [|l0 ls]; [contradiction|].
    change (join [sep] ([] :: l0 :: ls))
      with (sep :: join [sep] (l0 :: ls)).
    now rewrite IH.
  - destruct (split_on sep s) as [|l0 ls]; [contradiction|].
    rewrite <- IH. destruct ls as [|l1 ls]; reflexivity.
Qed.

Lemma join_infix (sep : pystr) (parts : list pystr) (l : pystr) :
  In l parts -> exists a b, join sep parts = a ++ l ++ b.
Proof.
  induction parts as [|p ps IH]; [intros []|].
  intros [<-|H].
  - destruct ps as [|q ps]; cbn [join].
    + exists [], []. now rewrite app_nil_r.
    + now exists [], (sep ++ join sep (q :: ps)).
  - destruct (IH H) as (a & b & E).
    destruct ps as [|q ps]; [destruct H|].
    cbn [join] in *. exists (p ++ sep ++ a), b.
    rewrite E. now rewrite <- !app_assoc.
Qed.

(** Every line of a text is a piece of it. *)
Lemma split_on_infix (sep : char) (s l : pystr) :
  In l (split_on sep s) -> exists a b, s = a ++ l ++ b.
Proof.
  intros H. destruct (join_infix [sep] _ _ H) as (a & b & E).
  rewrite join_split_on in E. eauto.
Qed.

End StripFacts.

(* ===================================================================== *)
(** ** More on the parsing helpers *)
(* ===================================================================== *)

Lemma firstn_firstn_app {A} (n : nat) (l1 l2 : list A) :
  firstn n (firstn n l1 ++ firstn n l2) = firstn n (l1 ++ l2).
Proof.
  rewrite !firstn_app, !firstn_firstn, length_firstn.
  f_equal; f_equal; lia.
Qed.

Lemma contains_infix (x s a b : pystr) :
  s = a ++ x ++ b -> contains x s = true.
Proof. intros ->. apply contains_app. Qed.

Lemma truthy_nonempty (s : pystr) : truthy s = true -> s <> [].
Proof. destruct s; [discriminate|]. intros _. discriminate. Qed.

(** Tokens of [s.split()] are not empty and hold no whitespace. *)
Lemma split_ws_acc_tokens (s acc w : pystr) :
  Forall (fun c => isspace c = false) acc ->
  In w (split_ws_acc acc s) ->
  w <> [] /\ Forall (fun c => isspace c = false) w.
Proof.
  revert acc. induction s as [|a s IH]; intros acc Hacc Hw; simpl in Hw.
  - destruct acc as [|b acc]; [destruct Hw|].
    destruct Hw as [<-|[]]. split.
    + intros E. apply (f_equal (@rev char)) in E.
      rewrite rev_involutive in E. discriminate.
    + now apply Forall_rev.
  - destruct (isspace a) eqn:Ha.
    + destruct acc as [|b acc]; [now apply (IH [])|].
      destruct Hw as [<-|Hw]; [|now apply (IH [])].
      split.
      * intros E. apply (f_equal (@rev char)) in E.
        rewrite rev_involutive in E. discriminate.
      * now apply Forall_rev.
    + apply (IH (a :: acc)); [now constructor | exact Hw].
Qed.

Section CrewMore.
Variable unicode_isalnum : char -> bool.
Variable unicode_upper : char -> pystr.

(** *** [_parse_image_prompts] *)

Lemma parse_line_cases (prompts : list pystr) (line : pystr) :
  Crew.parse_line prompts line = prompts
  \/ (Crew.parse_line prompts line
      = prompts ++ [strip (lstrip_chars Crew.numbering_chars (strip line))]
      /\ truthy (strip (lstrip_chars Crew.numbering_chars (strip line)))
         = true
      /\ (20 < length (strip line))%nat
      /\ startswith [HASH] (strip line) = false).
Proof.
  unfold Crew.parse_line. cbv zeta.
  destruct (truthy (strip line)); [|now left].
  destruct (startswith [HASH] (strip line)); [now left|].
  destruct (Nat.ltb_spec 20 (length (strip line))); [|now left].
  cbn [negb andb].
  destruct (truthy (strip (lstrip_chars Crew.numbering_chars (strip line))));
    [right | now left].
  repeat split; auto.
Qed.

Lemma parsed_from (lines acc : list pystr) (p : pystr) :
  In p (fold_left Crew.parse_line lines acc) ->
  In p acc
  \/ exists line,
       In line lines
       /\ p = strip (lstrip_chars Crew.numbering_chars (strip line))
       /\ p <> [].
Proof.
  revert acc. induction lines as [|l lines IH]; intros acc; simpl.
  - now left.
  - intros H. destruct (IH _ H) as [Hacc | (line & Hin & E)].
    + destruct (parse_line_cases acc l) as [E | (E & Ht & _)];
        rewrite E in Hacc.
      * now left.
      * apply in_app_or in Hacc. destruct Hacc as [Hacc|[<-|[]]].
        -- now left.
        -- right. exists l. repeat split; auto.
           now apply truthy_nonempty.
    + right. exists line. split; [now right | exact E].
Qed.

(** X1. Every prompt handed to the image generator is non-empty and has no
    surrounding whitespace, whatever the model wrote and whatever the
    topic is. *)
Theorem parse_image_prompts_clean (image_prompts_result topic : pystr) :
  Forall (fun p => p <> [] /\ strip p = p)
         (Crew._parse_image_prompts image_prompts_result topic).
Proof.
  assert (Hp : Forall (fun p => p <> [] /\ strip p = p)
                      (Crew.parsed_prompts image_prompts_result)).
  { apply Forall_forall. intros p Hin. unfold Crew.parsed_prompts in Hin.
    apply parsed_from in Hin. destruct Hin as [[]|(line & _ & -> & Hne)].
    split; [exact Hne | apply strip_idem]. }
  assert (Hf : Forall (fun p => p <> [] /\ strip p = p)
                      (Crew.fallback_prompts topic)).
  { unfold Crew.fallback_prompts.
    repeat constructor; try discriminate.
    - replace (py "Professional Instagram post about " ++ topic
                 ++ py ", modern design, high quality")
        with (80 :: (py "rofessional Instagram post about " ++ topic
                       ++ py ", modern design, high qualit") ++ [121])
        by (rewrite <- !app_assoc; reflexivity).
      now apply strip_wrapped.
    - replace (py "Engaging social media visual for " ++ topic
                 ++ py ", vibrant colors, square format")
        with (69 :: (py "ngaging social media visual for " ++ topic
                       ++ py ", vibrant colors, square forma") ++ [116])
        by (rewrite <- !app_assoc; reflexivity).
      now apply strip_wrapped.
    - replace (py "Creative illustration representing " ++ topic
                 ++ py ", clean background, Instagram ready")
        with (67 :: (py "reative illustration representing " ++ topic
                       ++ py ", clean background, Instagram read") ++ [121])
        by (rewrite <- !app_assoc; reflexivity).
      now apply strip_wrapped. }
  unfold Crew._parse_image_prompts. cbv zeta.
  apply Forall_forall. intros p Hin. apply firstn_incl in Hin.
  destruct (length (Crew.parsed_prompts image_prompts_result) <? 3)%nat.
  - apply in_app_or in Hin. destruct Hin as [Hin|Hin].
    + exact (proj1 (Forall_forall _ _) Hp p Hin).
    + exact (proj1 (Forall_forall _ _) Hf p Hin).
  - exact (proj1 (Forall_forall _ _) Hp p Hin).
Qed.

(** X2. A prompt is either one of the topic's fallbacks or occurs, as it
    is, in the model's text: nothing else is ever made up. *)
Theorem parse_image_prompts_verbatim (image_prompts_result topic p : pystr) :
  In p (Crew._parse_image_prompts image_prompts_result topic) ->
  contains p image_prompts_result = true
  \/ In p (Crew.fallback_prompts topic).
Proof.
  assert (Hp : forall q, In q (Crew.parsed_prompts image_prompts_result) ->
                         contains q image_prompts_result = true).
  { intros q Hq. unfold Crew.parsed_prompts in Hq.
    apply parsed_from in Hq. destruct Hq as [[]|(line & Hin & -> & _)].
    destruct (split_on_infix _ _ _ Hin) as (a & b & Et).
    destruct (strip_infix line) as (a1 & b1 & El).
    destruct (dropwhile_suffix
                (fun c => existsb (N.eqb c) Crew.numbering_chars)
                (strip line)) as [a2 E2].
    fold (lstrip_chars Crew.numbering_chars (strip line)) in E2.
    destruct (strip_infix (lstrip_chars Crew.numbering_chars (strip line)))
      as (a3 & b3 & E3).
    apply (contains_infix _ _ (a ++ a1 ++ a2 ++ a3) (b3 ++ b1 ++ b)).
    rewrite Et. rewrite El at 1. rewrite E2 at 1. rewrite E3 at 1.
    now rewrite <- !app_assoc. }
  unfold Crew._parse_image_prompts. cbv zeta. intros Hin.
  apply firstn_incl in Hin.
  destruct (length (Crew.parsed_prompts image_prompts_result) <? 3)%nat.
  - apply in_app_or in Hin. destruct Hin as [Hin|Hin]; auto.
  - auto.
Qed.

(** X3. When every line of the model's text is blank, starts with '#' or
    has at most 20 characters once stripped, the three prompts are the
    topic's fallbacks. *)
Theorem parse_image_prompts_fallback (image_prompts_result topic : pystr) :
  Forall (fun line => startswith [HASH] (strip line) = true
                      \/ (length (strip line) <= 20)%nat)
         (split_on NL image_prompts_result) ->
  Crew._parse_image_prompts image_prompts_result topic
  = Crew.fallback_prompts topic.
Proof.
  intros H.
  assert (E : Crew.parsed_prompts image_prompts_result = []).
  { unfold Crew.parsed_prompts. cbv zeta.
    induction H as [|l lines Hl _ IH]; [reflexivity|].
    simpl. destruct (parse_line_cases [] l) as [-> | (_ & _ & Hlen & Hs)];
      [exact IH|].
    destruct Hl as [Hl|Hl]; [congruence | lia]. }
  unfold Crew._parse_image_prompts. cbv zeta. rewrite E. reflexivity.
Qed.

End CrewMore.

Lemma parse_image_prompts_fallback_witness :
  Crew._parse_image_prompts
    (text [py "Here you go:"; py ""; py "# Three prompts for the post";
           py "1. A cat"])
    (py "AI")
  = Crew.fallback_prompts (py "AI").
Proof.
  apply parse_image_prompts_fallback.
  change (split_on NL
            (text [py "Here you go:"; py ""; py "# Three prompts for the post";
                   py "1. A cat"]))
    with [py "Here you go:"; py ""; py "# Three prompts for the post";
          py "1. A cat"].
  repeat first [apply Forall_nil | apply Forall_cons];
    first [left; reflexivity | right; vm_compute; lia].
Defined.

Lemma parse_image_prompts_verbatim_witness :
  contains (py "A cat on a skateboard at sunset")
    (text [py "1. A cat on a skateboard at sunset"]) = true
  \/ In (py "A cat on a skateboard at sunset")
        (Crew.fallback_prompts (py "AI")).
Proof.
  apply (parse_image_prompts_verbatim
           (text [py "1. A cat on a skateboard at sunset"]) (py "AI")).
  vm_compute. left. reflexivity.
Defined.

Section CrewMore2.
Variable unicode_isalnum : char -> bool.
Variable unicode_upper : char -> pystr.

(** *** [_extract_hashtags] *)

Lemma extract_hashtags_all (content : pystr) :
  Crew._extract_hashtags content
  = firstn 30 (filter Crew.is_hashtag
                 (flat_map split_ws (split_on NL content))).
Proof.
  unfold Crew._extract_hashtags. cbv zeta. now rewrite hashtags_collected.
Qed.

(** X4. No hashtag holds a whitespace character: each is one token. *)
Theorem extract_hashtags_no_whitespace (content : pystr) :
  Forall (fun tag => Forall (fun c => isspace c = false) tag)
         (Crew._extract_hashtags content).
Proof.
  rewrite extract_hashtags_all. apply Forall_forall. intros tag Hin.
  apply firstn_incl, filter_In in Hin. destruct Hin as [Hin _].
  apply in_flat_map in Hin. destruct Hin as (line & _ & Hw).
  now apply (split_ws_acc_tokens line [] tag).
Qed.

(** Every hashtag occurs, as it is, in the text. *)
Theorem extract_hashtags_verbatim (content tag : pystr) :
  In tag (Crew._extract_hashtags content) -> contains tag content = true.
Proof.
  rewrite extract_hashtags_all. intros Hin.
  apply firstn_incl, filter_In in Hin. destruct Hin as [Hin _].
  apply in_flat_map in Hin. destruct Hin as (line & Hl & Hw).
  destruct (split_on_infix _ _ _ Hl) as (a & b & ->).
  assert (G : forall s acc w,
             In w (split_ws_acc acc s) ->
             exists x y, rev acc ++ s = x ++ w ++ y).
  { clear. induction s as [|c s IH]; intros acc w Hw; simpl in Hw.
    - destruct acc as [|d acc]; [destruct Hw|].
      destruct Hw as [<-|[]]. exists [], []. now rewrite !app_nil_r.
    - destruct (isspace c).
      + destruct acc as [|d acc].
        * destruct (IH [] w Hw) as (x & y & E). simpl in E.
          exists (c :: x), y. simpl. now rewrite E.
        * destruct Hw as [<-|Hw].
          -- now exists [], (c :: s).
          -- destruct (IH [] w Hw) as (x & y & E). simpl in E.
             exists (rev (d :: acc) ++ c :: x), y.
             rewrite E. now rewrite <- !app_assoc.
      + destruct (IH (c :: acc) w Hw) as (x & y & E).
        exists x, y. rewrite <- E. simpl. now rewrite <- app_assoc. }
  destruct (G line [] tag Hw) as (x & y & E). simpl in E. rewrite E.
  apply (contains_infix _ _ (a ++ x) (y ++ b)). now rewrite <- !app_assoc.
Qed.

(** The hashtags of two texts put on consecutive lines are those of the
    first followed by those of the second, cut after the thirtieth. *)
Theorem extract_hashtags_concat (a b : pystr) :
  Crew._extract_hashtags (a ++ NL :: b)
  = firstn 30 (Crew._extract_hashtags a ++ Crew._extract_hashtags b).
Proof.
  rewrite !extract_hashtags_all, split_on_app, flat_map_app, filter_app.
  now rewrite firstn_firstn_app.
Qed.

(** *** [_extract_short_caption] *)

Lemma first_nonblank_found (ls : list pystr) (caption : pystr) :
  Crew.first_nonblank ls = Some caption ->
  caption <> [] /\ exists l, In l ls /\ caption = strip l.
Proof.
  induction ls as [|l ls IH]; simpl; [discriminate|].
  destruct (truthy (strip l)) eqn:Ht.
  - intros [= <-]. split; [now apply truthy_nonempty|].
    exists l. split; [now left | reflexivity].
  - intros H. destruct (IH H) as (Hne & l' & Hin & E).
    split; [exact Hne|]. exists l'. split; [now right | exact E].
Qed.

(** X5. The short caption is never empty and never has surrounding
    whitespace: it is the placeholder or a stripped non-blank line of
    the text. *)
Theorem extract_short_caption_nonempty (content : pystr) :
  exists caption,
    Crew._extract_short_caption unicode_upper content = Ok caption
    /\ caption <> [] /\ strip caption = caption
    /\ (caption = Crew.short_placeholder
        \/ exists l, In l (split_on NL content) /\ caption = strip l).
Proof.
  unfold Crew._extract_short_caption. cbv zeta.
  assert (G : forall lines rest, incl rest lines ->
              exists caption,
                Crew.short_loop unicode_upper lines rest = Ok caption
                /\ caption <> [] /\ strip caption = caption
                /\ (caption = Crew.short_placeholder
                    \/ exists l, In l lines /\ caption = strip l)).
  { intros lines rest.
    induction rest as [|x rest IH]; intros Hin; cbn [Crew.short_loop].
    - exists Crew.short_placeholder. repeat split; [discriminate | now left].
    - assert (Hrest : incl rest lines)
        by (intros y Hy; apply Hin; now right).
      destruct (Crew.is_short_marker unicode_upper x); [|now apply IH].
      destruct (index_found lines x) as [i ->]; [apply Hin; now left|].
      destruct (Crew.first_nonblank (skipn (S i) lines)) as [c|] eqn:F;
        [|now apply IH].
      apply first_nonblank_found in F. destruct F as (Hne & l & Hl & ->).
      exists (strip l). repeat split; auto using strip_idem.
      right. exists l. split; [|reflexivity].
      rewrite <- (firstn_skipn (S i) lines). apply in_or_app. now right. }
  apply G, incl_refl.
Qed.

(** *** [_extract_long_caption] *)

Lemma long_caption_at_marker (content : pystr) (pre post : list pystr)
    (m : pystr) :
  split_on NL content = pre ++ m :: post ->
  Forall (fun x => Crew.is_long_marker unicode_upper x = false) pre ->
  Crew.is_long_marker unicode_upper m = true ->
  Crew._extract_long_caption unicode_upper content
  = Ok (join [NL] (caption_block post)).
Proof.
  intros E Hpre Hm.
  unfold Crew._extract_long_caption. cbv zeta. rewrite E.
  rewrite long_loop_skip by assumption.
  cbn [Crew.long_loop]. rewrite Hm.
  rewrite (index_first (Crew.is_long_marker unicode_upper)) by assumption.
  now rewrite skipn_past, collect_caption_block.
Qed.

Lemma take_until_incl (p : pystr -> bool) (ls : list pystr) (l : pystr) :
  In l (take_until p ls) -> In l ls.
Proof.
  induction ls as [|x ls IH]; simpl; [tauto|].
  destruct (p x); simpl; [tauto|]. intros [->|H]; auto.
Qed.

Lemma drop_until_incl (p : pystr -> bool) (ls : list pystr) (l : pystr) :
  In l (drop_until p ls) -> In l ls.
Proof.
  induction ls as [|x ls IH]; simpl; [tauto|].
  destruct (p x); simpl; auto.
Qed.

(** X7. A marker with no caption line after it (only blank lines and lines
    starting with '#', or nothing at all) gives the empty string, not
    the text. *)
Theorem extract_long_caption_empty (content : pystr) (pre post : list pystr)
    (m : pystr) :
  split_on NL content = pre ++ m :: post ->
  Forall (fun x => Crew.is_long_marker unicode_upper x = false) pre ->
  Crew.is_long_marker unicode_upper m = true ->
  Forall (fun l => is_blank l = true \/ startswith [HASH] (strip l) = true)
         post ->
  Crew._extract_long_caption unicode_upper content = Ok [].
Proof.
  intros E Hpre Hm Hpost.
  rewrite (long_caption_at_marker content pre post m) by assumption.
  replace (caption_block post) with (@nil pystr); [reflexivity|].
  symmetry. unfold caption_block. apply filter_none. intros l Hl.
  apply take_until_incl, drop_until_incl, in_map_iff in Hl.
  destruct Hl as (l0 & <- & Hin).
  apply (proj1 (Forall_forall _ _) Hpost) in Hin.
  unfold is_caption_line, is_blank in *.
  destruct Hin as [Hb|Hs].
  - apply negb_true_iff in Hb. now rewrite Hb.
  - rewrite Hs. apply andb_false_r.
Qed.

(** X8. With a marker, the long caption is made of lines that follow the
    first marker line, each stripped, none of them blank and none
    starting with '#'. *)
Theorem extract_long_caption_lines (content : pystr) (pre post : list pystr)
    (m : pystr) :
  split_on NL content = pre ++ m :: post ->
  Forall (fun x => Crew.is_long_marker unicode_upper x = false) pre ->
  Crew.is_long_marker unicode_upper m = true ->
  exists caption_lines,
    Crew._extract_long_caption unicode_upper content
    = Ok (join [NL] caption_lines)
    /\ Forall (fun l => l <> [] /\ startswith [HASH] l = false
                        /\ strip l = l
                        /\ exists l0, In l0 post /\ l = strip l0)
              caption_lines.
Proof.
  intros E Hpre Hm. exists (caption_block post).
  split; [now apply (long_caption_at_marker content pre post m)|].
  apply Forall_forall. intros l Hl. unfold caption_block in Hl.
  apply filter_In in Hl. destruct Hl as [Hl Hc].
  apply take_until_incl, drop_until_incl, in_map_iff in Hl.
  destruct Hl as (l0 & <- & Hin).
  unfold is_caption_line in Hc. apply andb_prop in Hc.
  destruct Hc as [Ht Hs]. apply negb_true_iff in Hs.
  repeat split; auto using truthy_nonempty, strip_idem.
  now exists l0.
Qed.

End CrewMore2.

Section SafeTopic.
Variable unicode_isalnum : char -> bool.

(** *** [_save_result]: the file name *)

Lemma isspace_ranges (c : char) :
  isspace c = true ->
  9 <= c <= 13 \/ 28 <= c <= 32 \/ c = 133 \/ 160 <= c.
Proof.
  unfold isspace.
  rewrite !orb_true_iff, !andb_true_iff, !N.leb_le, !N.eqb_eq. lia.
Qed.

Lemma ascii_alnum_ranges (c : char) :
  c < 128 -> isalnum unicode_isalnum c = true ->
  48 <= c <= 57 \/ 65 <= c <= 90 \/ 97 <= c <= 122.
Proof.
  intros Hc. unfold isalnum. rewrite (proj2 (N.ltb_lt c 128) Hc).
  unfold is_ascii_digit, is_ascii_upper, is_ascii_lower.
  rewrite !orb_true_iff, !andb_true_iff, !N.leb_le. lia.
Qed.

Lemma safe_topic_chars (topic : pystr) (c : char) :
  In c (Crew.safe_topic unicode_isalnum topic) ->
  (isalnum unicode_isalnum c = true \/ c = HYPHEN \/ c = UNDERSCORE)
  /\ c <> SPACE.
Proof.
  unfold Crew.safe_topic, replace_char. intros Hc.
  apply in_map_iff in Hc. destruct Hc as [d [Hd Hin]].
  apply rstrip_incl, filter_In in Hin. destruct Hin as [_ Hk].
  unfold Crew.keeps in Hk. cbn [existsb] in Hk.
  destruct (N.eq_dec d SPACE) as [E|Hns].
  - rewrite E in Hd. change (UNDERSCORE = c) in Hd. subst c.
    split; [now right; right | discriminate].
  - rewrite (proj2 (N.eqb_neq d SPACE) Hns) in Hd, Hk. subst c.
    split; [|exact Hns].
    destruct (isalnum unicode_isalnum d); [now left|].
    destruct (N.eqb_spec d HYPHEN); [now right; left|].
    destruct (N.eqb_spec d UNDERSCORE); [now right; right|].
    discriminate.
Qed.

(** X9. The sanitised topic holds no ASCII character other than letters,
    digits, '-' and '_': in particular no '/', no backslash, no '.',
    no ':' and no NUL, so the file name cannot leave the results
    directory. *)
Theorem safe_topic_path_safe (topic : pystr) :
  (forall c, In c (Crew.safe_topic unicode_isalnum topic) -> c < 128 ->
             48 <= c <= 57 \/ 65 <= c <= 90 \/ 97 <= c <= 122
             \/ c = HYPHEN \/ c = UNDERSCORE)
  /\ ~ In 47 (Crew.safe_topic unicode_isalnum topic)
  /\ ~ In 92 (Crew.safe_topic unicode_isalnum topic)
  /\ ~ In 46 (Crew.safe_topic unicode_isalnum topic)
  /\ ~ In 58 (Crew.safe_topic unicode_isalnum topic)
  /\ ~ In 0 (Crew.safe_topic unicode_isalnum topic).
Proof.
  assert (G : forall c, In c (Crew.safe_topic unicode_isalnum topic) ->
                        c < 128 ->
                        48 <= c <= 57 \/ 65 <= c <= 90 \/ 97 <= c <= 122
                        \/ c = HYPHEN \/ c = UNDERSCORE).
  { intros c Hin Hc. apply safe_topic_chars in Hin.
    destruct Hin as [[Ha|[->| ->]] _]; auto.
    apply (ascii_alnum_ranges c Hc) in Ha. tauto. }
  split; [exact G|].
  repeat split; intros Hin; apply G in Hin;
    unfold HYPHEN, UNDERSCORE in *; lia.
Qed.

Lemma rstrip_visible (s : pystr) :
  Forall (fun c => isspace c = false) s -> rstrip s = s.
Proof.
  intros H. induction H as [|c s Hc _ IH]; [reflexivity|].
  now rewrite rstrip_cons, IH.
Qed.

(** X10. Sanitising twice changes nothing more, provided no alphanumeric
    character counts as whitespace (as in Unicode). *)
Theorem safe_topic_idempotent (topic : pystr) :
  (forall c, unicode_isalnum c = true -> isspace c = false) ->
  Crew.safe_topic unicode_isalnum (Crew.safe_topic unicode_isalnum topic)
  = Crew.safe_topic unicode_isalnum topic.
Proof.
  intros Hu.
  pose proof (safe_topic_chars topic) as Hc.
  generalize dependent (Crew.safe_topic unicode_isalnum topic).
  intros s Hc. unfold Crew.safe_topic.
  assert (Hk : filter (Crew.keeps unicode_isalnum) s = s).
  { apply forallb_filter_id. apply forallb_forall. intros c Hin.
    destruct (Hc c Hin) as [[Ha|[->| ->]] _].
    - unfold Crew.keeps. now rewrite Ha.
    - unfold Crew.keeps. rewrite orb_true_iff. now right.
    - unfold Crew.keeps. rewrite orb_true_iff. now right. }
  assert (Hv : Forall (fun c => isspace c = false) s).
  { apply Forall_forall. intros c Hin.
    destruct (Hc c Hin) as [[Ha|[->| ->]] _]; [|reflexivity|reflexivity].
    destruct (isspace c) eqn:Hs; [|reflexivity].
    destruct (N.lt_ge_cases c 128) as [Hlt|Hge].
    - apply isspace_ranges in Hs.
      apply (ascii_alnum_ranges c Hlt) in Ha. lia.
    - unfold isalnum in Ha. rewrite (proj2 (N.ltb_ge c 128) Hge) in Ha.
      rewrite (Hu c Ha) in Hs. discriminate. }
  cbv zeta. rewrite Hk, (rstrip_visible s Hv).
  unfold replace_char. rewrite <- (map_id s) at 2.
  apply map_ext_in. intros c Hin.
  destruct (Hc c Hin) as [_ Hns].
  now rewrite (proj2 (N.eqb_neq c SPACE) Hns).
Qed.

End SafeTopic.

Lemma safe_topic_idempotent_witness :
  Crew.safe_topic plain_isalnum
    (Crew.safe_topic plain_isalnum (py "AI: The Future?!  "))
  = Crew.safe_topic plain_isalnum (py "AI: The Future?!  ").
Proof.
  apply safe_topic_idempotent. intros c H. discriminate.
Defined.

Lemma safe_topic_path_safe_witness :
  48 <= 65 <= 57 \/ 65 <= 65 <= 90 \/ 97 <= 65 <= 122
  \/ 65 = HYPHEN \/ 65 = UNDERSCORE.
Proof.
  apply (proj1 (safe_topic_path_safe plain_isalnum (py "../A/b")) 65).
  - vm_compute. tauto.
  - reflexivity.
Defined.

Lemma extract_hashtags_verbatim_witness :
  contains (py "#ai") (text [py "Great post #ai #ml"; py "bye"]) = true.
Proof.
  apply extract_hashtags_verbatim. vm_compute. tauto.
Defined.

Lemma short_caption_marker_without_text_witness :
  Crew._extract_short_caption plain_upper
    (text [py "Intro"; py "SHORT CAPTION:"; py ""; py "   "])
  = Ok Crew.short_placeholder.
Proof.
  apply (short_caption_marker_without_text plain_upper
           (text [py "Intro"; py "SHORT CAPTION:"; py ""; py "   "])
           [py "Intro"] [py ""; py "   "] (py "SHORT CAPTION:")).
  - reflexivity.
  - repeat constructor.
  - reflexivity.
  - repeat constructor.
Defined.

Lemma extract_long_caption_empty_witness :
  Crew._extract_long_caption plain_upper
    (text [py "Intro"; py "LONG CAPTION:"; py ""; py "#ai #ml"])
  = Ok [].
Proof.
  apply (extract_long_caption_empty plain_upper
           (text [py "Intro"; py "LONG CAPTION:"; py ""; py "#ai #ml"])
           [py "Intro"] [py ""; py "#ai #ml"] (py "LONG CAPTION:")).
  - reflexivity.
  - repeat constructor.
  - reflexivity.
  - repeat first [apply Forall_nil | apply Forall_cons];
      first [left; reflexivity | right; reflexivity].
Defined.

Lemma extract_long_caption_lines_witness :
  exists caption_lines,
    Crew._extract_long_caption plain_upper
      (text [py "LONG:"; py " one "; py "#tag"; py "two"])
    = Ok (join [NL] caption_lines)
    /\ Forall (fun l => l <> [] /\ startswith [HASH] l = false
                        /\ strip l = l
                        /\ exists l0,
                             In l0 [py " one "; py "#tag"; py "two"]
                             /\ l = strip l0)
              caption_lines.
Proof.
  apply (extract_long_caption_lines plain_upper
           (text [py "LONG:"; py " one "; py "#tag"; py "two"])
           [] [py " one "; py "#tag"; py "two"] (py "LONG:")).
  - reflexivity.
  - constructor.
  - reflexivity.
Defined.

(* ===================================================================== *)
(** ** More on the provider adapter *)
(* ===================================================================== *)

(** *** The pollinations URLs *)

Lemma always_safe_ranges (b : N) :
  Urllib.always_safe b = true ->
  48 <= b <= 57 \/ 65 <= b <= 90 \/ 97 <= b <= 122
  \/ b = 95 \/ b = 46 \/ b = 45 \/ b = 126 \/ b = 47.
Proof.
  unfold Urllib.always_safe, is_ascii_digit, is_ascii_upper, is_ascii_lower.
  cbn [py existsb N_of_ascii].
  rewrite !orb_true_iff, !andb_true_iff, !N.leb_le, !N.eqb_eq.
  change (N_of_ascii "_") with 95. change (N_of_ascii ".") with 46.
  change (N_of_ascii "-") with 45. change (N_of_ascii "~") with 126.
  change (N_of_ascii "/") with 47.
  intuition (auto; try discriminate).
Qed.

Lemma hex_digit_ranges (d : N) :
  48 <= Urllib.hex_digit d <= 57 \/ 65 <= Urllib.hex_digit d.
Proof.
  unfold Urllib.hex_digit. destruct (N.ltb_spec d 10); lia.
Qed.

(** A quoted prompt holds none of the characters that structure a URL
    query, nor a space or a newline. *)
Lemma quote_chars (s quoted_s : pystr) (c : char) :
  Urllib.quote s = Ok quoted_s -> In c quoted_s ->
  c <> 63 /\ c <> 38 /\ c <> 61 /\ c <> 35 /\ c <> 32 /\ c <> 10.
Proof.
  unfold Urllib.quote. destruct (Urllib.encode s) as [bytes|e];
    [|discriminate].
  intros [= <-] H.
  apply in_flat_map in H. destruct H as (b & _ & H).
  unfold Urllib.quote_byte in H.
  destruct (Urllib.always_safe b) eqn:Hs.
  - destruct H as [<-|[]]. apply always_safe_ranges in Hs. lia.
  - destruct H as [<-|[<-|[<-|[]]]].
    + lia.
    + pose proof (hex_digit_ranges (N.shiftr b 4)). lia.
    + pose proof (hex_digit_ranges (N.land b 15)). lia.
Qed.

Lemma dropwhile_app_all (p : char -> bool) (a b : pystr) :
  Forall (fun c => p c = true) a -> dropwhile p (a ++ b) = dropwhile p b.
Proof.
  intros H. induction H as [|c a Hc _ IH]; [reflexivity|].
  simpl. now rewrite Hc.
Qed.

(** X11. Whatever the prompt, the URL of a pollinations entry has one
    query string, the fixed one with the seed: a URL is built for every
    prompt without lone surrogate, and what follows the first '?' of a
    URL that was built is
    [width=1024&height=1024&enhance=true&seed=<seed>]. *)
Theorem pollinations_url_query (prompt : pystr) (seed : Z) :
  (encodable prompt = true ->
   exists url, ImageGenerator.pollinations_url prompt seed = Ok url)
  /\ forall url,
       ImageGenerator.pollinations_url prompt seed = Ok url ->
       lookup (py "url") (ImageGenerator.pollinations_entry prompt url)
       = Some (JStr url)
       /\ dropwhile (fun c => negb (c =? 63)) url
          = py "?width=1024&height=1024&enhance=true&seed="
            ++ str_of_Z seed.
Proof.
  split.
  - intros He. rewrite pollinations_url_encodable by assumption. eauto.
  - intros url. unfold ImageGenerator.pollinations_url.
    destruct (Urllib.quote prompt) as [q|e] eqn:Q; [|discriminate].
    intros E.
    assert (Hu : url = ImageGenerator.base_url ++ q
                       ++ ImageGenerator.query_suffix seed) by congruence.
    clear E. subst url. split; [reflexivity|].
    rewrite dropwhile_app_all.
    + rewrite dropwhile_app_all; [reflexivity|].
      apply Forall_forall. intros c Hc. apply (quote_chars _ _ _ Q) in Hc.
      apply negb_true_iff, N.eqb_neq. tauto.
    + unfold ImageGenerator.base_url. repeat constructor.
Qed.

Lemma pollinations_url_query_witness :
  dropwhile (fun c => negb (c =? 63))
    (py "https://image.pollinations.ai/prompt/why%3F%20a%26b?width=1024&height=1024&enhance=true&seed=7")
  = py "?width=1024&height=1024&enhance=true&seed=" ++ str_of_Z 7.
Proof.
  apply (proj2 (pollinations_url_query (py "why? a&b") 7)). reflexivity.
Defined.

Section AdapterMore.
Variable http : list Request -> Request -> Outcome.
Variable entropy : nat -> N.

Lemma pollinations_images_entries (k : nat) (prompts : list pystr) (d : nat) :
  Forall (fun p => encodable p = true) prompts ->
  Forall (fun img => exists p seed url,
              In p prompts /\ (1 <= seed <= 10000000)%Z
              /\ ImageGenerator.pollinations_url p seed = Ok url
              /\ img = ImageGenerator.pollinations_entry p url)
         (pollinations_images entropy k prompts d).
Proof.
  intros H. revert d.
  induction H as [|p ps Hp _ IH]; intros d; simpl; [constructor|].
  apply Forall_app. split.
  - apply Forall_forall. intros img Hin. apply in_map_iff in Hin.
    destruct Hin as (i & <- & _).
    exists p, (seed_at entropy (d + i)). eexists.
    split; [now left|]. split; [apply seed_at_range|].
    split; [now apply pollinations_url_encodable | reflexivity].
  - eapply Forall_impl; [|apply IH].
    intros img (q & seed & url & Hq & Hs & E). exists q, seed, url.
    split; [now right | auto].
Qed.

Lemma for_each_r_app {A B} (l1 l2 : list A) (body : B -> A -> M (Result B))
    (acc : B) (w : World) :
  for_each_r (l1 ++ l2) body acc w
  = match for_each_r l1 body acc w with
    | (Ok acc', w') => for_each_r l2 body acc' w'
    | (Raise e, w') => (Raise e, w')
    end.
Proof.
  revert acc w. induction l1 as [|x l1 IH]; intros acc w; simpl.
  - reflexivity.
  - destruct (body acc x w) as [[acc'|e] w']; [apply IH | reflexivity].
Qed.

(** A list of prompts is encodable throughout, or has a first prompt
    that is not. *)
Lemma first_unencodable (prompts : list pystr) :
  Forall (fun p => encodable p = true) prompts
  \/ exists pre bad post,
       prompts = pre ++ bad :: post
       /\ Forall (fun p => encodable p = true) pre
       /\ encodable bad = false.
Proof.
  induction prompts as [|p ps IH]; [left; constructor|].
  destruct (encodable p) eqn:Hp.
  - destruct IH as [IH|(pre & bad & post & -> & Hpre & Hbad)].
    + left. now constructor.
    + right. exists (p :: pre), bad, post.
      split; [reflexivity|]. split; [now constructor | exact Hbad].
  - right. exists [], p, ps. auto.
Qed.

(** At the first prompt that cannot be encoded the function raises,
    having drawn the seeds of the prompts before it and one more. *)
Lemma generate_pollinations_raises (pre post : list pystr) (bad : pystr)
    (num_images : Z) (w : World) :
  Forall (fun p => encodable p = true) pre ->
  encodable bad = false ->
  exists msg,
    ImageGenerator._generate_pollinations entropy (pre ++ bad :: post)
      num_images w
    = (Raise (Exn "UnicodeEncodeError" msg),
       {| posts := posts w;
          draws := draws w + length pre * Z.to_nat (Z.max 1 num_images)
                   + 1 |}).
Proof.
  intros Hpre Hbad.
  destruct (quote_unencodable bad Hbad) as [msg Hq]. exists msg.
  unfold ImageGenerator._generate_pollinations.
  rewrite for_each_r_app, generate_pollinations_from by assumption.
  cbn [for_each_r].
  assert (Hk : (0 < Z.to_nat (Z.max 1 num_images))%nat) by lia.
  destruct (Z.to_nat (Z.max 1 num_images)) as [|k]; [lia|].
  cbn [seq for_each_r].
  unfold bind at 1, ImageGenerator.random_randint at 1, ret at 1.
  unfold ImageGenerator.pollinations_url. rewrite Hq.
  cbn [posts draws]. do 2 f_equal. lia.
Qed.

(** X12. For every prompt list and count, [_generate_pollinations]
    posts nothing.  It returns when no prompt holds a lone surrogate;
    when it returns, it has drawn one random number per entry and
    every entry is the pollinations entry of one of the prompts, with a
    seed between 1 and 10,000,000; when it raises, the exception is the
    [UnicodeEncodeError] of [quote] and at least one number was
    drawn. *)
Theorem generate_pollinations_entries (prompts : list pystr) (num_images : Z)
    (w : World) :
  let r := ImageGenerator._generate_pollinations entropy prompts num_images w
  in
  posts (snd r) = posts w
  /\ (Forall (fun p => encodable p = true) prompts ->
      exists images, fst r = Ok images)
  /\ (forall images,
         fst r = Ok images ->
         draws (snd r) = (draws w + length images)%nat
         /\ Forall (fun img => exists p seed url,
                       In p prompts /\ (1 <= seed <= 10000000)%Z
                       /\ ImageGenerator.pollinations_url p seed = Ok url
                       /\ img = ImageGenerator.pollinations_entry p url)
                   images)
  /\ (forall e,
         fst r = Raise e ->
         exn_class e = "UnicodeEncodeError"%string
         /\ (draws w < draws (snd r))%nat).
Proof.
  cbv zeta.
  destruct (first_unencodable prompts)
    as [He|(pre & bad & post & -> & Hpre & Hbad)].
  - rewrite generate_pollinations_eq by assumption.
    cbn [fst snd posts draws].
    split; [reflexivity|]. split; [eauto|]. split.
    + intros images [= <-]. split.
      * now rewrite pollinations_images_length.
      * now apply pollinations_images_entries.
    + discriminate.
  - destruct (generate_pollinations_raises pre post bad num_images w Hpre
                Hbad) as [msg ->].
    cbn [fst snd posts draws].
    split; [reflexivity|]. split.
    + intros H. apply Forall_app in H. destruct H as [_ H].
      apply Forall_inv in H. congruence.
    + split; [discriminate|].
      intros e [= <-]. split; [reflexivity | lia].
Qed.

(** *** [generate_images]: dispatch *)

Lemma supported_cases (api : pystr) :
  eqb_str api (py "nano_banana") = true
  \/ eqb_str api (py "segmind") = true
  \/ eqb_str api (py "stability") = true
  \/ eqb_str api (py "pollinations") = true
  \/ (eqb_str api (py "nano_banana") = false
      /\ eqb_str api (py "segmind") = false
      /\ eqb_str api (py "stability") = false
      /\ eqb_str api (py "pollinations") = false).
Proof.
  destruct (eqb_str api (py "nano_banana")); auto.
  destruct (eqb_str api (py "segmind")); auto.
  destruct (eqb_str api (py "stability")); auto.
  destruct (eqb_str api (py "pollinations")); auto.
  right; right; right; right. auto.
Qed.

(** What [generate_images] can do for each provider name that
    [_get_api_key] accepts. *)
Lemma generate_images_outcomes (self : ImageGenerator.t)
    (prompts : list pystr) (num_images : Z) (w : World) :
  (eqb_str (ImageGenerator.api_type self) (py "nano_banana")
   || eqb_str (ImageGenerator.api_type self) (py "segmind")
   || eqb_str (ImageGenerator.api_type self) (py "stability")
   || eqb_str (ImageGenerator.api_type self) (py "pollinations")) = true ->
  let r := ImageGenerator.generate_images http entropy self prompts
             num_images w in
  (Forall (fun p => encodable p = true) prompts ->
   exists images, fst r = Ok images)
  /\ (forall e,
         fst r = Raise e ->
         ImageGenerator.api_type self = py "pollinations"
         /\ exn_class e = "UnicodeEncodeError"%string).
Proof.
  cbv zeta. unfold ImageGenerator.generate_images, bind, ret. intros H.
  destruct (eqb_str (ImageGenerator.api_type self) (py "nano_banana"));
    [destruct (ImageGenerator._generate_nano_banana _ _ _ _ _); cbn [fst];
     split; [eauto | intros e; discriminate]|].
  destruct (eqb_str (ImageGenerator.api_type self) (py "segmind"));
    [destruct (ImageGenerator._generate_segmind _ _ _ _ _); cbn [fst];
     split; [eauto | intros e; discriminate]|].
  destruct (eqb_str (ImageGenerator.api_type self) (py "stability"));
    [destruct (ImageGenerator._generate_stability _ _ _ _ _); cbn [fst];
     split; [eauto | intros e; discriminate]|].
  destruct (eqb_str (ImageGenerator.api_type self) (py "pollinations"))
    eqn:E; [|discriminate].
  apply eqb_str_true in E.
  destruct (first_unencodable prompts)
    as [He|(pre & bad & post & -> & Hpre & Hbad)].
  - rewrite generate_pollinations_eq by assumption. cbn [fst].
    split; [eauto | discriminate].
  - destruct (generate_pollinations_raises pre post bad num_images w Hpre
                Hbad) as [msg ->].
    cbn [fst]. split.
    + intros Hall. apply Forall_app in Hall. destruct Hall as [_ Hall].
      apply Forall_inv in Hall. congruence.
    + intros e [= <-]. split; [exact E | reflexivity].
Qed.

Lemma init_supported (cfg : Config) (api : pystr) (self : ImageGenerator.t) :
  ImageGenerator.__init__ cfg api = Ok self ->
  ImageGenerator.api_type self = api
  /\ (eqb_str api (py "nano_banana") || eqb_str api (py "segmind")
      || eqb_str api (py "stability") || eqb_str api (py "pollinations"))
     = true.
Proof.
  unfold ImageGenerator.__init__, ImageGenerator._get_api_key. intros H.
  destruct (eqb_str api (py "nano_banana")) eqn:E1;
    [injection H as <-; split; reflexivity|].
  destruct (eqb_str api (py "segmind")) eqn:E2;
    [injection H as <-; split; reflexivity|].
  destruct (eqb_str api (py "stability")) eqn:E3;
    [injection H as <-; split; reflexivity|].
  destruct (eqb_str api (py "pollinations")) eqn:E4;
    [injection H as <-; split; reflexivity|].
  discriminate.
Qed.

(** X13. A generator that [__init__] built never makes
    [generate_images] raise the [ValueError] of an unsupported
    provider: the two functions accept the same names.  It returns for
    every list of prompts without lone surrogate, and the only
    exception it can raise is the [UnicodeEncodeError] of [quote],
    under 'pollinations'. *)
Theorem init_then_generate (cfg : Config) (api : pystr)
    (self : ImageGenerator.t) (prompts : list pystr) (num_images : Z)
    (w : World) :
  ImageGenerator.__init__ cfg api = Ok self ->
  let r := ImageGenerator.generate_images http entropy self prompts
             num_images w in
  (Forall (fun p => encodable p = true) prompts ->
   exists images, fst r = Ok images)
  /\ (forall e,
         fst r = Raise e ->
         api = py "pollinations"
         /\ exn_class e = "UnicodeEncodeError"%string).
Proof.
  intros H. destruct (init_supported cfg api self H) as [Ha Hs].
  rewrite <- Ha in Hs |- *. now apply generate_images_outcomes.
Qed.

(** With a provider name that is none of the four (the attribute can
    be assigned after construction), [generate_images] raises a
    [ValueError] naming it, and neither posts nor draws anything. *)
Theorem generate_images_unsupported (self : ImageGenerator.t)
    (prompts : list pystr) (num_images : Z) (w : World) :
  ImageGenerator.api_type self <> py "nano_banana" ->
  ImageGenerator.api_type self <> py "segmind" ->
  ImageGenerator.api_type self <> py "stability" ->
  ImageGenerator.api_type self <> py "pollinations" ->
  ImageGenerator.generate_images http entropy self prompts num_images w
  = (Raise (Exn "ValueError"
              (py "Unsupported API type: " ++ ImageGenerator.api_type self)),
     w).
Proof.
  intros H1 H2 H3 H4.
  destruct (supported_cases (ImageGenerator.api_type self))
    as [E|[E|[E|[E|(E1 & E2 & E3 & E4)]]]];
    try (apply eqb_str_true in E; contradiction).
  unfold ImageGenerator.generate_images. now rewrite E1, E2, E3, E4.
Qed.

(** With no prompt at all, every supported provider returns the empty
    list and neither posts nor draws anything. *)
Theorem generate_images_no_prompt (cfg : Config) (api : pystr)
    (self : ImageGenerator.t) (num_images : Z) (w : World) :
  ImageGenerator.__init__ cfg api = Ok self ->
  ImageGenerator.generate_images http entropy self [] num_images w
  = (Ok [], w).
Proof.
  unfold ImageGenerator.__init__, ImageGenerator._get_api_key. intros H.
  unfold ImageGenerator.generate_images.
  destruct (eqb_str api (py "nano_banana")) eqn:E1;
    [injection H as <-; cbn [ImageGenerator.api_type];
     now rewrite E1|].
  destruct (eqb_str api (py "segmind")) eqn:E2;
    [injection H as <-; cbn [ImageGenerator.api_type];
     now rewrite E1, E2|].
  destruct (eqb_str api (py "stability")) eqn:E3;
    [injection H as <-; cbn [ImageGenerator.api_type];
     now rewrite E1, E2, E3|].
  destruct (eqb_str api (py "pollinations")) eqn:E4;
    [injection H as <-; cbn [ImageGenerator.api_type];
     now rewrite E1, E2, E3, E4|].
  discriminate.
Qed.

End AdapterMore.

(** *** The key-based loops, prompt by prompt *)

Section KeyedMore.
Variable http : list Request -> Request -> Outcome.
Variable entropy : nat -> N.

Lemma keyed_loop_groups (request : pystr -> Request) (api field : pystr)
    (entry : pystr -> json -> Result dict) (prompts : list pystr)
    (w : World) :
  fst (keyed_loop http request api field entry prompts [] w)
  = concat (keyed_groups http request api field entry prompts (posts w)).
Proof.
  revert w. induction prompts as [|p ps IH]; intros w; [reflexivity|].
  unfold keyed_loop. cbn [for_each keyed_groups concat]. unfold bind at 1.
  unfold bind at 1, ImageGenerator.requests_post at 1, ret at 1.
  fold (keyed_loop http request api field entry ps
          (ImageGenerator.handle p api
             (ImageGenerator.consume (http (posts w) (request p)) field
                (entry p) []))
          {| posts := posts w ++ [request p]; draws := draws w |}).
  rewrite keyed_loop_acc. cbn [fst]. now rewrite IH.
Qed.

(** Which loop [generate_images] runs for each key-based provider. *)
Lemma generate_images_dispatch (self : ImageGenerator.t) (num_images : Z) :
  key_based (ImageGenerator.api_type self) = true ->
  exists field entry,
    ((ImageGenerator.api_type self = py "nano_banana"
      /\ field = py "data" /\ entry = ImageGenerator.nano_banana_entry)
     \/ (ImageGenerator.api_type self = py "segmind"
         /\ field = py "images" /\ entry = ImageGenerator.segmind_entry)
     \/ (ImageGenerator.api_type self = py "stability"
         /\ field = py "artifacts"
         /\ entry = ImageGenerator.stability_entry))
    /\ forall prompts w,
         ImageGenerator.generate_images http entropy self prompts
           num_images w
         = (Ok (concat (keyed_groups http
                          (fun q => request_of self q num_images)
                          (ImageGenerator.api_type self) field entry
                          prompts (posts w))),
            {| posts := posts w
                        ++ map (fun q => request_of self q num_images)
                               prompts;
               draws := draws w |}).
Proof.
  intros Hk.
  assert (G : forall field entry,
    (forall prompts w,
       ImageGenerator.generate_images http entropy self prompts num_images w
       = (Ok (fst (keyed_loop http (fun q => request_of self q num_images)
                     (ImageGenerator.api_type self) field entry prompts []
                     w)),
          snd (keyed_loop http (fun q => request_of self q num_images)
                 (ImageGenerator.api_type self) field entry prompts [] w)))
    -> forall prompts w,
         ImageGenerator.generate_images http entropy self prompts
           num_images w
         = (Ok (concat (keyed_groups http
                          (fun q => request_of self q num_images)
                          (ImageGenerator.api_type self) field entry
                          prompts (posts w))),
            {| posts := posts w
                        ++ map (fun q => request_of self q num_images)
                               prompts;
               draws := draws w |})).
  { intros field entry E prompts w.
    now rewrite E, keyed_loop_groups, keyed_loop_world. }
  unfold key_based in Hk.
  destruct (eqb_str (ImageGenerator.api_type self) (py "nano_banana")) eqn:E1.
  - exists (py "data"), ImageGenerator.nano_banana_entry.
    split; [left; split; [now apply eqb_str_true | auto]|].
    apply G. intros prompts w.
    unfold ImageGenerator.generate_images, request_of. rewrite E1.
    apply eqb_str_true in E1. rewrite E1. unfold bind, ret.
    change (ImageGenerator._generate_nano_banana http self prompts num_images)
      with (keyed_loop http
              (fun q => ImageGenerator.nano_banana_request self q num_images)
              (py "nano_banana") (py "data") ImageGenerator.nano_banana_entry
              prompts []).
    now destruct (keyed_loop _ _ _ _ _ _ _ _).
  - destruct (eqb_str (ImageGenerator.api_type self) (py "segmind")) eqn:E2.
    + exists (py "images"), ImageGenerator.segmind_entry.
      split; [right; left; split; [now apply eqb_str_true | auto]|].
      apply G. intros prompts w.
      unfold ImageGenerator.generate_images, request_of. rewrite E1, E2.
      apply eqb_str_true in E2. rewrite E2. unfold bind, ret.
      change (ImageGenerator._generate_segmind http self prompts num_images)
        with (keyed_loop http
                (fun q => ImageGenerator.segmind_request self q num_images)
                (py "segmind") (py "images") ImageGenerator.segmind_entry
                prompts []).
      now destruct (keyed_loop _ _ _ _ _ _ _ _).
    + destruct (eqb_str (ImageGenerator.api_type self) (py "stability"))
        eqn:E3; [|discriminate].
      exists (py "artifacts"), ImageGenerator.stability_entry.
      split; [right; right; split; [now apply eqb_str_true | auto]|].
      apply G. intros prompts w.
      unfold ImageGenerator.generate_images, request_of. rewrite E1, E2, E3.
      apply eqb_str_true in E3. rewrite E3. unfold bind, ret.
      change (ImageGenerator._generate_stability http self prompts num_images)
        with (keyed_loop http
                (fun q => ImageGenerator.stability_request self q num_images)
                (py "stability") (py "artifacts")
                ImageGenerator.stability_entry prompts []).
      now destruct (keyed_loop _ _ _ _ _ _ _ _).
Qed.

Lemma append_each_all (P : dict -> Prop) (e : json -> Result dict)
    (items : list json) (images : list dict) :
  (forall it d, e it = Ok d -> P d) -> Forall P images ->
  Forall P (fst (ImageGenerator.append_each e items images)).
Proof.
  intros He. revert images.
  induction items as [|it items IH]; intros images Hi; simpl; [exact Hi|].
  destruct (e it) as [d|x] eqn:E; [|exact Hi].
  apply IH. apply Forall_app. split; [exact Hi|].
  constructor; [now apply (He it) | constructor].
Qed.

Lemma group_all (P : dict -> Prop) (p api field : pystr)
    (e : json -> Result dict) (outcome : Outcome) :
  (forall it d, e it = Ok d -> P d) ->
  (forall x, P (ImageGenerator.error_entry p x api)) ->
  Forall P (ImageGenerator.handle p api
              (ImageGenerator.consume outcome field e [])).
Proof.
  intros He Herr.
  assert (G : forall r : list dict * option exn,
             Forall P (fst r) -> Forall P (ImageGenerator.handle p api r)).
  { intros [imgs [x|]] H; cbn [fst ImageGenerator.handle] in *; [|exact H].
    apply Forall_app. split; [exact H|].
    constructor; [apply Herr|constructor]. }
  apply G. unfold ImageGenerator.consume.
  destruct outcome as [x|data]; [constructor|].
  destruct (dict_get data field (JArr [])) as [v|x]; [|constructor].
  destruct (iterate v) as [items|x]; [|constructor].
  apply append_each_all; [exact He | constructor].
Qed.

Lemma entries_tagged (api field : pystr)
    (entry : pystr -> json -> Result dict) :
  (api = py "nano_banana" /\ field = py "data"
   /\ entry = ImageGenerator.nano_banana_entry)
  \/ (api = py "segmind" /\ field = py "images"
      /\ entry = ImageGenerator.segmind_entry)
  \/ (api = py "stability" /\ field = py "artifacts"
      /\ entry = ImageGenerator.stability_entry) ->
  forall p it d, entry p it = Ok d ->
    lookup (py "prompt") d = Some (JStr p)
    /\ lookup (py "api") d = Some (JStr api).
Proof.
  intros [(-> & _ & ->)|[(-> & _ & ->)|(-> & _ & ->)]] p it d.
  - unfold ImageGenerator.nano_banana_entry.
    destruct (dict_get it (py "url") JNull); [|discriminate].
    intros [= <-]. split; reflexivity.
  - unfold ImageGenerator.segmind_entry. intros [= <-]. split; reflexivity.
  - unfold ImageGenerator.stability_entry.
    destruct (dict_get it (py "base64") JNull); [|discriminate].
    intros [= <-]. split; reflexivity.
Qed.

(** X14. Under a key-based provider the result is made of one group of
    entries per prompt, in the prompts' order (a group may be empty);
    every entry of a group carries that prompt and the provider's
    name. *)
Theorem generate_images_grouped (self : ImageGenerator.t)
    (prompts : list pystr) (num_images : Z) (w : World) :
  key_based (ImageGenerator.api_type self) = true ->
  exists groups,
    fst (ImageGenerator.generate_images http entropy self prompts
           num_images w) = Ok (concat groups)
    /\ Forall2
         (fun p group =>
            Forall (fun img =>
                      lookup (py "prompt") img = Some (JStr p)
                      /\ lookup (py "api") img
                         = Some (JStr (ImageGenerator.api_type self)))
                   group)
         prompts groups.
Proof.
  intros Hk.
  destruct (generate_images_dispatch self num_images Hk)
    as (field & entry & Hcase & E).
  rewrite E. cbn [fst]. eexists. split; [reflexivity|].
  generalize (posts w). clear E.
  induction prompts as [|p ps IH]; intros history; cbn [keyed_groups];
    constructor; [|apply IH].
  apply group_all.
  - intros it d Hd.
    exact (entries_tagged _ field entry Hcase p it d Hd).
  - intros x. split; reflexivity.
Qed.

(** X15. When every request fails, the result has exactly one entry per
    prompt, in order: it carries the prompt, no URL and an error
    message. *)
Theorem generate_images_all_fail (self : ImageGenerator.t)
    (prompts : list pystr) (num_images : Z) (w : World) :
  key_based (ImageGenerator.api_type self) = true ->
  (forall history r, exists e, http history r = Failed e) ->
  exists images,
    fst (ImageGenerator.generate_images http entropy self prompts
           num_images w) = Ok images
    /\ Forall2
         (fun p img =>
            lookup (py "prompt") img = Some (JStr p)
            /\ lookup (py "url") img = Some JNull
            /\ lookup (py "base64") img = None
            /\ exists msg, lookup (py "error") img = Some (JStr msg))
         prompts images.
Proof.
  intros Hk Hfail.
  destruct (generate_images_dispatch self num_images Hk)
    as (field & entry & _ & E).
  rewrite E. cbn [fst]. eexists. split; [reflexivity|].
  generalize (posts w). clear E.
  induction prompts as [|p ps IH]; intros history; cbn [keyed_groups concat].
  - constructor.
  - destruct (Hfail history (request_of self p num_images)) as [e ->].
    cbn [ImageGenerator.consume ImageGenerator.handle app].
    constructor; [|apply IH].
    repeat split; try reflexivity. now exists (exn_str e).
Qed.

(** X16. When the service answers every request with a JSON object that
    has none of the keys 'data', 'images' and 'artifacts', the result
    is empty: no image and no error entry, though one request per
    prompt was posted. *)
Theorem generate_images_silent (self : ImageGenerator.t)
    (prompts : list pystr) (num_images : Z) (w : World) :
  key_based (ImageGenerator.api_type self) = true ->
  (forall history r,
      exists fields,
        http history r = Body (JObj fields)
        /\ lookup (py "data") fields = None
        /\ lookup (py "images") fields = None
        /\ lookup (py "artifacts") fields = None) ->
  ImageGenerator.generate_images http entropy self prompts num_images w
  = (Ok [],
     {| posts := posts w
                 ++ map (fun q => request_of self q num_images) prompts;
        draws := draws w |}).
Proof.
  intros Hk Hbody.
  destruct (generate_images_dispatch self num_images Hk)
    as (field & entry & Hcase & E).
  rewrite E. f_equal. f_equal.
  generalize (posts w). clear E.
  induction prompts as [|p ps IH]; intros history; cbn [keyed_groups concat];
    [reflexivity|].
  rewrite IH, app_nil_r.
  destruct (Hbody history (request_of self p num_images))
    as (fields & -> & H1 & H2 & H3).
  unfold ImageGenerator.consume, dict_get.
  destruct Hcase as [(_ & -> & _)|[(_ & -> & _)|(_ & -> & _)]];
    [rewrite H1 | rewrite H2 | rewrite H3]; reflexivity.
Qed.

End KeyedMore.

Lemma generate_images_grouped_witness :
  exists groups,
    fst (ImageGenerator.generate_images flaky counting banana
           [py "a cat"; py "a dog"] 2 fresh) = Ok (concat groups)
    /\ Forall2
         (fun p group =>
            Forall (fun img =>
                      lookup (py "prompt") img = Some (JStr p)
                      /\ lookup (py "api") img
                         = Some (JStr (py "nano_banana")))
                   group)
         [py "a cat"; py "a dog"] groups.
Proof.
  exact (generate_images_grouped flaky counting banana
           [py "a cat"; py "a dog"] 2 fresh eq_refl).
Defined.

Lemma generate_images_all_fail_witness :
  exists images,
    fst (ImageGenerator.generate_images offline counting banana
           [py "a cat"; py "a dog"] 1 fresh) = Ok images
    /\ Forall2
         (fun p img =>
            lookup (py "prompt") img = Some (JStr p)
            /\ lookup (py "url") img = Some JNull
            /\ lookup (py "base64") img = None
            /\ exists msg, lookup (py "error") img = Some (JStr msg))
         [py "a cat"; py "a dog"] images.
Proof.
  apply (generate_images_all_fail offline counting banana
           [py "a cat"; py "a dog"] 1 fresh eq_refl).
  intros history r. eexists. reflexivity.
Defined.

Lemma generate_images_silent_witness :
  ImageGenerator.generate_images
    (fun _ _ => Body (JObj [(py "message", JStr (py "queued"))]))
    counting banana [py "a cat"] 1 fresh
  = (Ok [],
     {| posts := posts fresh
                 ++ map (fun q => request_of banana q 1) [py "a cat"];
        draws := draws fresh |}).
Proof.
  apply generate_images_silent; [reflexivity|].
  intros history r. eexists. repeat split; reflexivity.
Defined.

Lemma generate_pollinations_entries_witness :
  exists images,
    fst (ImageGenerator._generate_pollinations counting [py "a cat"] 2
           fresh) = Ok images.
Proof.
  apply (proj1 (proj2 (generate_pollinations_entries counting [py "a cat"] 2
                         fresh))).
  repeat constructor.
Defined.

Lemma init_then_generate_witness :
  exists images,
    fst (ImageGenerator.generate_images offline counting pollinator
           [py "a cat"] 1 fresh) = Ok images.
Proof.
  apply (proj1 (init_then_generate offline counting no_keys
                  (py "pollinations") pollinator [py "a cat"] 1 fresh
                  eq_refl)).
  repeat constructor.
Defined.

Lemma generate_images_unsupported_witness :
  ImageGenerator.generate_images offline counting
    {| ImageGenerator.api_type := py "dalle";
       ImageGenerator.api_key := None |}
    [py "a cat"] 1 fresh
  = (Raise (Exn "ValueError" (py "Unsupported API type: dalle")), fresh).
Proof.
  apply (generate_images_unsupported offline counting
           {| ImageGenerator.api_type := py "dalle";
              ImageGenerator.api_key := None |});
    discriminate.
Defined.

Lemma generate_images_no_prompt_witness :
  ImageGenerator.generate_images offline counting banana [] 3 fresh
  = (Ok [], fresh).
Proof.
  exact (generate_images_no_prompt offline counting no_keys
           (py "nano_banana") banana 3 fresh eq_refl).
Defined.

(** *** What a provider's answer turns into *)

Section Answers.
Variable http : list Request -> Request -> Outcome.

Lemma append_each_good (e : json -> Result dict) (f : json -> dict)
    (items : list json) (images : list dict) :
  (forall it, In it items -> e it = Ok (f it)) ->
  ImageGenerator.append_each e items images
  = (images ++ map f items, None).
Proof.
  revert images. induction items as [|it items IH]; intros images H; simpl.
  - now rewrite app_nil_r.
  - rewrite (H it) by now left.
    rewrite IH by (intros x Hx; apply H; now right).
    now rewrite <- app_assoc.
Qed.

Lemma append_each_bad (e : json -> Result dict) (f : json -> dict)
    (good rest : list json) (bad : json) (x : exn) (images : list dict) :
  (forall it, In it good -> e it = Ok (f it)) ->
  e bad = Raise x ->
  ImageGenerator.append_each e (good ++ bad :: rest) images
  = (images ++ map f good, Some x).
Proof.
  revert images. induction good as [|it good IH]; intros images H Hb; simpl.
  - now rewrite Hb, app_nil_r.
  - rewrite (H it) by now left.
    rewrite IH by (auto; intros y Hy; apply H; now right).
    now rewrite <- app_assoc.
Qed.

(** The entry a well-formed nano_banana item gives. *)
Lemma nano_banana_entry_object (p : pystr) (fields : list (pystr * json)) :
  ImageGenerator.nano_banana_entry p (JObj fields)
  = Ok [ (py "prompt", JStr p); (py "url", get (py "url") fields);
         (py "api", JStr (py "nano_banana")) ].
Proof. reflexivity. Qed.

(** X17. When nano_banana answers a request with an object whose 'data' is
    a list of objects, the prompt gets one entry per object, in order,
    however many images were asked for; the entry's url is the
    object's 'url', or [None] when it has none. *)
Theorem nano_banana_answer (self : ImageGenerator.t) (p : pystr)
    (num_images : Z) (w : World) (fields : list (pystr * json))
    (items : list (list (pystr * json))) :
  http (posts w) (ImageGenerator.nano_banana_request self p num_images)
  = Body (JObj fields) ->
  lookup (py "data") fields = Some (JArr (map JObj items)) ->
  ImageGenerator._generate_nano_banana http self [p] num_images w
  = (map (fun item => [ (py "prompt", JStr p);
                        (py "url", get (py "url") item);
                        (py "api", JStr (py "nano_banana")) ])
         items,
     {| posts := posts w
                 ++ [ImageGenerator.nano_banana_request self p num_images];
        draws := draws w |}).
Proof.
  intros Hb Hd.
  unfold ImageGenerator._generate_nano_banana. cbn [for_each].
  unfold bind, ImageGenerator.requests_post, ret. rewrite Hb.
  unfold ImageGenerator.consume, dict_get. rewrite Hd. cbn [iterate].
  rewrite (append_each_good _
             (fun it => match it with
                        | JObj f => [ (py "prompt", JStr p);
                                      (py "url", get (py "url") f);
                                      (py "api", JStr (py "nano_banana")) ]
                        | _ => []
                        end)).
  - cbn [ImageGenerator.handle app]. now rewrite map_map.
  - intros it Hin. apply in_map_iff in Hin. destruct Hin as (f & <- & _).
    reflexivity.
Qed.

(** X18. When an element of nano_banana's 'data' list is not an object, the
    entries of the objects before it are kept, one error entry naming
    the missing [get] method follows, and the elements after it are
    dropped. *)
Theorem nano_banana_bad_item (self : ImageGenerator.t) (p : pystr)
    (num_images : Z) (w : World) (fields : list (pystr * json))
    (good : list (list (pystr * json))) (bad : json) (rest : list json) :
  http (posts w) (ImageGenerator.nano_banana_request self p num_images)
  = Body (JObj fields) ->
  lookup (py "data") fields = Some (JArr (map JObj good ++ bad :: rest)) ->
  (forall f, bad <> JObj f) ->
  fst (ImageGenerator._generate_nano_banana http self [p] num_images w)
  = map (fun item => [ (py "prompt", JStr p);
                       (py "url", get (py "url") item);
                       (py "api", JStr (py "nano_banana")) ])
        good
    ++ [ [ (py "prompt", JStr p); (py "url", JNull);
           (py "error",
            JStr (py "'" ++ type_name bad
                    ++ py "' object has no attribute 'get'"));
           (py "api", JStr (py "nano_banana")) ] ].
Proof.
  intros Hb Hd Hbad.
  unfold ImageGenerator._generate_nano_banana. cbn [for_each].
  unfold bind, ImageGenerator.requests_post, ret. rewrite Hb.
  unfold ImageGenerator.consume, dict_get. rewrite Hd. cbn [iterate].
  rewrite (append_each_bad _
             (fun it => match it with
                        | JObj f => [ (py "prompt", JStr p);
                                      (py "url", get (py "url") f);
                                      (py "api", JStr (py "nano_banana")) ]
                        | _ => []
                        end)
             (map JObj good) rest bad
             (Exn "AttributeError"
                (py "'" ++ type_name bad
                   ++ py "' object has no attribute 'get'"))).
  - cbn [ImageGenerator.handle app fst]. now rewrite map_map.
  - intros it Hin. apply in_map_iff in Hin. destruct Hin as (f & <- & _).
    reflexivity.
  - unfold ImageGenerator.nano_banana_entry, dict_get.
    destruct bad as [| | | | | |f]; try reflexivity. now destruct (Hbad f).
Qed.

(** When segmind answers with an object whose 'images' is a list, the
    prompt gets one entry per element, whose base64 field is the
    element as it is. *)
Theorem segmind_answer (self : ImageGenerator.t) (p : pystr)
    (num_images : Z) (w : World) (fields : list (pystr * json))
    (items : list json) :
  http (posts w) (ImageGenerator.segmind_request self p num_images)
  = Body (JObj fields) ->
  lookup (py "images") fields = Some (JArr items) ->
  fst (ImageGenerator._generate_segmind http self [p] num_images w)
  = map (fun img_b64 => [ (py "prompt", JStr p); (py "base64", img_b64);
                          (py "api", JStr (py "segmind")) ])
        items.
Proof.
  intros Hb Hd.
  unfold ImageGenerator._generate_segmind. cbn [for_each].
  unfold bind, ImageGenerator.requests_post, ret. rewrite Hb.
  unfold ImageGenerator.consume, dict_get. rewrite Hd. cbn [iterate].
  rewrite (append_each_good _
             (fun it => [ (py "prompt", JStr p); (py "base64", it);
                          (py "api", JStr (py "segmind")) ])).
  - reflexivity.
  - reflexivity.
Qed.

End Answers.

Lemma nano_banana_answer_witness :
  ImageGenerator._generate_nano_banana two_urls banana [py "a cat"] 7 fresh
  = (map (fun item => [ (py "prompt", JStr (py "a cat"));
                        (py "url", get (py "url") item);
                        (py "api", JStr (py "nano_banana")) ])
         [ [(py "url", JStr (py "https://img/1.png"))];
           [(py "url", JStr (py "https://img/2.png"))] ],
     {| posts := posts fresh
                 ++ [ImageGenerator.nano_banana_request banana
                       (py "a cat") 7];
        draws := draws fresh |}).
Proof.
  apply (nano_banana_answer two_urls banana (py "a cat") 7 fresh
           [ (py "data",
              JArr [ JObj [(py "url", JStr (py "https://img/1.png"))];
                     JObj [(py "url", JStr (py "https://img/2.png"))] ]) ]);
    reflexivity.
Defined.

Lemma nano_banana_bad_item_witness :
  fst (ImageGenerator._generate_nano_banana
         (fun _ _ =>
            Body (JObj [ (py "data",
                          JArr [ JObj [(py "url", JStr (py "u1"))];
                                 JStr (py "oops");
                                 JObj [(py "url", JStr (py "u3"))] ]) ]))
         banana [py "a cat"] 3 fresh)
  = [ [ (py "prompt", JStr (py "a cat")); (py "url", JStr (py "u1"));
        (py "api", JStr (py "nano_banana")) ];
      [ (py "prompt", JStr (py "a cat")); (py "url", JNull);
        (py "error", JStr (py "'str' object has no attribute 'get'"));
        (py "api", JStr (py "nano_banana")) ] ].
Proof.
  apply (nano_banana_bad_item _ banana (py "a cat") 3 fresh
           [ (py "data",
              JArr [ JObj [(py "url", JStr (py "u1"))];
                     JStr (py "oops");
                     JObj [(py "url", JStr (py "u3"))] ]) ]
           [ [(py "url", JStr (py "u1"))] ] (JStr (py "oops"))
           [ JObj [(py "url", JStr (py "u3"))] ]).
  - reflexivity.
  - reflexivity.
  - intros f. discriminate.
Defined.

Lemma segmind_answer_witness :
  fst (ImageGenerator._generate_segmind
         (fun _ _ =>
            Body (JObj [ (py "images",
                          JArr [JStr (py "aGVsbG8="); JInt 7]) ]))
         {| ImageGenerator.api_type := py "segmind";
            ImageGenerator.api_key := Some (py "k") |}
         [py "a cat"] 1 fresh)
  = map (fun img_b64 => [ (py "prompt", JStr (py "a cat"));
                          (py "base64", img_b64);
                          (py "api", JStr (py "segmind")) ])
        [JStr (py "aGVsbG8="); JInt 7].
Proof.
  apply (segmind_answer _ _ (py "a cat") 1 fresh
           [ (py "images", JArr [JStr (py "aGVsbG8="); JInt 7]) ]);
    reflexivity.
Defined.

(* ===================================================================== *)
(** ** Saving the images *)
(* ===================================================================== *)






Section SavingFacts.
Variable image : Type.
Variable makedirs : pystr -> option exn.
Variable open_base64 : json -> Result image.
Variable fetch : list json -> json -> Result image.
Variable save_png : list (pystr * image) -> pystr -> image -> option exn.
Variable path_join : pystr -> pystr -> pystr.
Variable py_repr : json -> pystr.

Abbreviation save_one :=
  (ImageGenerator.save_one image open_base64 fetch save_png path_join
     py_repr).
Abbreviation save_loop :=
  (ImageGenerator.save_loop image open_base64 fetch save_png path_join
     py_repr).
Abbreviation save_images :=
  (ImageGenerator.save_images image makedirs open_base64 fetch save_png
     path_join py_repr).
Abbreviation image_path :=
  (ImageGenerator.image_path path_join py_repr).



(** X20. Entries that hold neither a base64 payload nor a URL (an error
    entry, whose url is [None], is one) are passed over: nothing is
    downloaded, nothing is saved, no path is returned. *)
Theorem save_images_skips (images : list dict) (output_dir : pystr)
    (st : ImageGenerator.Disk image) :
  makedirs output_dir = None ->
  Forall (fun img_data =>
            json_truthy (get (py "base64") img_data) = false
            /\ json_truthy (get (py "url") img_data) = false)
         images ->
  save_images images output_dir st = (Ok [], st).
Proof.
  intros Hm H. unfold ImageGenerator.save_images. rewrite Hm.
  assert (G : forall i paths,
             save_loop output_dir i images st paths = (paths, st)).
  { induction H as [|d images [Hb Hu] _ IH]; intros i paths; [reflexivity|].
    cbn [ImageGenerator.save_loop]. unfold ImageGenerator.save_one.
    rewrite Hb, Hu. apply IH. }
  now rewrite G.
Qed.




(** X23. When every entry has a URL, no payload and the same provider name,
    and every download and every save succeeds, the paths returned are
    [image_1_<api>.png], [image_2_<api>.png], ... in the output
    directory, one per entry. *)
Theorem save_images_numbering (images : list dict) (output_dir api : pystr)
    (st : ImageGenerator.Disk image) :
  makedirs output_dir = None ->
  (forall history url, exists img, fetch history url = Ok img) ->
  (forall files path img, save_png files path img = None) ->
  Forall (fun img_data =>
            json_truthy (get (py "base64") img_data) = false
            /\ json_truthy (get (py "url") img_data) = true
            /\ lookup (py "api") img_data = Some (JStr api))
         images ->
  fst (save_images images output_dir st)
  = Ok (map (fun i => path_join output_dir
                        (py "image_" ++ str_of_Z (Z.of_nat i + 1) ++ py "_"
                           ++ api ++ py ".png"))
            (seq 0 (length images))).
Proof.
  intros Hm Hf Hs H. unfold ImageGenerator.save_images. rewrite Hm.
  assert (G : forall i st0 paths,
    fst (save_loop output_dir i images st0 paths)
    = paths ++ map (fun i => path_join output_dir
                               (py "image_" ++ str_of_Z (Z.of_nat i + 1)
                                  ++ py "_" ++ api ++ py ".png"))
                   (seq i (length images))).
  { induction H as [|d images (Hb & Hu & Ha) _ IH]; intros i st0 paths.
    - simpl. now rewrite app_nil_r.
    - cbn [ImageGenerator.save_loop length seq map].
      unfold ImageGenerator.save_one. rewrite Hb, Hu.
      destruct (Hf (ImageGenerator.fetched st0) (get (py "url") d))
        as [img ->].
      unfold ImageGenerator.store, getitem. rewrite Ha. cbv zeta.
      rewrite Hs. rewrite IH, <- app_assoc. reflexivity. }
  specialize (G 0%nat st []).
  destruct (save_loop output_dir 0 images st []) as [paths st'].
  cbn [fst] in *. now rewrite G.
Qed.

End SavingFacts.

Lemma save_images_skips_witness :
  save_images_ok
    [ ImageGenerator.error_entry (py "a cat")
        (Exn "HTTPError" (py "500 Server Error")) (py "nano_banana") ]
    (py "generated_images") blank_disk
  = (Ok [], blank_disk).
Proof.
  apply (save_images_skips unit (fun _ => None) (fun _ => Ok tt)
           (fun _ _ => Ok tt) (fun _ _ _ => None) posix_join (fun _ => []));
    [reflexivity|].
  repeat constructor.
Defined.



Lemma save_images_numbering_witness :
  fst (save_images_ok
         [ [ (py "url", JStr (py "https://img/a.png"));
             (py "api", JStr (py "nano_banana")) ];
           [ (py "url", JStr (py "https://img/b.png"));
             (py "api", JStr (py "nano_banana")) ] ]
         (py "out") blank_disk)
  = Ok [py "out/image_1_nano_banana.png"; py "out/image_2_nano_banana.png"].
Proof.
  apply (save_images_numbering unit (fun _ => None) (fun _ => Ok tt)
           (fun _ _ => Ok tt) (fun _ _ _ => None) posix_join (fun _ => [])
           [ [ (py "url", JStr (py "https://img/a.png"));
               (py "api", JStr (py "nano_banana")) ];
             [ (py "url", JStr (py "https://img/b.png"));
               (py "api", JStr (py "nano_banana")) ] ]
           (py "out") (py "nano_banana") blank_disk).
  - reflexivity.
  - intros. now exists tt.
  - reflexivity.
  - repeat constructor.
Defined.

(* ===================================================================== *)
(** ** One run of the pipeline *)
(* ===================================================================== *)

Lemma parse_image_prompts_length (image_prompts_result topic : pystr) :
  length (Crew._parse_image_prompts image_prompts_result topic) = 3%nat.
Proof.
  unfold Crew._parse_image_prompts. cbv zeta.
  generalize (Crew.parsed_prompts image_prompts_result). intros prompts.
  destruct (Nat.ltb_spec (length prompts) 3).
  - rewrite length_firstn, length_app.
    change (length (Crew.fallback_prompts topic)) with 3%nat. lia.
  - rewrite length_firstn. lia.
Qed.

Section RunFacts.
Variable unicode_isalnum : char -> bool.
Variable unicode_upper : char -> pystr.
Variable http : list Request -> Request -> Outcome.
Variable entropy : nat -> N.
Variable image : Type.
Variable makedirs : pystr -> option exn.
Variable open_base64 : json -> Result image.
Variable fetch : list json -> json -> Result image.
Variable save_png : list (pystr * image) -> pystr -> image -> option exn.
Variable path_join : pystr -> pystr -> pystr.
Variable py_repr : json -> pystr.
Variable run_crew : pystr -> Result InstagramContentCrew.Outputs.
Variable now_isoformat : pystr.
Variable now_strftime : pystr.
Variable open_write : list (pystr * option json) -> pystr -> option exn.
Variable json_dump : pystr -> json -> option exn.

Abbreviation create_content :=
  (InstagramContentCrew.create_content unicode_isalnum unicode_upper http
     entropy image makedirs open_base64 fetch save_png path_join py_repr
     run_crew now_isoformat now_strftime open_write json_dump).
Abbreviation finish :=
  (InstagramContentCrew.finish unicode_isalnum unicode_upper image makedirs
     open_base64 fetch save_png path_join py_repr now_isoformat now_strftime
     open_write json_dump).
Abbreviation final_result :=
  (InstagramContentCrew.final_result now_isoformat).

(** What the end of a run does to the system, and what it returns. *)
Lemma finish_spec (topic : pystr) (save_images : bool)
    (out : InstagramContentCrew.Outputs) (image_prompts : list pystr)
    (generated_images : list dict) (s : InstagramContentCrew.Sys image) :
  let r := finish topic save_images out image_prompts generated_images s in
  InstagramContentCrew.net (snd r) = InstagramContentCrew.net s
  /\ (save_images = false ->
      InstagramContentCrew.disk (snd r) = InstagramContentCrew.disk s)
  /\ match fst r with
     | Ok result =>
         exists short_caption long_caption saved_image_paths,
           result = final_result topic
                      (InstagramContentCrew.research_result out)
                      short_caption long_caption
                      (Crew._extract_hashtags
                         (InstagramContentCrew.review_result out))
                      image_prompts generated_images saved_image_paths
           /\ (save_images = false -> saved_image_paths = [])
           /\ InstagramContentCrew.result_files (snd r)
              = InstagramContentCrew.result_files s
                ++ [(Crew.result_filename unicode_isalnum topic now_strftime,
                     Some result)]
     | Raise e =>
         InstagramContentCrew.result_files (snd r)
         = InstagramContentCrew.result_files s
         \/ (InstagramContentCrew.result_files (snd r)
             = InstagramContentCrew.result_files s
               ++ [(Crew.result_filename unicode_isalnum topic now_strftime,
                    None)]
             /\ exists result,
                  json_dump
                    (Crew.result_filename unicode_isalnum topic now_strftime)
                    result = Some e)
     end.
Proof.
  cbv zeta. unfold InstagramContentCrew.finish.
  set (cond := save_images
               && match generated_images with
                  | [] => false
                  | _ :: _ => true
                  end).
  assert (Hc : save_images = false -> cond = false)
    by (intros ->; reflexivity).
  assert (G : forall saved disk',
    (save_images = false ->
     saved = [] /\ disk' = InstagramContentCrew.disk s) ->
    let r :=
      match
        Crew._extract_short_caption unicode_upper
          (InstagramContentCrew.review_result out)
      with
      | Raise e =>
          (Raise e,
           {| InstagramContentCrew.net := InstagramContentCrew.net s;
              InstagramContentCrew.disk := disk';
              InstagramContentCrew.result_files :=
                InstagramContentCrew.result_files s |})
      | Ok short_caption =>
          match
            Crew._extract_long_caption unicode_upper
              (InstagramContentCrew.review_result out)
          with
          | Raise e =>
              (Raise e,
               {| InstagramContentCrew.net := InstagramContentCrew.net s;
                  InstagramContentCrew.disk := disk';
                  InstagramContentCrew.result_files :=
                    InstagramContentCrew.result_files s |})
          | Ok long_caption =>
              match
                InstagramContentCrew._save_result unicode_isalnum image
                  makedirs now_strftime open_write json_dump
                  (final_result topic
                     (InstagramContentCrew.research_result out)
                     short_caption long_caption
                     (Crew._extract_hashtags
                        (InstagramContentCrew.review_result out))
                     image_prompts generated_images saved)
                  topic
                  {| InstagramContentCrew.net := InstagramContentCrew.net s;
                     InstagramContentCrew.disk := disk';
                     InstagramContentCrew.result_files :=
                       InstagramContentCrew.result_files s |}
              with
              | (Some e, s') => (Raise e, s')
              | (None, s') =>
                  (Ok (final_result topic
                         (InstagramContentCrew.research_result out)
                         short_caption long_caption
                         (Crew._extract_hashtags
                            (InstagramContentCrew.review_result out))
                         image_prompts generated_images saved), s')
              end
          end
      end in
    InstagramContentCrew.net (snd r) = InstagramContentCrew.net s
    /\ (save_images = false ->
        InstagramContentCrew.disk (snd r) = InstagramContentCrew.disk s)
    /\ match fst r with
       | Ok result =>
           exists short_caption long_caption saved_image_paths,
             result = final_result topic
                        (InstagramContentCrew.research_result out)
                        short_caption long_caption
                        (Crew._extract_hashtags
                           (InstagramContentCrew.review_result out))
                        image_prompts generated_images saved_image_paths
             /\ (save_images = false -> saved_image_paths = [])
             /\ InstagramContentCrew.result_files (snd r)
                = InstagramContentCrew.result_files s
                  ++ [(Crew.result_filename unicode_isalnum topic
                         now_strftime, Some result)]
       | Raise e =>
           InstagramContentCrew.result_files (snd r)
           = InstagramContentCrew.result_files s
           \/ (InstagramContentCrew.result_files (snd r)
               = InstagramContentCrew.result_files s
                 ++ [(Crew.result_filename unicode_isalnum topic
                        now_strftime, None)]
               /\ exists result,
                    json_dump
                      (Crew.result_filename unicode_isalnum topic
                         now_strftime) result = Some e)
       end).
  { intros saved disk' Hs. cbv zeta.
    destruct (Crew._extract_short_caption _ _) as [short|e];
      [|cbn; split; [reflexivity|]; split; [apply Hs | now left]].
    destruct (Crew._extract_long_caption _ _) as [long|e];
      [|cbn; split; [reflexivity|]; split; [apply Hs | now left]].
    unfold InstagramContentCrew._save_result.
    destruct (makedirs (py "results"));
      [cbn; split; [reflexivity|]; split; [apply Hs | now left]|].
    cbv zeta.
    destruct (open_write _ _);
      [cbn; split; [reflexivity|]; split; [apply Hs | now left]|].
    destruct (json_dump _ _) as [e|] eqn:D; cbn.
    - split; [reflexivity|]. split; [apply Hs|].
      right. split; [reflexivity|]. eexists. exact D.
    - split; [reflexivity|]. split; [apply Hs|].
      exists short, long, saved. split; [reflexivity|].
      split; [apply Hs | reflexivity]. }
  destruct cond.
  - destruct (ImageGenerator.save_images _ _ _ _ _ _ _ _ _ _)
      as [[saved|e] disk'].
    + apply G. intros H. specialize (Hc H). discriminate.
    + cbn. split; [reflexivity|].
      split; [intros H; specialize (Hc H); discriminate | now left].
  - apply G. intros _. split; reflexivity.
Qed.


(** X25. The value a successful run returns holds the topic, exactly three
    image prompts, at most 30 hashtags, and the images generated from
    those three prompts. *)
Theorem create_content_shape (self : InstagramContentCrew.t)
    (topic : pystr) (save_images : bool)
    (s s' : InstagramContentCrew.Sys image) (result : json) :
  create_content self topic save_images s = (Ok result, s') ->
  exists out short_caption long_caption hashtags p1 p2 p3 images saved,
    run_crew topic = Ok out
    /\ result = final_result topic (InstagramContentCrew.research_result out)
                  short_caption long_caption hashtags [p1; p2; p3] images
                  saved
    /\ (length hashtags <= 30)%nat
    /\ ImageGenerator.generate_images http entropy
         (InstagramContentCrew.image_generator self) [p1; p2; p3] 1
         (InstagramContentCrew.net s)
       = (Ok images, InstagramContentCrew.net s').
Proof.
  unfold InstagramContentCrew.create_content.
  destruct (run_crew topic) as [out|e]; [|discriminate].
  cbv zeta.
  pose proof (parse_image_prompts_length
                (InstagramContentCrew.image_prompts_result out) topic) as H3.
  destruct (Crew._parse_image_prompts _ topic) as [|p1 [|p2 [|p3 [|p4 ps]]]];
    try discriminate.
  destruct (ImageGenerator.generate_images _ _ _ _ _ _) as [[imgs|e] net']
    eqn:G; [|discriminate].
  intros E.
  pose proof (finish_spec topic save_images out [p1; p2; p3] imgs
                {| InstagramContentCrew.net := net';
                   InstagramContentCrew.disk := InstagramContentCrew.disk s;
                   InstagramContentCrew.result_files :=
                     InstagramContentCrew.result_files s |}) as F.
  cbv zeta in F. rewrite E in F. cbn [fst snd] in F.
  destruct F as (Hnet & _ & short & long & saved & -> & _ & _).
  cbn [InstagramContentCrew.net] in Hnet.
  exists out, short, long,
    (Crew._extract_hashtags (InstagramContentCrew.review_result out)),
    p1, p2, p3, imgs, saved.
  split; [reflexivity|]. split; [reflexivity|]. split.
  - unfold Crew._extract_hashtags. rewrite length_firstn. lia.
  - now rewrite Hnet.
Qed.

(** X26. Once the crew has run, a key-based provider is sent exactly three
    requests, one per image prompt, each asking for one image, whether
    or not the rest of the run succeeds. *)
Theorem create_content_requests (self : InstagramContentCrew.t)
    (topic : pystr) (save_images : bool)
    (s : InstagramContentCrew.Sys image)
    (out : InstagramContentCrew.Outputs) :
  run_crew topic = Ok out ->
  key_based (ImageGenerator.api_type
               (InstagramContentCrew.image_generator self)) = true ->
  exists p1 p2 p3,
    Crew._parse_image_prompts
      (InstagramContentCrew.image_prompts_result out) topic = [p1; p2; p3]
    /\ posts (InstagramContentCrew.net
                (snd (create_content self topic save_images s)))
       = posts (InstagramContentCrew.net s)
         ++ map (fun q => request_of
                            (InstagramContentCrew.image_generator self) q 1)
                [p1; p2; p3].
Proof.
  intros Hrun Hk.
  pose proof (parse_image_prompts_length
                (InstagramContentCrew.image_prompts_result out) topic) as H3.
  unfold InstagramContentCrew.create_content. rewrite Hrun. cbv zeta.
  destruct (Crew._parse_image_prompts _ topic) as [|p1 [|p2 [|p3 [|p4 ps]]]];
    try discriminate.
  exists p1, p2, p3. split; [reflexivity|].
  destruct (generate_images_dispatch http entropy _ 1 Hk)
    as (field & entry & _ & E).
  rewrite E.
  pose proof (finish_spec topic save_images out [p1; p2; p3]
    (concat (keyed_groups http
               (fun q => request_of
                           (InstagramContentCrew.image_generator self) q 1)
               (ImageGenerator.api_type
                  (InstagramContentCrew.image_generator self))
               field entry [p1; p2; p3]
               (posts (InstagramContentCrew.net s))))
    {| InstagramContentCrew.net :=
         {| posts := posts (InstagramContentCrew.net s)
                     ++ map (fun q => request_of
                               (InstagramContentCrew.image_generator self)
                               q 1) [p1; p2; p3];
            draws := draws (InstagramContentCrew.net s) |};
       InstagramContentCrew.disk := InstagramContentCrew.disk s;
       InstagramContentCrew.result_files :=
         InstagramContentCrew.result_files s |}) as F.
  cbv zeta in F. destruct F as (Hnet & _). rewrite Hnet. reflexivity.
Qed.

(** X27. With the keyless provider, once the crew has run, a run posts
    nothing and draws at least one and at most three seeds; a run that
    succeeds has drawn exactly three and holds exactly three generated
    images.  (Fewer are drawn when a prompt holds a lone surrogate:
    [quote] then raises and the run fails.) *)
Theorem create_content_pollinations (self : InstagramContentCrew.t)
    (topic : pystr) (save_images : bool)
    (s : InstagramContentCrew.Sys image)
    (out : InstagramContentCrew.Outputs) :
  run_crew topic = Ok out ->
  ImageGenerator.api_type (InstagramContentCrew.image_generator self)
  = py "pollinations" ->
  let r := create_content self topic save_images s in
  posts (InstagramContentCrew.net (snd r))
  = posts (InstagramContentCrew.net s)
  /\ (draws (InstagramContentCrew.net s)
      < draws (InstagramContentCrew.net (snd r))
      <= draws (InstagramContentCrew.net s) + 3)%nat
  /\ forall result,
       fst r = Ok result ->
       draws (InstagramContentCrew.net (snd r))
       = (draws (InstagramContentCrew.net s) + 3)%nat
       /\ exists e1 e2 e3,
            match result with
            | JObj fields => lookup (py "generated_images") fields
            | _ => None
            end = Some (JArr [JObj e1; JObj e2; JObj e3]).
Proof.
  intros Hrun Hapi. cbv zeta.
  pose proof (parse_image_prompts_length
                (InstagramContentCrew.image_prompts_result out) topic) as H3.
  unfold InstagramContentCrew.create_content. rewrite Hrun. cbv zeta.
  unfold ImageGenerator.generate_images. rewrite Hapi.
  change (eqb_str (py "pollinations") (py "nano_banana")) with false.
  change (eqb_str (py "pollinations") (py "segmind")) with false.
  change (eqb_str (py "pollinations") (py "stability")) with false.
  change (eqb_str (py "pollinations") (py "pollinations")) with true.
  cbv iota.
  destruct (first_unencodable
              (Crew._parse_image_prompts
                 (InstagramContentCrew.image_prompts_result out) topic))
    as [He|(pre & bad & post & Eq & Hpre & Hbad)].
  - rewrite generate_pollinations_eq by assumption.
    rewrite H3. change (Z.to_nat (Z.max 1 1)) with 1%nat.
    pose proof (pollinations_images_length entropy 1
                  (Crew._parse_image_prompts
                     (InstagramContentCrew.image_prompts_result out) topic)
                  (draws (InstagramContentCrew.net s))) as Hlen.
    rewrite H3 in Hlen.
    destruct (pollinations_images entropy 1 _ _)
      as [|e1 [|e2 [|e3 [|e4 es]]]]; try discriminate.
    match goal with
    | |- context [finish ?a ?b ?c ?d ?e ?f] =>
        pose proof (finish_spec a b c d e f) as F
    end.
    cbv zeta in F. destruct F as (Hnet & _ & F). rewrite Hnet.
    cbn [InstagramContentCrew.net posts draws].
    split; [reflexivity|]. split; [lia|].
    intros result Hr. rewrite Hr in F.
    destruct F as (short & long & saved & -> & _).
    split; [reflexivity|]. exists e1, e2, e3. reflexivity.
  - rewrite Eq in H3 |- *.
    destruct (generate_pollinations_raises entropy pre post bad 1
                (InstagramContentCrew.net s) Hpre Hbad) as [msg ->].
    cbn [fst snd InstagramContentCrew.net posts draws].
    rewrite length_app in H3. cbn [length] in H3.
    change (Z.to_nat (Z.max 1 1)) with 1%nat.
    split; [reflexivity|]. split; [lia|]. discriminate.
Qed.

(** X28. When asked not to save the images, a run downloads and saves none,
    and the value it returns lists no image path. *)
Theorem create_content_without_saving (self : InstagramContentCrew.t)
    (topic : pystr) (s : InstagramContentCrew.Sys image) :
  let r := create_content self topic false s in
  InstagramContentCrew.disk (snd r) = InstagramContentCrew.disk s
  /\ forall result,
       fst r = Ok result ->
       match result with
       | JObj fields => lookup (py "saved_image_paths") fields
       | _ => None
       end = Some (JArr []).
Proof.
  cbv zeta. unfold InstagramContentCrew.create_content.
  destruct (run_crew topic) as [out|e]; [|split; [reflexivity|discriminate]].
  cbv zeta.
  destruct (ImageGenerator.generate_images _ _ _ _ _ _) as [[imgs|e] net'];
    [|split; [reflexivity|discriminate]].
  match goal with
  | |- context [finish ?a ?b ?c ?d ?e ?f] =>
      pose proof (finish_spec a b c d e f) as F
  end.
  cbv zeta in F. destruct F as (_ & Hd & F).
  split; [now rewrite Hd|].
  intros result Hr. rewrite Hr in F.
  destruct F as (short & long & saved & -> & Hs & _).
  rewrite (Hs eq_refl). reflexivity.
Qed.

End RunFacts.

Lemma create_content_shape_witness :
  exists result s' out short_caption long_caption hashtags p1 p2 p3 images
         saved,
    create_content_ok two_urls
      {| InstagramContentCrew.image_generator := pollinator |}
      (py "AI") true blank_sys = (Ok result, s')
    /\ result = InstagramContentCrew.final_result (py "2025-01-01T09:30:00")
                  (py "AI") (InstagramContentCrew.research_result out)
                  short_caption long_caption hashtags [p1; p2; p3] images
                  saved
    /\ (length hashtags <= 30)%nat.
Proof.
  destruct (create_content_ok two_urls
              {| InstagramContentCrew.image_generator := pollinator |}
              (py "AI") true blank_sys) as [[result|e] s'] eqn:E.
  - destruct (create_content_shape _ _ _ _ _ _ _ _ _ _ _ _ _ _ _ _ _ _ _ _ _
                _ E)
      as (out & short & long & tags & p1 & p2 & p3 & images & saved
          & _ & Hr & Ht & _).
    exists result, s', out, short, long, tags, p1, p2, p3, images, saved.
    auto.
  - vm_compute in E. discriminate.
Defined.

Lemma create_content_requests_witness :
  exists p1 p2 p3,
    Crew._parse_image_prompts
      (InstagramContentCrew.image_prompts_result sample_outputs) (py "AI")
    = [p1; p2; p3]
    /\ posts (InstagramContentCrew.net
                (snd (create_content_ok flaky
                        {| InstagramContentCrew.image_generator := banana |}
                        (py "AI") true blank_sys)))
       = posts (InstagramContentCrew.net blank_sys)
         ++ map (fun q => request_of banana q 1) [p1; p2; p3].
Proof.
  apply (create_content_requests (fun _ => false) (fun c => [c]) flaky
           N.of_nat unit (fun _ => None) (fun _ => Ok tt) (fun _ _ => Ok tt)
           (fun _ _ _ => None) (fun dir name => dir ++ py "/" ++ name)
           (fun _ => []) (fun _ => Ok sample_outputs)
           (py "2025-01-01T09:30:00") (py "20250101_093000")
           (fun _ _ => None) (fun _ _ => None)
           {| InstagramContentCrew.image_generator := banana |}
           (py "AI") true blank_sys sample_outputs);
    reflexivity.
Defined.

Lemma create_content_pollinations_witness :
  posts (InstagramContentCrew.net
           (snd (create_content_ok offline
                   {| InstagramContentCrew.image_generator := pollinator |}
                   (py "AI") false blank_sys)))
  = posts (InstagramContentCrew.net blank_sys).
Proof.
  apply (create_content_pollinations (fun _ => false) (fun c => [c]) offline
           N.of_nat unit (fun _ => None) (fun _ => Ok tt) (fun _ _ => Ok tt)
           (fun _ _ _ => None) (fun dir name => dir ++ py "/" ++ name)
           (fun _ => []) (fun _ => Ok sample_outputs)
           (py "2025-01-01T09:30:00") (py "20250101_093000")
           (fun _ _ => None) (fun _ _ => None)
           {| InstagramContentCrew.image_generator := pollinator |}
           (py "AI") false blank_sys sample_outputs);
    reflexivity.
Defined.

Lemma create_content_without_saving_witness :
  exists result,
    fst (create_content_ok two_urls
           {| InstagramContentCrew.image_generator := pollinator |}
           (py "AI") false blank_sys) = Ok result
    /\ match result with
       | JObj fields => lookup (py "saved_image_paths") fields
       | _ => None
       end = Some (JArr []).
Proof.
  destruct (fst (create_content_ok two_urls
                   {| InstagramContentCrew.image_generator := pollinator |}
                   (py "AI") false blank_sys)) as [result|e] eqn:E.
  - exists result. split; [reflexivity|].
    exact (proj2 (create_content_without_saving _ _ _ _ _ _ _ _ _ _ _ _ _ _
                    _ _ _ _ _) result E).
  - vm_compute in E. discriminate.
Defined.

(* ===================================================================== *)
(** ** The topic chosen in [main] *)
(* ===================================================================== *)

Section ChoiceFacts.
Variable unicode_isdigit : char -> bool.
Variable int_other : pystr -> Result Z.

Lemma example_topic_clean (k : nat) :
  (k < 5)%nat ->
  nth k Main.example_topics [] <> []
  /\ strip (nth k Main.example_topics []) = nth k Main.example_topics [].
Proof.
  intros Hk.
  do 5 (destruct k as [|k]; [split; [discriminate | reflexivity]|]).
  lia.
Qed.

(** X29. Whatever line is read, the topic handed to the crew is never
    empty and has no surrounding whitespace: it is one of the example
    topics or the stripped line, and a blank line gives the first
    example topic. *)
Theorem select_topic_nonempty (line : pystr) :
  (forall topic,
      Main.select_topic unicode_isdigit int_other line = Ok topic ->
      topic <> [] /\ strip topic = topic
      /\ (In topic Main.example_topics \/ topic = strip line))
  /\ (strip line = [] ->
      Main.select_topic unicode_isdigit int_other line
      = Ok (py "The Future of Electric Cars")).
Proof.
  split.
  - intros topic. unfold Main.select_topic. cbv zeta.
    assert (Hown : forall t,
               Ok (if truthy (strip line) then strip line
                   else nth 0 Main.example_topics []) = Ok t ->
               t <> [] /\ strip t = t
               /\ (In t Main.example_topics \/ t = strip line)).
    { intros t E.
      assert (Ht : t = if truthy (strip line) then strip line
                       else nth 0 Main.example_topics [])
        by congruence.
      clear E. subst t. destruct (truthy (strip line)) eqn:Ht.
      - split; [now apply truthy_nonempty|].
        split; [apply strip_idem | now right].
      - split; [apply (example_topic_clean 0); lia|].
        split; [apply (example_topic_clean 0); lia|].
        left. now left. }
    destruct (Main.isdigit unicode_isdigit (strip line)); [|apply Hown].
    destruct (Main.int int_other (strip line)) as [n|e]; [|discriminate].
    destruct ((1 <=? n)%Z
              && (n <=? Z.of_nat (length Main.example_topics))%Z)
      eqn:Hr; [|apply Hown].
    intros E.
    assert (Ht : topic = nth (Z.to_nat (n - 1)) Main.example_topics [])
      by congruence.
    clear E. subst topic.
    apply andb_prop in Hr. destruct Hr as [H1 H2].
    apply Z.leb_le in H1, H2. cbn [length Main.example_topics] in H2.
    assert (Hk : (Z.to_nat (n - 1) < 5)%nat) by lia.
    split; [now apply example_topic_clean|].
    split; [now apply example_topic_clean|].
    left. apply nth_In. exact Hk.
  - intros Hb. unfold Main.select_topic. cbv zeta. rewrite Hb.
    reflexivity.
Qed.

(** X30. A line that, once stripped, is made of ASCII digits (at most 4300)
    selects the example topic of that number when the number is between
    1 and 5, leading zeros allowed; any other number is taken as the
    topic itself. *)
Theorem select_topic_number (line : pystr) :
  strip line <> [] ->
  forallb is_ascii_digit (strip line) = true ->
  (length (strip line) <= 4300)%nat ->
  Main.select_topic unicode_isdigit int_other line
  = Ok (if ((1 <=? Main.decimal_value (strip line))
            && (Main.decimal_value (strip line) <=? 5))%Z
        then nth (Z.to_nat (Main.decimal_value (strip line) - 1))
                 Main.example_topics []
        else strip line).
Proof.
  intros Hne Hd Hlen. unfold Main.select_topic. cbv zeta.
  assert (Hi : Main.isdigit unicode_isdigit (strip line) = true).
  { unfold Main.isdigit. apply andb_true_intro. split.
    - destruct (strip line); [contradiction | reflexivity].
    - apply forallb_forall. intros c Hc.
      pose proof (proj1 (forallb_forall _ _) Hd c Hc) as Hdc.
      assert (c < 128).
      { unfold is_ascii_digit in Hdc. apply andb_prop in Hdc.
        destruct Hdc as [_ H]. apply N.leb_le in H. lia. }
      now rewrite (proj2 (N.ltb_lt c 128) H). }
  rewrite Hi. unfold Main.int. rewrite Hd.
  rewrite (proj2 (Nat.leb_le _ _) Hlen). cbn [andb].
  change (Z.of_nat (length Main.example_topics)) with 5%Z.
  destruct ((1 <=? Main.decimal_value (strip line))%Z
            && (Main.decimal_value (strip line) <=? 5)%Z); [reflexivity|].
  destruct (strip line); [contradiction | reflexivity].
Qed.

End ChoiceFacts.

Lemma select_topic_nonempty_witness :
  (py "AI in Healthcare" <> []
   /\ strip (py "AI in Healthcare") = py "AI in Healthcare"
   /\ (In (py "AI in Healthcare") Main.example_topics
       \/ py "AI in Healthcare" = strip (py "  2 ")))
  /\ Main.select_topic (fun _ => false)
       (fun _ => Raise (Exn "ValueError" [])) (py "   ")
     = Ok (py "The Future of Electric Cars").
Proof.
  split.
  - apply (proj1 (select_topic_nonempty (fun _ => false)
                    (fun _ => Raise (Exn "ValueError" [])) (py "  2 "))).
    reflexivity.
  - apply (proj2 (select_topic_nonempty (fun _ => false)
                    (fun _ => Raise (Exn "ValueError" [])) (py "   "))).
    reflexivity.
Defined.

Lemma select_topic_number_witness :
  Main.select_topic (fun _ => false) (fun _ => Raise (Exn "ValueError" []))
    (py " 003 ")
  = Ok (py "Digital Nomad Lifestyle").
Proof.
  apply (select_topic_number (fun _ => false)
           (fun _ => Raise (Exn "ValueError" [])) (py " 003 ")).
  - discriminate.
  - reflexivity.
  - vm_compute. lia.
Defined.
